(** * PDF product extraction pipeline: model and verified properties

    A shallow embedding of the resilient extraction-and-verification core
    (retry controller, rate limiter, batch orchestrator, recovery cascade,
    schema validation with salvage parse, comparison engine and review
    prioritizer), followed by the properties proved about it.

    Conventions.
    - A JavaScript string is the list of its UTF-16 code units ([jsstring]).
    - JavaScript numbers are exact rationals ([Q]); where the code can reach
      a division by zero the result type [number] carries NaN and the
      infinities explicitly.  Rounding error of IEEE doubles is not modelled.
    - [undefined], [null] and a string are kept apart ([maybe_str]) wherever
      the code tells them apart. *)

From Stdlib Require Import ZArith QArith Qround Qminmax Qabs List Sorted String Ascii
  Bool Lia Lqa Qpower.
From stdpp Require Import base gmap.
Import ListNotations.
Local Open Scope Z_scope.

(* ===================================================================== *)
(** ** JavaScript strings *)
(* ===================================================================== *)

Module JS.

Definition jsstring := list N.

(** An ASCII literal as a JavaScript string. *)
Definition js (s : string) : jsstring :=
  List.map N_of_ascii (list_ascii_of_string s).

Fixpoint str_eqb (a b : jsstring) : bool :=
  match a, b with
  | [], [] => true
  | x :: a', y :: b' => N.eqb x y && str_eqb a' b'
  | _, _ => false
  end.

(** [s.startsWith(p)] *)
Fixpoint startsWith (s p : jsstring) : bool :=
  match p, s with
  | [], _ => true
  | x :: p', y :: s' => N.eqb x y && startsWith s' p'
  | _ :: _, [] => false
  end.

(** [s.includes(p)] *)
Fixpoint includes (s p : jsstring) : bool :=
  startsWith s p ||
  match s with
  | [] => false
  | _ :: s' => includes s' p
  end.

(** [s.indexOf(p)], [None] standing for -1. *)
Fixpoint indexOf (s p : jsstring) : option nat :=
  if startsWith s p then Some 0%nat
  else match s with
       | [] => None
       | _ :: s' => option_map S (indexOf s' p)
       end.

(** [s.substring(i, j)] for [0 <= i <= j]. *)
Definition substring (s : jsstring) (i j : nat) : jsstring :=
  firstn (j - i) (skipn i s).

(** White space and line terminators, the set of [\s] and of [trim]. *)
Definition isWhiteSpace (c : N) : bool :=
  ((9 <=? c) && (c <=? 13) || (c =? 32) || (c =? 160) || (c =? 5760)
   || ((8192 <=? c) && (c <=? 8202)) || (c =? 8232) || (c =? 8233)
   || (c =? 8239) || (c =? 8287) || (c =? 12288) || (c =? 65279))%N.

Fixpoint trimStart (s : jsstring) : jsstring :=
  match s with
  | c :: s' => if isWhiteSpace c then trimStart s' else s
  | [] => []
  end.

Definition trimEnd (s : jsstring) : jsstring := rev (trimStart (rev s)).

Definition trim (s : jsstring) : jsstring := trimEnd (trimStart s).

(** [toLowerCase], one code unit at a time.  Exact on ASCII; the capital
    letters of the Latin-1, Greek and Cyrillic blocks are mapped to their
    small letters; every other code unit is left as it is (the
    context-sensitive rules of the Unicode tables are not modelled). *)
Definition lower_unit (c : N) : N :=
  (if (65 <=? c) && (c <=? 90) then c + 32
   else if (192 <=? c) && (c <=? 222) && negb (c =? 215) then c + 32
   else if (913 <=? c) && (c <=? 939) && negb (c =? 930) then c + 32
   else if (1040 <=? c) && (c <=? 1071) then c + 32
   else if (1024 <=? c) && (c <=? 1039) then c + 80
   else c)%N.

Definition toLowerCase (s : jsstring) : jsstring := List.map lower_unit s.

Definition isDigit (c : N) : bool := ((48 <=? c) && (c <=? 57))%N.
Definition isLowerAZ (c : N) : bool := ((97 <=? c) && (c <=? 122))%N.
Definition isUpperAZ (c : N) : bool := ((65 <=? c) && (c <=? 90))%N.

(** Decimal rendering of a natural number, as [String(n)] gives it. *)
Fixpoint digits_of (fuel : nat) (n : N) (acc : jsstring) : jsstring :=
  match fuel with
  | O => acc
  | S f =>
      let acc' := (48 + n mod 10)%N :: acc in
      if (n / 10 =? 0)%N then acc' else digits_of f (n / 10)%N acc'
  end.

Definition nat_to_string (n : nat) : jsstring :=
  digits_of (S n) (N.of_nat n) [].

(** [parts.join(sep)] *)
Fixpoint join (sep : jsstring) (parts : list jsstring) : jsstring :=
  match parts with
  | [] => []
  | [p] => p
  | p :: rest => p ++ sep ++ join sep rest
  end.

(** The double quote, as a one-unit string. *)
Definition dq : jsstring := [34%N].

(** A string that may be [undefined] or [null]. *)
Inductive maybe_str :=
| MUndefined
| MNull
| MStr (s : jsstring).

(** [v || null] on a [string | null | undefined]: the empty string is falsy. *)
Definition or_null (v : maybe_str) : option jsstring :=
  match v with
  | MStr (c :: s) => Some (c :: s)
  | _ => None
  end.

(** JavaScript numbers where a division by zero can be reached. *)
Inductive number :=
| Num (q : Q)
| PosInf
| NegInf
| NaN.

Definition num_eq (a b : number) : Prop :=
  match a, b with
  | Num p, Num q => p == q
  | PosInf, PosInf => True
  | NegInf, NegInf => True
  | _, _ => False
  end.

(** [a / b] on finite operands. *)
Definition num_div (a b : Q) : number :=
  if Qeq_bool b 0 then
    (if Qeq_bool a 0 then NaN
     else if Qle_bool 0 a then PosInf else NegInf)
  else Num (a / b).

(** [x * c] for a finite positive constant [c]. *)
Definition num_scale (x : number) (c : Q) : number :=
  match x with
  | Num q => Num (q * c)
  | other => other
  end.

End JS.
Import JS.

Inductive Severity := low | medium | high.

Definition severity_eqb (a b : Severity) : bool :=
  match a, b with
  | low, low | medium, medium | high, high => true
  | _, _ => false
  end.

(* ===================================================================== *)
(** ** Retry controller (error-handler) *)
(* ===================================================================== *)

Module ErrorHandler.

Record RetryConfig := {
  maxRetries : nat;
  baseDelay : Q;
  maxDelay : Q;
  backoffMultiplier : Q
}.

(** [env.MAX_RETRIES] is a positive integer by the environment schema. *)
Definition DEFAULT_RETRY_CONFIG (MAX_RETRIES : positive) : RetryConfig :=
  {| maxRetries := Pos.to_nat MAX_RETRIES;
     baseDelay := 1000;
     maxDelay := 10000;
     backoffMultiplier := 2 |}.

Inductive ErrorType :=
| RATE_LIMIT
| TIMEOUT
| NETWORK
| INVALID_FILE
| VALIDATION
| API_ERROR
| UNKNOWN.

(** A thrown value: an [Error] with its message, or anything else with the
    text [String(error)] gives for it. *)
Inductive thrown :=
| ErrorObject (message : jsstring)
| NonError (asString : jsstring).

Definition classifyError (error : thrown) : ErrorType :=
  let errorMsg :=
    match error with
    | ErrorObject message => toLowerCase message
    | NonError s => toLowerCase s
    end in
  if includes errorMsg (js "rate limit") || includes errorMsg (js "429")
  then RATE_LIMIT
  else if includes errorMsg (js "timeout") || includes errorMsg (js "timed out")
  then TIMEOUT
  else if includes errorMsg (js "network") || includes errorMsg (js "econnrefused")
          || includes errorMsg (js "enotfound")
  then NETWORK
  else if includes errorMsg (js "invalid pdf") || includes errorMsg (js "corrupt")
          || includes errorMsg (js "malformed")
  then INVALID_FILE
  else if includes errorMsg (js "validation") || includes errorMsg (js "parse")
  then VALIDATION
  else if includes errorMsg (js "api") || includes errorMsg (js "401")
          || includes errorMsg (js "403")
  then API_ERROR
  else UNKNOWN.

Definition isRetryable (error : thrown) : bool :=
  match classifyError error with
  | RATE_LIMIT | TIMEOUT | NETWORK | API_ERROR => true
  | _ => false
  end.

(** What one invocation of the wrapped operation does. *)
Inductive Outcome (T : Type) :=
| Resolved (value : T)
| Thrown (error : thrown).
Arguments Resolved {T} value.
Arguments Thrown {T} error.

(** Observable effects of [withRetry], in order. *)
Inductive event :=
| Invoke (attempt : nat)
| LogWarn (attempt : nat)
| LogError
| Sleep (ms : Q).

Section WithRetry.
Context {T : Type}.
Variable config : RetryConfig.
(** [Math.random()] as drawn at each attempt, in [0, 1). *)
Variable random : nat -> Q.
(** The outcome of the operation when invoked at each attempt. *)
Variable fn : nat -> Outcome T.

Definition calculateDelay (attemptNumber : nat) : Q :=
  let delay :=
    Qmin (baseDelay config
            * Qpower (backoffMultiplier config) (Z.of_nat attemptNumber))
         (maxDelay config) in
  delay + random attemptNumber * 1000.

(** The recursion of [withRetry] on [currentAttempt]; [None] when the
    fuel runs out. *)
Fixpoint withRetry_from (fuel : nat) (currentAttempt : nat)
  : option (list event * Outcome T) :=
  match fuel with
  | O => None
  | S fuel' =>
      match fn currentAttempt with
      | Resolved v => Some ([Invoke currentAttempt], Resolved v)
      | Thrown error =>
          if (maxRetries config <=? currentAttempt)%nat then
            Some ([Invoke currentAttempt; LogError], Thrown error)
          else
            let delay := calculateDelay currentAttempt in
            match withRetry_from fuel' (S currentAttempt) with
            | Some (tr, r) =>
                Some (Invoke currentAttempt :: LogWarn currentAttempt
                        :: Sleep delay :: tr, r)
            | None => None
            end
      end
  end.

Definition withRetry : option (list event * Outcome T) :=
  withRetry_from (S (maxRetries config)) 0.
End WithRetry.

Definition is_invoke (e : event) : bool :=
  match e with Invoke _ => true | _ => false end.
Definition is_sleep (e : event) : bool :=
  match e with Sleep _ => true | _ => false end.

End ErrorHandler.

(* ===================================================================== *)
(** ** Rate limiter *)
(* ===================================================================== *)

Module RateLimiter.

Record t := {
  requestTimes : list Z;
  maxRequestsPerMinute : Z
}.

Definition create (maxRequestsPerMinute : Z) : t :=
  {| requestTimes := []; maxRequestsPerMinute := maxRequestsPerMinute |}.

(** What one pass through the body of [acquire] decides. *)
Inductive decision :=
| Granted
| Suspended (waitTime : Z).

(** One pass through [acquire] at clock reading [now], up to the point
    where it either records the admission or goes to sleep.  No other task
    runs in between: the body has no suspension point before either.
    [requestTimes[0]] of an empty list is [undefined], which makes
    [waitTime] NaN and the test [waitTime > 0] false. *)
Definition acquire_pass (now : Z) (rl : t) : t * decision :=
  let oneMinuteAgo := now - 60000 in
  let kept := List.filter (fun time => oneMinuteAgo <? time) (requestTimes rl) in
  let rl1 := {| requestTimes := kept;
                maxRequestsPerMinute := maxRequestsPerMinute rl |} in
  let grant := ({| requestTimes := kept ++ [now];
                   maxRequestsPerMinute := maxRequestsPerMinute rl |}, Granted) in
  if maxRequestsPerMinute rl <=? Z.of_nat (length kept) then
    match kept with
    | oldestRequest :: _ =>
        let waitTime := 60000 - (now - oldestRequest) + 100 in
        if 0 <? waitTime then (rl1, Suspended waitTime) else grant
    | [] => grant
    end
  else grant.


(** The limiter shared by all tasks: any interleaving of callers is a
    sequence of passes, each at its own clock reading.  [run] replays such
    a sequence and returns, with the final limiter, every pass together
    with the admissions recorded before it and its decision. *)
Fixpoint run (passes : list Z) (rl : t) (history : list Z)
  : t * list (Z * list Z * decision) :=
  match passes with
  | [] => (rl, [])
  | now :: rest =>
      let '(rl', d) := acquire_pass now rl in
      let history' := match d with
                      | Granted => history ++ [now]
                      | Suspended _ => history
                      end in
      let '(rl'', log) := run rest rl' history' in
      (rl'', (now, history, d) :: log)
  end.


End RateLimiter.

(* ===================================================================== *)
(** ** Regular expressions

    The backtracking matcher of the JavaScript engine for the constructs
    the sources use: character classes, sequence, alternation, greedy and
    lazy repetition, capture groups and the end anchor.  A continuation
    stands for the rest of the pattern, so alternatives are tried in the
    engine's priority order. *)
(* ===================================================================== *)

Module Regex.

Inductive regex :=
| Chr (p : N -> bool)
| Eps
| Seq (r1 r2 : regex)
| Alt (r1 r2 : regex)
| Star (greedy : bool) (r : regex)
| Group (n : nat) (r : regex)
| WordBoundary
| Eos.

Definition captures := list (nat * jsstring).

Fixpoint set_capture (n : nat) (v : jsstring) (caps : captures) : captures :=
  match caps with
  | [] => [(n, v)]
  | (m, w) :: rest =>
      if Nat.eqb m n then (n, v) :: rest else (m, w) :: set_capture n v rest
  end.

Fixpoint capture (n : nat) (caps : captures) : option jsstring :=
  match caps with
  | [] => None
  | (m, w) :: rest => if Nat.eqb m n then Some w else capture n rest
  end.

(** [\w] *)
Definition isWordChar (c : N) : bool :=
  isLowerAZ c || isUpperAZ c || isDigit c || (c =? 95)%N.

(** [prev] is the code unit just before the position, if any; [s] is the
    input from the position on. *)
Fixpoint rmatch {A : Type} (r : regex) (prev : option N) (s : jsstring)
    (caps : captures)
    (k : option N -> jsstring -> captures -> option A) {struct r} : option A :=
  match r with
  | Chr p =>
      match s with
      | c :: s' => if p c then k (Some c) s' caps else None
      | [] => None
      end
  | Eps => k prev s caps
  | Seq r1 r2 =>
      rmatch r1 prev s caps (fun prev' s' caps' => rmatch r2 prev' s' caps' k)
  | Alt r1 r2 =>
      match rmatch r1 prev s caps k with
      | Some x => Some x
      | None => rmatch r2 prev s caps k
      end
  | Star greedy r' =>
      (fix iterate (n : nat) (prev : option N) (s : jsstring)
           (caps : captures) {struct n} : option A :=
         let more :=
           match n with
           | O => None
           | S n' =>
               rmatch r' prev s caps
                 (fun prev' s' caps' =>
                    if (length s' <? length s)%nat
                    then iterate n' prev' s' caps' else None)
           end in
         if greedy then
           match more with
           | Some x => Some x
           | None => k prev s caps
           end
         else
           match k prev s caps with
           | Some x => Some x
           | None => more
           end) (length s) prev s caps
  | Group n r' =>
      rmatch r' prev s caps
        (fun prev' s' caps' =>
           k prev' s' (set_capture n (firstn (length s - length s') s) caps'))
  | WordBoundary =>
      let before := match prev with Some c => isWordChar c | None => false end in
      let after := match s with c :: _ => isWordChar c | [] => false end in
      if xorb before after then k prev s caps else None
  | Eos =>
      match s with
      | [] => k prev s caps
      | _ :: _ => None
      end
  end.

(** A match starting at the head of [s]: the unmatched rest and the groups. *)
Definition match_at (r : regex) (prev : option N) (s : jsstring)
  : option (jsstring * captures) :=
  rmatch r prev s [] (fun _ rest caps => Some (rest, caps)).

Definition match_here (r : regex) (s : jsstring) : option (jsstring * captures) :=
  match_at r None s.

(** [r.test(s)] for a pattern that starts with [^]. *)
Definition test_anchored (r : regex) (s : jsstring) : bool :=
  match match_here r s with Some _ => true | None => false end.

(** [s.match(r)] without the [g] flag: the leftmost match, as the text
    before it, the matched text and the groups. *)
Fixpoint exec_from (r : regex) (before : jsstring) (s : jsstring)
  : option (jsstring * jsstring * captures) :=
  match match_at r (hd_error before) s with
  | Some (rest, caps) =>
      Some (rev before, firstn (length s - length rest) s, caps)
  | None =>
      match s with
      | [] => None
      | c :: s' => exec_from r (c :: before) s'
      end
  end.

Definition exec (r : regex) (s : jsstring) := exec_from r [] s.

Definition test (r : regex) (s : jsstring) : bool :=
  match exec r s with Some _ => true | None => false end.

(** [s.replace(r, by)] with the [g] flag; the replacement may use the
    groups of the match. *)
Fixpoint replace_loop (fuel : nat) (r : regex) (by_ : captures -> jsstring)
    (prev : option N) (s : jsstring) : jsstring :=
  match fuel with
  | O => s
  | S fuel' =>
      let step :=
        match s with
        | [] => []
        | c :: s' => c :: replace_loop fuel' r by_ (Some c) s'
        end in
      match match_at r prev s with
      | Some (rest, caps) =>
          if (length rest <? length s)%nat
          then
            by_ caps
            ++ replace_loop fuel' r by_
                 (last (firstn (length s - length rest) s)) rest
          else by_ caps ++ step
      | None => step
      end
  end.

Definition replace_all_with (r : regex) (by_ : captures -> jsstring)
    (s : jsstring) : jsstring :=
  replace_loop (S (length s)) r by_ None s.

Definition replace_all (r : regex) (by_ : jsstring) (s : jsstring) : jsstring :=
  replace_all_with r (fun _ => by_) s.

(** [s.replace(r, by)] without the [g] flag: the leftmost match only. *)
Definition replace_first (r : regex) (by_ : jsstring) (s : jsstring) : jsstring :=
  match exec r s with
  | Some (before, matched, _) =>
      before ++ by_ ++ skipn (length before + length matched) s
  | None => s
  end.

(** [s.split(r)] for a pattern that matches exactly one code unit. *)
Fixpoint split_on (p : N -> bool) (s : jsstring) (cur : jsstring)
  : list jsstring :=
  match s with
  | [] => [rev cur]
  | c :: s' => if p c then rev cur :: split_on p s' [] else split_on p s' (c :: cur)
  end.

(** Pattern building blocks. *)
Definition one (c : N) : regex := Chr (N.eqb c).
Definition plus (r : regex) : regex := Seq r (Star true r).
Definition opt (r : regex) : regex := Alt r Eps.
Definition any : regex := Chr (fun _ => true).
Definition ws : regex := Chr isWhiteSpace.
Definition digit : regex := Chr isDigit.
(** [.]: anything but a line terminator. *)
Definition dot : regex :=
  Chr (fun c => negb ((c =? 10) || (c =? 13) || (c =? 8232) || (c =? 8233))%N).

Fixpoint seq_of (rs : list regex) : regex :=
  match rs with
  | [] => Eps
  | [r] => r
  | r :: rest => Seq r (seq_of rest)
  end.

(** A literal, and a literal under the [i] flag (ASCII letters fold). *)
Definition lit (s : string) : regex := seq_of (List.map one (js s)).
Definition fold_ascii (c : N) : N :=
  (if (65 <=? c) && (c <=? 90) then c + 32 else c)%N.
Definition one_i (c : N) : regex :=
  Chr (fun d => N.eqb (fold_ascii d) (fold_ascii c)).
Definition lit_i (s : string) : regex := seq_of (List.map one_i (js s)).

End Regex.

(* ===================================================================== *)
(** ** Values produced by the JSON parsers *)
(* ===================================================================== *)

Module Json.

Local Unset Elimination Schemes.
Inductive value :=
| JNull
| JBool (b : bool)
| JNum (q : Q)
| JStr (s : jsstring)
| JArr (items : list value)
| JObj (fields : list (jsstring * value)).
Local Set Elimination Schemes.

Fixpoint lookup (fields : list (jsstring * value)) (name : jsstring)
  : option value :=
  match fields with
  | [] => None
  | (k, v) :: rest => if str_eqb k name then Some v else lookup rest name
  end.

(** [obj[name]] for the property names the sources read; [None] is
    [undefined].  Only plain objects carry such properties. *)
Definition prop (v : value) (name : string) : option value :=
  match v with
  | JObj fields => lookup fields (js name)
  | _ => None
  end.

(** [typeof v === 'object' && v !== null] *)
Definition is_object (v : value) : bool :=
  match v with
  | JObj _ | JArr _ => true
  | _ => false
  end.

(** [typeof v === 'string'] on a possibly undefined value. *)
Definition as_string (v : option value) : option jsstring :=
  match v with
  | Some (JStr s) => Some s
  | _ => None
  end.

(** [Array.isArray(v)] on a possibly undefined value. *)
Definition isArray (v : option value) : bool :=
  match v with
  | Some (JArr _) => true
  | _ => false
  end.

End Json.
Import Json.

(* ===================================================================== *)
(** ** Schemas, shape validators and salvage parse (json-validator) *)
(* ===================================================================== *)

Module JsonValidator.
Import Regex.

Record NutrientData := {
  name : jsstring;
  amount : maybe_str;
  dailyValuePercentAdult : maybe_str;
  dailyValuePercentChildren : maybe_str;
  dailyValuePercent : maybe_str
}.

Record SupplementFactsData := {
  servings : jsstring;
  servingsPerContainer : jsstring;
  calories : maybe_str;
  protein : maybe_str;
  nutrients : list NutrientData
}.

Record IngredientData := {
  ingredientName : jsstring;
  isOrganic : bool
}.

Record ProductExtractionData := {
  productName : jsstring;
  productSlogan : maybe_str;
  productDescription : jsstring;
  subbrand : maybe_str;
  supplementFacts : option SupplementFactsData;
  ingredients : list IngredientData;
  directions : jsstring;
  caution : maybe_str;
  dietaryAttributes : list jsstring;
  references : maybe_str
}.

(** *** The schema library

    A schema maps a possibly undefined input to a validated value or to
    the list of issues found, each with its path.  Messages are those of
    the library's default error map. *)

Record issue := { path : list jsstring; message : jsstring }.

Inductive parsed (T : Type) :=
| Valid (v : T)
| Invalid (issues : list issue).
Arguments Valid {T} v.
Arguments Invalid {T} issues.

Definition issues_of {T} (p : parsed T) : list issue :=
  match p with Valid _ => [] | Invalid l => l end.

Definition type_name (v : option value) : jsstring :=
  match v with
  | None => js "undefined"
  | Some JNull => js "null"
  | Some (JBool _) => js "boolean"
  | Some (JNum _) => js "number"
  | Some (JStr _) => js "string"
  | Some (JArr _) => js "array"
  | Some (JObj _) => js "object"
  end.

Definition invalid_type {T} (p : list jsstring) (expected : string)
    (v : option value) : parsed T :=
  match v with
  | None => Invalid [{| path := p; message := js "Required" |}]
  | Some _ =>
      Invalid [{| path := p;
                  message := js "Expected " ++ js expected ++ js ", received "
                             ++ type_name v |}]
  end.

(** [z.string().min(1)] *)
Definition z_string_min1 (p : list jsstring) (v : option value) : parsed jsstring :=
  match v with
  | Some (JStr s) =>
      match s with
      | [] => Invalid [{| path := p;
                          message := js "String must contain at least 1 character(s)" |}]
      | _ :: _ => Valid s
      end
  | _ => invalid_type p "string" v
  end.

(** [z.string().regex(re, msg).nullable().optional()]; [re] starts with [^]. *)
Definition z_string_regex_opt (re : regex) (msg : string)
    (p : list jsstring) (v : option value) : parsed maybe_str :=
  match v with
  | None => Valid MUndefined
  | Some JNull => Valid MNull
  | Some (JStr s) =>
      if test_anchored re s then Valid (MStr s)
      else Invalid [{| path := p; message := js msg |}]
  | _ => invalid_type p "string" v
  end.

(** [z.string().nullable().optional()] *)
Definition z_string_opt (p : list jsstring) (v : option value) : parsed maybe_str :=
  match v with
  | None => Valid MUndefined
  | Some JNull => Valid MNull
  | Some (JStr s) => Valid (MStr s)
  | _ => invalid_type p "string" v
  end.

(** [z.boolean().default(false)] *)
Definition z_boolean_default_false (p : list jsstring) (v : option value)
  : parsed bool :=
  match v with
  | None => Valid false
  | Some (JBool b) => Valid b
  | _ => invalid_type p "boolean" v
  end.

(** The elements of [z.array(elem)], each under its index. *)
Fixpoint z_items {T} (elem : list jsstring -> option value -> parsed T)
    (p : list jsstring) (i : nat) (items : list value) : parsed (list T) :=
  match items with
  | [] => Valid []
  | x :: rest =>
      match elem (p ++ [nat_to_string i]) (Some x), z_items elem p (S i) rest with
      | Valid a, Valid l => Valid (a :: l)
      | pa, pl => Invalid (issues_of pa ++ issues_of pl)
      end
  end.

(** [z.array(elem).default([])] *)
Definition z_array_default_empty {T}
    (elem : list jsstring -> option value -> parsed T)
    (p : list jsstring) (v : option value) : parsed (list T) :=
  match v with
  | None => Valid []
  | Some (JArr items) => z_items elem p 0 items
  | _ => invalid_type p "array" v
  end.

(** /^<?[\d.]+\s*[a-zA-Z]+/ *)
Definition amount_regex : regex :=
  seq_of [opt (one 60);
          plus (Chr (fun c => isDigit c || (c =? 46)%N));
          Star true ws;
          plus (Chr (fun c => isLowerAZ c || isUpperAZ c))].

(** /^<?[\d.]+$/ *)
Definition percent_regex : regex :=
  seq_of [opt (one 60);
          plus (Chr (fun c => isDigit c || (c =? 46)%N));
          Eos].

Definition nutrientSchema (p : list jsstring) (v : option value)
  : parsed NutrientData :=
  match v with
  | Some (JObj _ as o) =>
      let f_name := z_string_min1 (p ++ [js "name"]) (prop o "name") in
      let f_amount :=
        z_string_regex_opt amount_regex
          "Amount must include number and unit (e.g., '100 mg', '<1 g')"
          (p ++ [js "amount"]) (prop o "amount") in
      let f_adult :=
        z_string_regex_opt percent_regex "Daily value percent must be numeric"
          (p ++ [js "dailyValuePercentAdult"]) (prop o "dailyValuePercentAdult") in
      let f_children :=
        z_string_regex_opt percent_regex "Daily value percent must be numeric"
          (p ++ [js "dailyValuePercentChildren"])
          (prop o "dailyValuePercentChildren") in
      let f_legacy :=
        z_string_opt (p ++ [js "dailyValuePercent"]) (prop o "dailyValuePercent") in
      match f_name, f_amount, f_adult, f_children, f_legacy with
      | Valid n, Valid a, Valid da, Valid dc, Valid dl =>
          Valid {| name := n; amount := a; dailyValuePercentAdult := da;
                   dailyValuePercentChildren := dc; dailyValuePercent := dl |}
      | _, _, _, _, _ =>
          Invalid (issues_of f_name ++ issues_of f_amount ++ issues_of f_adult
                   ++ issues_of f_children ++ issues_of f_legacy)
      end
  | _ => invalid_type p "object" v
  end.

Definition supplementFactsSchema (p : list jsstring) (v : option value)
  : parsed SupplementFactsData :=
  match v with
  | Some (JObj _ as o) =>
      let f_servings := z_string_min1 (p ++ [js "servings"]) (prop o "servings") in
      let f_spc :=
        z_string_min1 (p ++ [js "servingsPerContainer"])
          (prop o "servingsPerContainer") in
      let f_calories := z_string_opt (p ++ [js "calories"]) (prop o "calories") in
      let f_protein := z_string_opt (p ++ [js "protein"]) (prop o "protein") in
      let f_nutrients :=
        z_array_default_empty nutrientSchema (p ++ [js "nutrients"])
          (prop o "nutrients") in
      match f_servings, f_spc, f_calories, f_protein, f_nutrients with
      | Valid s, Valid c, Valid cal, Valid pr, Valid ns =>
          Valid {| servings := s; servingsPerContainer := c; calories := cal;
                   protein := pr; nutrients := ns |}
      | _, _, _, _, _ =>
          Invalid (issues_of f_servings ++ issues_of f_spc ++ issues_of f_calories
                   ++ issues_of f_protein ++ issues_of f_nutrients)
      end
  | _ => invalid_type p "object" v
  end.

(** [supplementFactsSchema.optional()] *)
Definition supplementFactsSchema_optional (p : list jsstring) (v : option value)
  : parsed (option SupplementFactsData) :=
  match v with
  | None => Valid None
  | Some _ =>
      match supplementFactsSchema p v with
      | Valid sf => Valid (Some sf)
      | Invalid l => Invalid l
      end
  end.

Definition ingredientSchema (p : list jsstring) (v : option value)
  : parsed IngredientData :=
  match v with
  | Some (JObj _ as o) =>
      let f_name := z_string_min1 (p ++ [js "name"]) (prop o "name") in
      let f_org :=
        z_boolean_default_false (p ++ [js "isOrganic"]) (prop o "isOrganic") in
      match f_name, f_org with
      | Valid n, Valid b => Valid {| ingredientName := n; isOrganic := b |}
      | _, _ => Invalid (issues_of f_name ++ issues_of f_org)
      end
  | _ => invalid_type p "object" v
  end.

(** [z.string()] as the element of [z.array(z.string())] *)
Definition z_string (p : list jsstring) (v : option value) : parsed jsstring :=
  match v with
  | Some (JStr s) => Valid s
  | _ => invalid_type p "string" v
  end.

Definition productExtractionSchema (p : list jsstring) (v : option value)
  : parsed ProductExtractionData :=
  match v with
  | Some (JObj _ as o) =>
      let f_name := z_string_min1 (p ++ [js "productName"]) (prop o "productName") in
      let f_slogan :=
        z_string_opt (p ++ [js "productSlogan"]) (prop o "productSlogan") in
      let f_desc :=
        z_string_min1 (p ++ [js "productDescription"])
          (prop o "productDescription") in
      let f_subbrand := z_string_opt (p ++ [js "subbrand"]) (prop o "subbrand") in
      let f_facts :=
        supplementFactsSchema_optional (p ++ [js "supplementFacts"])
          (prop o "supplementFacts") in
      let f_ingredients :=
        z_array_default_empty ingredientSchema (p ++ [js "ingredients"])
          (prop o "ingredients") in
      let f_directions :=
        z_string_min1 (p ++ [js "directions"]) (prop o "directions") in
      let f_caution := z_string_opt (p ++ [js "caution"]) (prop o "caution") in
      let f_dietary :=
        z_array_default_empty z_string (p ++ [js "dietaryAttributes"])
          (prop o "dietaryAttributes") in
      let f_references :=
        z_string_opt (p ++ [js "references"]) (prop o "references") in
      match f_name, f_slogan, f_desc, f_subbrand, f_facts with
      | Valid n, Valid sl, Valid d, Valid sb, Valid sf =>
          match f_ingredients, f_directions, f_caution, f_dietary, f_references with
          | Valid ing, Valid dir, Valid ca, Valid da, Valid re =>
              Valid {| productName := n; productSlogan := sl;
                       productDescription := d; subbrand := sb;
                       supplementFacts := sf; ingredients := ing;
                       directions := dir; caution := ca;
                       dietaryAttributes := da; references := re |}
          | _, _, _, _, _ =>
              Invalid (issues_of f_ingredients ++ issues_of f_directions
                       ++ issues_of f_caution ++ issues_of f_dietary
                       ++ issues_of f_references)
          end
      | _, _, _, _, _ =>
          Invalid (issues_of f_name ++ issues_of f_slogan ++ issues_of f_desc
                   ++ issues_of f_subbrand ++ issues_of f_facts
                   ++ issues_of f_ingredients ++ issues_of f_directions
                   ++ issues_of f_caution ++ issues_of f_dietary
                   ++ issues_of f_references)
      end
  | _ => invalid_type p "object" v
  end.

(** The result of [validateProductExtraction]: the validated record, or the
    error text built from the issues. *)
Inductive validation :=
| ValidationOk (data : ProductExtractionData)
| ValidationError (error : jsstring).

Definition validateProductExtraction (data : value) : validation :=
  match productExtractionSchema [] (Some data) with
  | Valid validated => ValidationOk validated
  | Invalid errors =>
      let errorMessages :=
        List.map (fun err => join (js ".") (path err) ++ js ": " ++ message err)
                 errors in
      ValidationError (js "Validation failed:" ++ [10%N]
                       ++ join [10%N] errorMessages)
  end.

Definition nonempty_string (v : option value) : bool :=
  match v with
  | Some (JStr (_ :: _)) => true
  | _ => false
  end.

Definition is_string (v : option value) : bool :=
  match v with
  | Some (JStr _) => true
  | _ => false
  end.

Definition defined (v : option value) : bool :=
  match v with Some _ => true | None => false end.

Definition isLikelyProductExtraction (data : value) : bool :=
  if negb (is_object data) then false
  else
    let hasRequired :=
      forallb (fun field => nonempty_string (prop data field))
              ["productName"; "productDescription"]%string in
    let hasExpected :=
      existsb (fun field => defined (prop data field))
              ["supplementFacts"; "ingredients"; "directions"]%string in
    hasRequired && hasExpected.

Definition isLikelySupplementFacts (data : value) : bool :=
  if negb (is_object data) then false
  else
    let hasServings := nonempty_string (prop data "servings") in
    let hasServingsPerContainer := is_string (prop data "servingsPerContainer") in
    let hasNutrients := isArray (prop data "nutrients") in
    hasServings && hasServingsPerContainer && hasNutrients.

Definition isLikelyTextStructuring (data : value) : bool :=
  if negb (is_object data) then false
  else
    let hasIngredients := isArray (prop data "ingredients") in
    let hasDirections := is_string (prop data "directions") in
    hasIngredients || hasDirections.

Definition isLikelyFullProduct (data : value) : bool :=
  if negb (is_object data) then false
  else
    let hasDescription := nonempty_string (prop data "productDescription") in
    let hasDietaryAttributes := isArray (prop data "dietaryAttributes") in
    let hasSlogan := defined (prop data "productSlogan") in
    let hasReferences := defined (prop data "references") in
    let hasSubbrand := defined (prop data "subbrand") in
    (hasDescription || hasDietaryAttributes)
    && (hasSlogan || hasReferences || hasSubbrand || hasDietaryAttributes).

(** [typeof v === 'string' ? v : fallback] *)
Definition string_or (v : option value) (fallback : string) : jsstring :=
  match v with
  | Some (JStr s) => s
  | _ => js fallback
  end.

(** [typeof v === 'string' ? v : null] *)
Definition string_or_null (v : option value) : maybe_str :=
  match v with
  | Some (JStr s) => MStr s
  | _ => MNull
  end.

(** The filter of the salvage: an object with a string [name]. *)
Definition has_string_name (n : value) : bool :=
  is_object n && is_string (prop n "name").

(** The map of the salvage. *)
Definition salvage_nutrient (nutrient : value) : NutrientData :=
  {| name := match prop nutrient "name" with
             | Some (JStr s) => s
             | _ => []
             end;
     amount := string_or_null (prop nutrient "amount");
     dailyValuePercentAdult :=
       match prop nutrient "dailyValuePercentAdult" with
       | Some (JStr s) => MStr s
       | _ => string_or_null (prop nutrient "dailyValuePercent")
       end;
     dailyValuePercentChildren :=
       string_or_null (prop nutrient "dailyValuePercentChildren");
     dailyValuePercent := MUndefined |}.

Definition salvage_supplementFacts (data : value) : option SupplementFactsData :=
  match prop data "supplementFacts" with
  | Some sfPartial =>
      if is_object sfPartial then
        match supplementFactsSchema [] (Some sfPartial) with
        | Valid sf => Some sf
        | Invalid _ =>
            match prop sfPartial "nutrients" with
            | Some (JArr ns) =>
                Some {| servings := string_or (prop sfPartial "servings") "1";
                        servingsPerContainer :=
                          string_or (prop sfPartial "servingsPerContainer") "1";
                        calories := string_or_null (prop sfPartial "calories");
                        protein := string_or_null (prop sfPartial "protein");
                        nutrients :=
                          List.map salvage_nutrient
                                   (List.filter has_string_name ns) |}
            | _ => None
            end
        end
      else None
  | None => None
  end.

Definition safeParseProductExtraction (data : value)
  : option ProductExtractionData :=
  match productExtractionSchema [] (Some data) with
  | Valid d => Some d
  | Invalid _ =>
      if is_object data then
        Some {| productName := string_or (prop data "productName") "Unknown";
                productSlogan := string_or_null (prop data "productSlogan");
                productDescription :=
                  string_or (prop data "productDescription")
                            "No description available";
                subbrand := string_or_null (prop data "subbrand");
                supplementFacts := salvage_supplementFacts data;
                ingredients := [];
                directions :=
                  string_or (prop data "directions") "No directions provided";
                caution := string_or_null (prop data "caution");
                dietaryAttributes := [];
                references := string_or_null (prop data "references") |}
      else None
  end.

End JsonValidator.

(* ===================================================================== *)
(** ** [Map] with string keys: insertion order, last value wins *)
(* ===================================================================== *)

Module JsMap.

Definition t (V : Type) := list (jsstring * V).

Fixpoint set {V} (k : jsstring) (v : V) (m : t V) : t V :=
  match m with
  | [] => [(k, v)]
  | (k', v') :: rest =>
      if str_eqb k' k then (k, v) :: rest else (k', v') :: set k v rest
  end.

(** [new Map(entries)] *)
Definition of_entries {V} (entries : list (jsstring * V)) : t V :=
  fold_left (fun m e => set (fst e) (snd e) m) entries [].

Fixpoint get {V} (k : jsstring) (m : t V) : option V :=
  match m with
  | [] => None
  | (k', v') :: rest => if str_eqb k' k then Some v' else get k rest
  end.

Definition has {V} (k : jsstring) (m : t V) : bool :=
  match get k m with Some _ => true | None => false end.

End JsMap.

(* ===================================================================== *)
(** ** Comparison engine *)
(* ===================================================================== *)

Module ComparisonEngine.
Import Regex JsonValidator.

Inductive DiscrepancyType := missing | different | extra.

(** The values a discrepancy records for either side. *)
Inductive side_value :=
| SNull
| SText (v : maybe_str)
| SNutrient (n : NutrientData).

Record Discrepancy := {
  fieldPath : jsstring;
  claudeValue : side_value;
  grokValue : side_value;
  type : DiscrepancyType;
  severity : Severity;
  confidenceScore : Z;
  description : jsstring
}.

Record FieldCounts := {
  total : nat;
  matching : nat;
  differentCount : nat;
  missingCount : nat
}.

Record ComparisonResult := {
  hasDiscrepancies : bool;
  discrepancies : list Discrepancy;
  similarityScore : Q;
  recommendsReview : bool;
  fieldCounts : FieldCounts
}.

Definition opt_eqb (a b : option jsstring) : bool :=
  match a, b with
  | None, None => true
  | Some x, Some y => str_eqb x y
  | _, _ => false
  end.

(** A value as a template literal prints it. *)
Definition show (v : maybe_str) : jsstring :=
  match v with
  | MUndefined => js "undefined"
  | MNull => js "null"
  | MStr s => s
  end.

Definition show_opt (v : option jsstring) : jsstring :=
  match v with
  | None => js "null"
  | Some s => s
  end.

Definition of_opt (v : option jsstring) : side_value :=
  match v with
  | None => SText MNull
  | Some s => SText (MStr s)
  end.

(** [.toLowerCase().replace(/\s+/g, ' ').trim()] *)
Definition normalize_text (v : jsstring) : jsstring :=
  trim (replace_all (plus ws) (js " ") (toLowerCase v)).

Definition compareTextField (fieldPath : jsstring)
    (value1 value2 : option jsstring) : list Discrepancy :=
  if opt_eqb value1 value2 then []
  else
    let normalized1 := option_map normalize_text value1 in
    let normalized2 := option_map normalize_text value2 in
    if opt_eqb normalized1 normalized2 then []
    else
      [{| fieldPath := fieldPath;
          claudeValue := of_opt value1;
          grokValue := of_opt value2;
          type := different;
          severity := low;
          confidenceScore := 75;
          description :=
            js "Text field mismatch: " ++ dq ++ show_opt value1 ++ dq
            ++ js " vs " ++ dq ++ show_opt value2 ++ dq |}].

Definition normalizeNutrientName (name : jsstring) : jsstring :=
  trim
    (replace_all (lit "vitamin") (js "vit")
       (replace_all (Chr (fun c => negb (isLowerAZ c || isDigit c))) []
          (replace_all (seq_of [one 40; Star false dot; one 41]) []
             (toLowerCase name)))).

(** The text of a decimal numeral [digits] or [digits.digits] as a number. *)
Fixpoint digits_value (s : jsstring) (acc : Z) : Z :=
  match s with
  | [] => acc
  | c :: s' => digits_value s' (10 * acc + (Z.of_N c - 48))
  end.

Fixpoint take_digits (s : jsstring) : jsstring * jsstring :=
  match s with
  | c :: s' =>
      if isDigit c then let '(d, rest) := take_digits s' in (c :: d, rest)
      else ([], s)
  | [] => ([], [])
  end.

(** [parseFloat] on a text made of digits and dots; [None] is NaN. *)
Definition parseFloat (s : jsstring) : option Q :=
  let '(int_part, rest) := take_digits s in
  let frac_part :=
    match rest with
    | c :: rest' => if (c =? 46)%N then fst (take_digits rest') else []
    | [] => []
    end in
  match int_part, frac_part with
  | [], [] => None
  | _, _ =>
      Some (inject_Z (digits_value int_part 0)
            + inject_Z (digits_value frac_part 0)
              / inject_Z (10 ^ Z.of_nat (length frac_part)))%Q
  end.

(** The unit letters of the patterns: a-z, α-ω, µ and μ. *)
Definition isUnitLower (c : N) : bool :=
  (isLowerAZ c || ((945 <=? c) && (c <=? 969)) || (c =? 181))%N.

Record ParsedAmount := { value : Q; unit : jsstring }.

(** /^<?(\d+(?:\.\d+)?)\s*([a-zA-Zα-ωµμ]+)/ *)
Definition parseAmount_regex : regex :=
  seq_of [opt (one 60);
          Group 1 (Seq (plus digit) (opt (Seq (one 46) (plus digit))));
          Star true ws;
          Group 2 (plus (Chr (fun c => isUnitLower c || isUpperAZ c)))].

Definition parseAmount (amount : jsstring) : option ParsedAmount :=
  match match_here parseAmount_regex amount with
  | Some (_, caps) =>
      match capture 1 caps, capture 2 caps with
      | Some number_text, Some unit_text =>
          match parseFloat number_text with
          | Some v => Some {| value := v; unit := toLowerCase unit_text |}
          | None => None
          end
      | _, _ => None
      end
  | None => None
  end.

Definition equivalents : list (jsstring * jsstring) :=
  [ (js "mcg", js "ug");
    ([956; 103]%N, js "ug");
    ([181; 103]%N, js "ug");
    (js "iu", js "iu");
    (js "mg", js "mg");
    (js "g", js "g");
    (js "l", js "l");
    (js "ml", js "ml") ].

(** What [equivalents[key] || key] evaluates to.  Besides its own entries
    the table object answers for [constructor], inherited from
    [Object.prototype]: that value is an object, equal to itself only. *)
Inductive unit_class :=
| UnitText (s : jsstring)
| InheritedConstructor.

Definition unit_class_eqb (a b : unit_class) : bool :=
  match a, b with
  | UnitText x, UnitText y => str_eqb x y
  | InheritedConstructor, InheritedConstructor => true
  | _, _ => false
  end.

Definition normalize_unit (unit : jsstring) : unit_class :=
  let normalized :=
    replace_all (Chr (fun c => negb (isUnitLower c))) [] (toLowerCase unit) in
  match JsMap.get normalized equivalents with
  | Some v => UnitText v
  | None =>
      if str_eqb normalized (js "constructor") then InheritedConstructor
      else UnitText normalized
  end.

Definition unitsEquivalent (unit1 unit2 : jsstring) : bool :=
  unit_class_eqb (normalize_unit unit1) (normalize_unit unit2).

Definition amountsMatch (amount1 amount2 : option jsstring) : bool :=
  match amount1, amount2 with
  | None, None => true
  | None, _ | _, None => false
  | Some a1, Some a2 =>
      match parseAmount a1, parseAmount a2 with
      | Some parsed1, Some parsed2 =>
          if negb (unitsEquivalent (unit parsed1) (unit parsed2)) then false
          else
            let tolerance := (value parsed1 * (1 # 100))%Q in
            Qle_bool (Qabs (value parsed1 - value parsed2)%Q) tolerance
      | _, _ => false
      end
  end.

(** [.replace(/[^0-9.]/g, '')] *)
Definition strip_non_numeric (percent : jsstring) : jsstring :=
  replace_all (Chr (fun c => negb (isDigit c || (c =? 46)%N))) [] percent.

Definition percentagesMatch (percent1 percent2 : option jsstring) : bool :=
  match percent1, percent2 with
  | None, None => true
  | None, _ | _, None => false
  | Some p1, Some p2 =>
      match parseFloat (strip_non_numeric p1),
            parseFloat (strip_non_numeric p2) with
      | Some num1, Some num2 => Qle_bool (Qabs (num1 - num2)%Q) 1
      | _, _ => false
      end
  end.

(** The discrepancies of one reference-side nutrient, at its index. *)
Definition compare_nutrient (grokMap : JsMap.t NutrientData)
    (index : nat) (claudeNutrient : NutrientData) : list Discrepancy :=
  let normalizedName := normalizeNutrientName (name claudeNutrient) in
  let at_index :=
    js "supplementFacts.nutrients[" ++ nat_to_string index ++ js "]" in
  match JsMap.get normalizedName grokMap with
  | None =>
      [{| fieldPath := at_index;
          claudeValue := SNutrient claudeNutrient;
          grokValue := SNull;
          type := missing;
          severity := high;
          confidenceScore := 50;
          description :=
            js "Nutrient " ++ dq ++ name claudeNutrient ++ dq
            ++ js " found by Claude but not Grok" |}]
  | Some grokNutrient =>
      (if negb (amountsMatch (or_null (amount claudeNutrient))
                             (or_null (amount grokNutrient)))
       then [{| fieldPath := at_index ++ js ".amount";
                claudeValue := SText (amount claudeNutrient);
                grokValue := SText (amount grokNutrient);
                type := different;
                severity := high;
                confidenceScore := 60;
                description :=
                  js "Amount mismatch for " ++ name claudeNutrient ++ js ": "
                  ++ dq ++ show (amount claudeNutrient) ++ dq ++ js " vs "
                  ++ dq ++ show (amount grokNutrient) ++ dq |}]
       else [])
      ++
      (if negb (percentagesMatch
                  (or_null (dailyValuePercentAdult claudeNutrient))
                  (or_null (dailyValuePercentAdult grokNutrient)))
       then [{| fieldPath := at_index ++ js ".dailyValuePercentAdult";
                claudeValue := SText (dailyValuePercentAdult claudeNutrient);
                grokValue := SText (dailyValuePercentAdult grokNutrient);
                type := different;
                severity := medium;
                confidenceScore := 70;
                description :=
                  js "Daily value % (adult) mismatch for "
                  ++ name claudeNutrient |}]
       else [])
      ++
      (if negb (percentagesMatch
                  (or_null (dailyValuePercentChildren claudeNutrient))
                  (or_null (dailyValuePercentChildren grokNutrient)))
       then [{| fieldPath := at_index ++ js ".dailyValuePercentChildren";
                claudeValue := SText (dailyValuePercentChildren claudeNutrient);
                grokValue := SText (dailyValuePercentChildren grokNutrient);
                type := different;
                severity := medium;
                confidenceScore := 70;
                description :=
                  js "Daily value % (children) mismatch for "
                  ++ name claudeNutrient |}]
       else [])
  end.

(** The first [forEach] of [compareNutrients]. *)
Fixpoint compare_claude (grokMap : JsMap.t NutrientData) (index : nat)
    (claudeNutrients : list NutrientData) : list Discrepancy :=
  match claudeNutrients with
  | [] => []
  | n :: rest =>
      compare_nutrient grokMap index n ++ compare_claude grokMap (S index) rest
  end.

(** The second [forEach]: nutrients of the other side under no reference name. *)
Fixpoint compare_grok (claudeMap : JsMap.t NutrientData) (index : nat)
    (grokNutrients : list NutrientData) : list Discrepancy :=
  match grokNutrients with
  | [] => []
  | grokNutrient :: rest =>
      (if negb (JsMap.has (normalizeNutrientName (name grokNutrient)) claudeMap)
       then [{| fieldPath :=
                  js "supplementFacts.nutrients[grok-" ++ nat_to_string index
                  ++ js "]";
                claudeValue := SNull;
                grokValue := SNutrient grokNutrient;
                type := extra;
                severity := high;
                confidenceScore := 50;
                description :=
                  js "Nutrient " ++ dq ++ name grokNutrient ++ dq
                  ++ js " found by Grok but not Claude" |}]
       else [])
      ++ compare_grok claudeMap (S index) rest
  end.

Definition name_map (ns : list NutrientData) : JsMap.t NutrientData :=
  JsMap.of_entries (List.map (fun n => (normalizeNutrientName (name n), n)) ns).

Definition compareNutrients (claudeNutrients grokNutrients : list NutrientData)
  : list Discrepancy :=
  let claudeMap := name_map claudeNutrients in
  let grokMap := name_map grokNutrients in
  compare_claude grokMap 0 claudeNutrients
  ++ compare_grok claudeMap 0 grokNutrients.

Definition countTotalFields (data : SupplementFactsData) : nat :=
  (4 + length (nutrients data) * 3)%nat.

Definition weight (d : Discrepancy) : Q :=
  match severity d with
  | high => 1%Q
  | medium => (1 # 2)%Q
  | low => (1 # 4)%Q
  end.

(** [Math.round]: the nearest integer, halves upwards. *)
Definition Math_round (x : Q) : Z := Qfloor (x + (1 # 2))%Q.

Definition calculateSimilarityScore (claude _grok : SupplementFactsData)
    (discrepancies : list Discrepancy) : Q :=
  let totalFields := countTotalFields claude in
  if Nat.eqb totalFields 0 then 100%Q
  else
    let weightedDifferences :=
      fold_left (fun (sum : Q) d => (sum + weight d)%Q) discrepancies 0%Q in
    let score :=
      Qmax 0 (Qmin 100
                (100 - weightedDifferences / inject_Z (Z.of_nat totalFields) * 100))%Q
    in
    (inject_Z (Math_round (score * 10)) / 10)%Q.

Definition no_discrepancy (l : list Discrepancy) : bool :=
  match l with [] => true | _ :: _ => false end.

Definition countMatchingFields (claude grok : SupplementFactsData) : nat :=
  let basic (v1 v2 : option jsstring) : nat :=
    if no_discrepancy (compareTextField [] v1 v2) then 1%nat else 0%nat in
  let claudeMap := name_map (nutrients claude) in
  let grokMap := name_map (nutrients grok) in
  let per_entry (e : jsstring * NutrientData) : nat :=
    let '(normalizedName, claudeNutrient) := e in
    match JsMap.get normalizedName grokMap with
    | Some grokNutrient =>
        (1
         + (if amountsMatch (or_null (amount claudeNutrient))
                            (or_null (amount grokNutrient)) then 1 else 0)
         + (if percentagesMatch
                 (or_null (dailyValuePercentAdult claudeNutrient))
                 (or_null (dailyValuePercentAdult grokNutrient)) then 1 else 0))%nat
    | None => 0%nat
    end in
  (basic (Some (servings claude)) (Some (servings grok))
   + basic (Some (servingsPerContainer claude)) (Some (servingsPerContainer grok))
   + basic (or_null (calories claude)) (or_null (calories grok))
   + basic (or_null (protein claude)) (or_null (protein grok))
   + list_sum (List.map per_entry claudeMap))%nat.

Definition count_severity (s : Severity) (l : list Discrepancy) : nat :=
  length (List.filter (fun d => severity_eqb (severity d) s) l).

Definition is_type (t : DiscrepancyType) (d : Discrepancy) : bool :=
  match type d, t with
  | missing, missing | different, different | extra, extra => true
  | _, _ => false
  end.

Definition compareSupplementFacts (claude grok : SupplementFactsData)
  : ComparisonResult :=
  let discrepancies :=
    compareTextField (js "supplementFacts.servings")
      (Some (servings claude)) (Some (servings grok))
    ++ compareTextField (js "supplementFacts.servingsPerContainer")
         (Some (servingsPerContainer claude)) (Some (servingsPerContainer grok))
    ++ compareTextField (js "supplementFacts.calories")
         (or_null (calories claude)) (or_null (calories grok))
    ++ compareTextField (js "supplementFacts.protein")
         (or_null (protein claude)) (or_null (protein grok))
    ++ compareNutrients (nutrients claude) (nutrients grok) in
  let similarityScore := calculateSimilarityScore claude grok discrepancies in
  let highSeverityCount := count_severity high discrepancies in
  let mediumSeverityCount := count_severity medium discrepancies in
  let recommendsReview :=
    (0 <? highSeverityCount)%nat || (2 <? mediumSeverityCount)%nat
    || negb (Qle_bool 85 similarityScore) in
  {| hasDiscrepancies := (0 <? length discrepancies)%nat;
     discrepancies := discrepancies;
     similarityScore := similarityScore;
     recommendsReview := recommendsReview;
     fieldCounts :=
       {| total := countTotalFields claude;
          matching := countMatchingFields claude grok;
          differentCount := length (List.filter (is_type different) discrepancies);
          missingCount := length (List.filter (is_type missing) discrepancies) |} |}.

End ComparisonEngine.

(* ===================================================================== *)
(** ** [JSON.parse]

    The strict JSON grammar: objects, arrays, strings with escapes,
    numbers and the three literals, with only space, tab, line feed and
    carriage return as white space.  A repeated key keeps its first
    position and its last value.  [None] stands for the SyntaxError. *)
(* ===================================================================== *)

Module JsonParse.

Definition is_json_ws (c : N) : bool :=
  ((c =? 32) || (c =? 9) || (c =? 10) || (c =? 13))%N.

Fixpoint skip_ws (s : jsstring) : jsstring :=
  match s with
  | c :: s' => if is_json_ws c then skip_ws s' else s
  | [] => []
  end.

Definition hex_value (c : N) : option N :=
  (if isDigit c then Some (c - 48)
   else if (97 <=? c) && (c <=? 102) then Some (c - 87)
   else if (65 <=? c) && (c <=? 70) then Some (c - 55)
   else None)%N.

(** The characters of a string literal after its opening quote. *)
Fixpoint string_body (s : jsstring) (acc : jsstring)
  : option (jsstring * jsstring) :=
  match s with
  | [] => None
  | c :: rest =>
      if (c =? 34)%N then Some (rev acc, rest)
      else if (c <? 32)%N then None
      else if (c =? 92)%N then
        match rest with
        | e :: rest' =>
            if (e =? 34)%N then string_body rest' (34%N :: acc)
            else if (e =? 92)%N then string_body rest' (92%N :: acc)
            else if (e =? 47)%N then string_body rest' (47%N :: acc)
            else if (e =? 98)%N then string_body rest' (8%N :: acc)
            else if (e =? 102)%N then string_body rest' (12%N :: acc)
            else if (e =? 110)%N then string_body rest' (10%N :: acc)
            else if (e =? 114)%N then string_body rest' (13%N :: acc)
            else if (e =? 116)%N then string_body rest' (9%N :: acc)
            else if (e =? 117)%N then
              match rest' with
              | h1 :: h2 :: h3 :: h4 :: rest'' =>
                  match hex_value h1, hex_value h2, hex_value h3, hex_value h4 with
                  | Some a, Some b, Some c', Some d =>
                      string_body rest''
                        ((((a * 16 + b) * 16 + c') * 16 + d)%N :: acc)
                  | _, _, _, _ => None
                  end
              | _ => None
              end
            else None
        | [] => None
        end
      else string_body rest (c :: acc)
  end.

Fixpoint digit_run (s : jsstring) : jsstring * jsstring :=
  match s with
  | c :: s' =>
      if isDigit c then let '(d, rest) := digit_run s' in (c :: d, rest)
      else ([], s)
  | [] => ([], [])
  end.

Fixpoint digits_Z (s : jsstring) (acc : Z) : Z :=
  match s with
  | [] => acc
  | c :: s' => digits_Z s' (10 * acc + (Z.of_N c - 48))
  end.

(** A number literal at the head of [s]. *)
Definition number_literal (s : jsstring) : option (Q * jsstring) :=
  let '(negative, s1) :=
    match s with
    | c :: s' => if (c =? 45)%N then (true, s') else (false, s)
    | [] => (false, s)
    end in
  let '(int_part, s2) := digit_run s1 in
  match int_part with
  | [] => None
  | d0 :: more =>
      if (d0 =? 48)%N && negb (Nat.eqb (length more) 0) then None
      else
        let frac :=
          match s2 with
          | c :: s' =>
              if (c =? 46)%N then
                let '(f, s3) := digit_run s' in
                match f with
                | [] => None
                | _ :: _ => Some (f, s3)
                end
              else Some ([], s2)
          | [] => Some ([], s2)
          end in
        match frac with
        | None => None
        | Some (frac_part, s3) =>
            let expo :=
              match s3 with
              | c :: s' =>
                  if (c =? 101)%N || (c =? 69)%N then
                    let '(eneg, s4) :=
                      match s' with
                      | g :: s'' =>
                          if (g =? 45)%N then (true, s'')
                          else if (g =? 43)%N then (false, s'')
                          else (false, s')
                      | [] => (false, s')
                      end in
                    let '(e, s5) := digit_run s4 in
                    match e with
                    | [] => None
                    | _ :: _ =>
                        Some ((if eneg then - digits_Z e 0 else digits_Z e 0), s5)
                    end
                  else Some (0, s3)
              | [] => Some (0, s3)
              end in
            match expo with
            | None => None
            | Some (e, s6) =>
                let mantissa :=
                  (inject_Z (digits_Z int_part 0)
                   + inject_Z (digits_Z frac_part 0)
                     / inject_Z (10 ^ Z.of_nat (length frac_part)))%Q in
                let magnitude := (mantissa * Qpower 10 e)%Q in
                Some ((if negative then - magnitude else magnitude)%Q, s6)
            end
        end
  end.

Fixpoint value_at (fuel : nat) (s : jsstring) : option (value * jsstring) :=
  match fuel with
  | O => None
  | S fuel' =>
      match skip_ws s with
      | [] => None
      | c :: rest =>
          if (c =? 123)%N then
            match skip_ws rest with
            | c2 :: rest2 =>
                if (c2 =? 125)%N then Some (JObj [], rest2)
                else
                  match members_at fuel' (c2 :: rest2) [] with
                  | Some (fields, rest3) => Some (JObj fields, rest3)
                  | None => None
                  end
            | [] => None
            end
          else if (c =? 91)%N then
            match skip_ws rest with
            | c2 :: rest2 =>
                if (c2 =? 93)%N then Some (JArr [], rest2)
                else
                  match elements_at fuel' (c2 :: rest2) with
                  | Some (items, rest3) => Some (JArr items, rest3)
                  | None => None
                  end
            | [] => None
            end
          else if (c =? 34)%N then
            match string_body rest [] with
            | Some (str, rest2) => Some (JStr str, rest2)
            | None => None
            end
          else if startsWith (c :: rest) (js "true")
          then Some (JBool true, skipn 4 (c :: rest))
          else if startsWith (c :: rest) (js "false")
          then Some (JBool false, skipn 5 (c :: rest))
          else if startsWith (c :: rest) (js "null")
          then Some (JNull, skipn 4 (c :: rest))
          else
            match number_literal (c :: rest) with
            | Some (q, rest2) => Some (JNum q, rest2)
            | None => None
            end
      end
  end

(** The elements of an array up to and including its closing bracket. *)
with elements_at (fuel : nat) (s : jsstring)
  : option (list value * jsstring) :=
  match fuel with
  | O => None
  | S fuel' =>
      match value_at fuel' s with
      | Some (v, rest) =>
          match skip_ws rest with
          | c :: rest2 =>
              if (c =? 93)%N then Some ([v], rest2)
              else if (c =? 44)%N then
                match elements_at fuel' rest2 with
                | Some (vs, rest3) => Some (v :: vs, rest3)
                | None => None
                end
              else None
          | [] => None
          end
      | None => None
      end
  end

(** The members of an object up to and including its closing brace. *)
with members_at (fuel : nat) (s : jsstring) (acc : JsMap.t value)
  : option (list (jsstring * value) * jsstring) :=
  match fuel with
  | O => None
  | S fuel' =>
      match skip_ws s with
      | q :: rest =>
          if (q =? 34)%N then
            match string_body rest [] with
            | Some (key, rest2) =>
                match skip_ws rest2 with
                | colon :: rest3 =>
                    if (colon =? 58)%N then
                      match value_at fuel' rest3 with
                      | Some (v, rest4) =>
                          let acc' := JsMap.set key v acc in
                          match skip_ws rest4 with
                          | c :: rest5 =>
                              if (c =? 125)%N then Some (acc', rest5)
                              else if (c =? 44)%N
                              then members_at fuel' rest5 acc'
                              else None
                          | [] => None
                          end
                      | None => None
                      end
                    else None
                | [] => None
                end
            | None => None
            end
          else None
      | [] => None
      end
  end.

Definition JSON_parse (text : jsstring) : option value :=
  match value_at (2 * length text + 2) text with
  | Some (v, rest) =>
      match skip_ws rest with
      | [] => Some v
      | _ :: _ => None
      end
  | None => None
  end.

End JsonParse.

(* ===================================================================== *)
(** ** Data normalizer *)
(* ===================================================================== *)

Module DataNormalizer.
Import Regex JsonValidator.

(** A [string | null] result as a [maybe_str]. *)
Definition of_option (v : option jsstring) : maybe_str :=
  match v with
  | Some s => MStr s
  | None => MNull
  end.

(** [v || fallback] on a [string | null]. *)
Definition or_else (v : option jsstring) (fallback : jsstring) : jsstring :=
  match v with
  | Some (c :: s) => c :: s
  | _ => fallback
  end.

Definition normalizeWhitespace (text : maybe_str) : option jsstring :=
  match or_null text with
  | None => None
  | Some t => Some (replace_all (plus ws) (js " ") (trim t))
  end.

Definition sanitizeReferencesField (references : maybe_str) : option jsstring :=
  match or_null references with
  | None => None
  | Some r =>
      let sanitized := replace_all (Seq (opt (one 13)) (one 10)) (js " ") r in
      let sanitized := trim (replace_all (plus ws) (js " ") sanitized) in
      let maxLength := 5000%nat in
      if (maxLength <? length sanitized)%nat
      then Some (substring sanitized 0 (maxLength - 3) ++ js "...")
      else Some sanitized
  end.

Definition normalizeProductName (name : jsstring) : jsstring :=
  or_else (normalizeWhitespace (MStr name)) (js "Unknown Product").

Definition normalizeDescription (description : jsstring) : jsstring :=
  let normalized :=
    or_else (normalizeWhitespace (MStr description))
            (js "No description available") in
  if negb (test (Seq (Chr (fun c => (c =? 46) || (c =? 33) || (c =? 63))%N) Eos)
                normalized)
  then normalized ++ js "."
  else normalized.

Definition organic_or_bio : regex := Alt (lit "organic") (lit "bio").
Definition organic_or_bio_i : regex := Alt (lit_i "organic") (lit_i "bio").

Definition parseOrganicFlag (ingredientName : jsstring) : jsstring * bool :=
  let lowerName := toLowerCase ingredientName in
  let isOrganic :=
    test (seq_of [WordBoundary; organic_or_bio; WordBoundary]) lowerName in
  let cleanName :=
    trim (match match_here (seq_of [Star true ws; organic_or_bio_i; plus ws])
                           ingredientName with
          | Some (rest, _) => rest
          | None => ingredientName
          end) in
  (or_else (normalizeWhitespace (MStr cleanName)) ingredientName, isOrganic).

Definition normalizeIngredients (ingredients : list IngredientData)
  : list IngredientData :=
  List.map (fun ingredient =>
              let parsed := parseOrganicFlag (ingredientName ingredient) in
              {| ingredientName := fst parsed;
                 isOrganic := isOrganic ingredient || snd parsed |})
           ingredients.

Definition dietary_mapping : list (jsstring * jsstring) :=
  [ (js "vegan", js "Vegan");
    (js "vegetarian", js "Vegetarian");
    (js "gluten-free", js "Gluten-Free");
    (js "gluten free", js "Gluten-Free");
    (js "dairy-free", js "Dairy-Free");
    (js "dairy free", js "Dairy-Free");
    (js "non-gmo", js "Non-GMO");
    (js "non gmo", js "Non-GMO");
    (js "organic", js "Organic");
    (js "kosher", js "Kosher");
    (js "halal", js "Halal");
    (js "sugar-free", js "Sugar-Free");
    (js "sugar free", js "Sugar-Free");
    (js "soy-free", js "Soy-Free");
    (js "soy free", js "Soy-Free") ].

(** [[...new Set(l)]]: first occurrences, in order. *)
Fixpoint dedupe (l : list jsstring) (seen : list jsstring) : list jsstring :=
  match l with
  | [] => []
  | x :: rest =>
      if existsb (str_eqb x) seen then dedupe rest seen
      else x :: dedupe rest (x :: seen)
  end.

(** The names the mapping object inherits from its prototype are not
    modelled: such an attribute is kept as its trimmed text. *)
Definition normalizeDietaryAttributes (attributes : list jsstring)
  : list jsstring :=
  let standardized :=
    List.map (fun attr =>
                let lower := trim (toLowerCase attr) in
                match JsMap.get lower dietary_mapping with
                | Some v => v
                | None => trim attr
                end) attributes in
  dedupe standardized [].

Definition normalizeServing (serving : jsstring) : jsstring :=
  or_else (normalizeWhitespace (MStr serving)) (js "Not specified").

Definition one_of (options : list string) (s : jsstring) : bool :=
  existsb (fun o => str_eqb (js o) s) options.

Definition normalizeNutrientAmount (amount : maybe_str) : option jsstring :=
  match normalizeWhitespace amount with
  | None | Some [] => None
  | Some normalized =>
      if one_of ["0"; "unknown"; "N/A"; "n/a"; "-"]%string normalized then None
      else
        Some (replace_all_with
                (Seq (Group 1 digit)
                     (Group 2 (Chr (fun c => isLowerAZ c || isUpperAZ c))))
                (fun caps =>
                   match capture 1 caps, capture 2 caps with
                   | Some d, Some l => d ++ js " " ++ l
                   | _, _ => []
                   end)
                normalized)
  end.

Definition normalizeDailyValuePercent (percent : maybe_str) : option jsstring :=
  match normalizeWhitespace percent with
  | None | Some [] => None
  | Some normalized =>
      let cleaned := trim (replace_all (one 37) [] normalized) in
      if one_of ["0"; "unknown"; "N/A"; "n/a"; "-"; "*"]%string cleaned
         || str_eqb cleaned [8224%N]
      then None
      else if negb (test_anchored percent_regex cleaned) then None
      else Some cleaned
  end.

(** [v?.trim() || null] *)
Definition trim_or_null (v : maybe_str) : maybe_str :=
  match v with
  | MStr s => of_option (or_null (MStr (trim s)))
  | _ => MNull
  end.

(** [a || b] on two optional strings. *)
Definition first_truthy (a b : maybe_str) : maybe_str :=
  match or_null a with
  | Some _ => a
  | None => b
  end.

Definition normalizeProductData (data : ProductExtractionData) (strict : bool)
  : ProductExtractionData :=
  if strict then
    {| productName := trim (productName data);
       productSlogan := trim_or_null (productSlogan data);
       productDescription := trim (productDescription data);
       subbrand := trim_or_null (subbrand data);
       supplementFacts :=
         match supplementFacts data with
         | Some sf =>
             Some {| servings := trim (servings sf);
                     servingsPerContainer := trim (servingsPerContainer sf);
                     calories := trim_or_null (calories sf);
                     protein := trim_or_null (protein sf);
                     nutrients := nutrients sf |}
         | None => None
         end;
       ingredients :=
         List.map (fun ing => {| ingredientName := trim (ingredientName ing);
                                 isOrganic := isOrganic ing |})
                  (ingredients data);
       directions := trim (directions data);
       caution := trim_or_null (caution data);
       dietaryAttributes := dietaryAttributes data;
       references := of_option (sanitizeReferencesField (references data)) |}
  else
    {| productName := normalizeProductName (productName data);
       productSlogan := of_option (normalizeWhitespace (productSlogan data));
       productDescription := normalizeDescription (productDescription data);
       subbrand := of_option (normalizeWhitespace (subbrand data));
       supplementFacts :=
         match supplementFacts data with
         | Some sf =>
             Some {| servings := normalizeServing (servings sf);
                     servingsPerContainer :=
                       normalizeServing (servingsPerContainer sf);
                     calories := of_option (normalizeWhitespace (calories sf));
                     protein := of_option (normalizeWhitespace (protein sf));
                     nutrients :=
                       List.filter
                         (fun n => match amount n with
                                   | MNull => false
                                   | _ => true
                                   end)
                         (List.map
                            (fun nutrient =>
                               {| name :=
                                    or_else (normalizeWhitespace (MStr (name nutrient)))
                                            (js "Unknown");
                                  amount :=
                                    of_option
                                      (normalizeNutrientAmount (amount nutrient));
                                  dailyValuePercentAdult :=
                                    of_option
                                      (normalizeDailyValuePercent
                                         (first_truthy
                                            (dailyValuePercentAdult nutrient)
                                            (dailyValuePercent nutrient)));
                                  dailyValuePercentChildren :=
                                    of_option
                                      (normalizeDailyValuePercent
                                         (dailyValuePercentChildren nutrient));
                                  dailyValuePercent := MUndefined |})
                            (nutrients sf)) |}
         | None => None
         end;
       ingredients := normalizeIngredients (ingredients data);
       directions := normalizeDescription (directions data);
       caution := of_option (normalizeWhitespace (caution data));
       dietaryAttributes := normalizeDietaryAttributes (dietaryAttributes data);
       references := of_option (sanitizeReferencesField (references data)) |}.

Record DataCompletenessReport := {
  isComplete : bool;
  missingFields : list jsstring;
  completenessPercent : Z
}.

(** [value.trim() === ''] *)
Definition blank (value : jsstring) : bool :=
  match trim value with
  | [] => true
  | _ :: _ => false
  end.

(** The test of a required field: [!value || value.trim() === '']. *)
Definition missing_text (value : jsstring) : bool :=
  match value with
  | [] => true
  | _ :: _ => blank value
  end.

(** The test of an optional text: [value && value.trim() !== '']. *)
Definition present_text (value : maybe_str) : bool :=
  match or_null value with
  | Some s => negb (blank s)
  | None => false
  end.

(** The optional fields that count as present.  [ingredients] and
    [dietaryAttributes] are arrays, which are truthy also when empty. *)
Definition presentOptionalFields (data : ProductExtractionData) : nat :=
  ((if present_text (productSlogan data) then 1 else 0)
   + (if present_text (subbrand data) then 1 else 0)
   + (if present_text (caution data) then 1 else 0)
   + (if present_text (references data) then 1 else 0)
   + (match supplementFacts data with Some _ => 1 | None => 0 end)
   + 1
   + 1)%nat.

Definition checkDataCompleteness (data : ProductExtractionData)
  : DataCompletenessReport :=
  let missingFields :=
    (if missing_text (productName data) then [js "productName"] else [])
    ++ (if missing_text (productDescription data)
        then [js "productDescription"] else [])
    ++ (if missing_text (directions data) then [js "directions"] else []) in
  let presentOptionalFields := presentOptionalFields data in
  let totalFields := (3 + 7)%nat in
  let presentFields :=
    (3 - length missingFields + presentOptionalFields)%nat in
  let completenessPercent :=
    ComparisonEngine.Math_round
      (inject_Z (Z.of_nat presentFields) / inject_Z (Z.of_nat totalFields) * 100)%Q in
  {| isComplete :=
       Nat.eqb (length missingFields) 0 && (3 <=? presentOptionalFields)%nat;
     missingFields := missingFields;
     completenessPercent := completenessPercent |}.

End DataNormalizer.

(* ===================================================================== *)
(** ** Recovery cascade (json-extractor) *)
(* ===================================================================== *)

Module JsonExtractor.
Import Regex JsonParse JsonValidator.

Record ExtractionResult := {
  success : bool;
  data : option value;
  strategy : option jsstring;
  error : option jsstring
}.

Definition succeeded (v : value) : ExtractionResult :=
  {| success := true; data := Some v; strategy := None; error := None |}.

Definition failed (msg : jsstring) : ExtractionResult :=
  {| success := false; data := None; strategy := None; error := Some msg |}.

(** [{ ...r, strategy: name }] *)
Definition with_strategy (r : ExtractionResult) (name : string) : ExtractionResult :=
  {| success := success r; data := data r; strategy := Some (js name);
     error := error r |}.

(** [String(error)] of a caught parse error; the engine's wording of the
    message is not modelled. *)
Definition caught : jsstring := js "SyntaxError".

Definition tryDirectParse (text : jsstring) : ExtractionResult :=
  let trimmed := trim text in
  match JSON_parse trimmed with
  | Some d => succeeded d
  | None => failed caught
  end.

(** The loop of [findBalancedJSON] from index [i] on. *)
Fixpoint balanced_scan (s : jsstring) (i : nat) (braceCount : Z)
    (inString escaped : bool) : option nat :=
  match s with
  | [] => None
  | char :: rest =>
      if escaped then balanced_scan rest (S i) braceCount inString false
      else if (char =? 92)%N then balanced_scan rest (S i) braceCount inString true
      else if (char =? 34)%N
      then balanced_scan rest (S i) braceCount (negb inString) false
      else if negb inString then
        let braceCount := if (char =? 123)%N then braceCount + 1 else braceCount in
        if (char =? 125)%N then
          let braceCount := braceCount - 1 in
          if braceCount =? 0 then Some (S i)
          else balanced_scan rest (S i) braceCount inString false
        else balanced_scan rest (S i) braceCount inString false
      else balanced_scan rest (S i) braceCount inString false
  end.

(** The index after the closing brace, or [None] for -1. *)
Definition findBalancedJSON (text : jsstring) (startIndex : nat) : option nat :=
  balanced_scan (skipn startIndex text) startIndex 0 false false.

Definition extractBalancedBraces (text : jsstring) : ExtractionResult :=
  match indexOf text (js "{") with
  | None => failed (js "No opening brace found")
  | Some firstBrace =>
      match findBalancedJSON text firstBrace with
      | None => failed (js "No balanced JSON structure found")
      | Some endIndex =>
          let jsonString := substring text firstBrace endIndex in
          match JSON_parse jsonString with
          | Some d => succeeded d
          | None => failed caught
          end
      end
  end.

Definition fence : regex := lit "```".
Definition fence_json : regex := lit "```json".
Definition isOpenBrace (c : N) : bool := (c =? 123)%N.

(** /```json\s*([\s\S]*?)```/ *)
Definition json_block : regex :=
  seq_of [fence_json; Star true ws; Group 1 (Star false any); fence].
(** /```\s*([\s\S]*?)```/ *)
Definition generic_block : regex :=
  seq_of [fence; Star true ws; Group 1 (Star false any); fence].
(** /```json\s*([\s\S]*?)$/ *)
Definition unclosed_json_block : regex :=
  seq_of [fence_json; Star true ws; Group 1 (Star false any); Eos].
(** /```\s*([\s\S]*?)$/ *)
Definition unclosed_generic_block : regex :=
  seq_of [fence; Star true ws; Group 1 (Star false any); Eos].

(** [text.match(r)[1]], when there is a match. *)
Definition group1 (r : regex) (text : jsstring) : option jsstring :=
  match exec r text with
  | Some (_, _, caps) =>
      Some (match capture 1 caps with Some g => g | None => [] end)
  | None => None
  end.

Definition parse_or_throw (content : jsstring) : ExtractionResult :=
  match JSON_parse content with
  | Some d => succeeded d
  | None => failed caught
  end.

Definition starts_with_brace (content : jsstring) : bool :=
  startsWith content (js "{").

Definition extractFromCodeBlock (text : jsstring) : ExtractionResult :=
  match group1 json_block text with
  | Some g => parse_or_throw (trim g)
  | None =>
      let after_generic :=
        let after_unclosed_json :=
          let after_unclosed_generic :=
            failed (js "No code block found or invalid JSON in block") in
          match group1 unclosed_generic_block text with
          | Some g =>
              let content := trim g in
              if starts_with_brace content then parse_or_throw content
              else after_unclosed_generic
          | None => after_unclosed_generic
          end in
        match group1 unclosed_json_block text with
        | Some g =>
            let content := trim g in
            if starts_with_brace content then parse_or_throw content
            else after_unclosed_json
        | None => after_unclosed_json
        end in
      match group1 generic_block text with
      | Some g =>
          let content := trim g in
          if starts_with_brace content then parse_or_throw content
          else after_generic
      | None => after_generic
      end
  end.

Definition colon_or_space : regex := Chr (fun c => (c =? 58)%N || isWhiteSpace c).
Definition dot_or_space : regex := Chr (fun c => (c =? 46)%N || isWhiteSpace c).

(** The words of a phrase separated by [\s+], under the [i] flag. *)
Fixpoint phrase (words : list string) : regex :=
  match words with
  | [] => Eps
  | [w] => lit_i w
  | w :: rest => Seq (lit_i w) (Seq (plus ws) (phrase rest))
  end.

Definition patternsToRemove : list regex :=
  [ Seq (phrase ["here"; "is"; "the"; "extracted"; "data"]%string)
        (Star true colon_or_space);
    Seq (phrase ["i"; "hope"; "this"; "helps"]%string) (Star true dot_or_space);
    seq_of [phrase ["let"; "me"; "know"; "if"; "you"; "need"]%string;
            Star true any; Eos];
    seq_of [lit_i "here"; opt (one 39); opt (one_i 115); plus ws;
            phrase ["the"; "json"]%string; Star true colon_or_space];
    Seq (phrase ["the"; "extracted"; "information"]%string)
        (Star true colon_or_space);
    Seq (phrase ["based"; "on"; "the"; "document"]%string)
        (Star true colon_or_space) ].

Definition remove_patterns (text : jsstring) : jsstring :=
  trim (fold_left (fun cleaned pattern => replace_all pattern [] cleaned)
                  patternsToRemove text).

Definition extractWithCleanup (text : jsstring) : ExtractionResult :=
  let cleaned := remove_patterns text in
  let directResult := tryDirectParse cleaned in
  if success directResult then directResult
  else extractBalancedBraces cleaned.

Definition isNewline (c : N) : bool := ((c =? 10) || (c =? 13))%N.

Fixpoint repairUnescapedNewlines_from (s : jsstring) (inString escaped : bool)
  : jsstring :=
  match s with
  | [] => []
  | char :: rest =>
      if escaped then char :: repairUnescapedNewlines_from rest inString false
      else if (char =? 92)%N
      then char :: repairUnescapedNewlines_from rest inString true
      else if (char =? 34)%N
      then char :: repairUnescapedNewlines_from rest (negb inString) false
      else if inString && isNewline char then
        if (char =? 13)%N
           && match rest with next :: _ => (next =? 10)%N | [] => false end
        then repairUnescapedNewlines_from rest inString false
        else 92%N :: 110%N :: repairUnescapedNewlines_from rest inString false
      else char :: repairUnescapedNewlines_from rest inString false
  end.

Definition repairUnescapedNewlines (text : jsstring) : jsstring :=
  repairUnescapedNewlines_from text false false.

Definition maxStringLength : nat := 2000.

(** A completed string content, cut to the bound. *)
Definition bounded (currentStringContent : jsstring) : jsstring :=
  if (maxStringLength <? length currentStringContent)%nat
  then substring currentStringContent 0 (maxStringLength - 3) ++ js "..."
  else currentStringContent.

Fixpoint truncateLongStrings_from (s : jsstring) (result : jsstring)
    (inString escaped : bool) (currentStringContent : jsstring) : jsstring :=
  match s with
  | [] =>
      if inString then result ++ bounded currentStringContent ++ dq
      else result
  | char :: rest =>
      if escaped then
        if inString
        then truncateLongStrings_from rest result inString false
               (currentStringContent ++ [92%N; char])
        else truncateLongStrings_from rest (result ++ [92%N; char]) inString
               false currentStringContent
      else if (char =? 92)%N
      then truncateLongStrings_from rest result inString true currentStringContent
      else if (char =? 34)%N then
        if negb inString
        then truncateLongStrings_from rest (result ++ [char]) true false []
        else truncateLongStrings_from rest
               (result ++ bounded currentStringContent ++ [char]) false false []
      else if inString
      then truncateLongStrings_from rest result inString false
             (currentStringContent ++ [char])
      else truncateLongStrings_from rest (result ++ [char]) inString false
             currentStringContent
  end.

Definition truncateLongStrings (text : jsstring) : jsstring :=
  truncateLongStrings_from text [] false false [].

Definition isDelimiter (c : N) : bool :=
  ((c =? 44) || (c =? 125) || (c =? 93))%N.

Fixpoint repairUnterminatedStrings_from (s : jsstring) (inString escaped : bool)
  : jsstring :=
  match s with
  | [] => if inString then dq else []
  | char :: rest =>
      if escaped then char :: repairUnterminatedStrings_from rest inString false
      else if (char =? 92)%N
      then char :: repairUnterminatedStrings_from rest inString true
      else if (char =? 34)%N
      then char :: repairUnterminatedStrings_from rest (negb inString) false
      else if inString && isDelimiter char
      then 34%N :: char :: repairUnterminatedStrings_from rest false false
      else char :: repairUnterminatedStrings_from rest inString false
  end.

Definition repairUnterminatedStrings (text : jsstring) : jsstring :=
  repairUnterminatedStrings_from text false false.

Definition repairCommonJSONErrors (text : jsstring) : ExtractionResult :=
  match indexOf text (js "{") with
  | None => failed (js "No JSON object found")
  | Some firstBrace =>
      match findBalancedJSON text firstBrace with
      | None => failed (js "No balanced JSON found")
      | Some endIndex =>
          let repaired := substring text firstBrace endIndex in
          let repaired := repairUnescapedNewlines repaired in
          let repaired := truncateLongStrings repaired in
          let repaired := repairUnterminatedStrings repaired in
          match JSON_parse repaired with
          | Some d => succeeded d
          | None => failed (js "Repair failed: " ++ caught)
          end
      end
  end.

Section Lenient.
(** [JSON5.parse] of the lenient-grammar package; [None] when it throws. *)
Variable JSON5_parse : jsstring -> option value.

Definition tryJSON5Parse (text : jsstring) : ExtractionResult :=
  match indexOf text (js "{") with
  | None => failed (js "No opening brace found")
  | Some firstBrace =>
      let lenient (source : jsstring) :=
        match JSON5_parse source with
        | Some d => succeeded d
        | None => failed (js "JSON5 parse failed: " ++ caught)
        end in
      match findBalancedJSON text firstBrace with
      | None => lenient text
      | Some endIndex => lenient (substring text firstBrace endIndex)
      end
  end.

(** The test of each step of the cascade. *)
Definition accepted (r : ExtractionResult) : bool :=
  success r
  && match data r with
     | Some d => isLikelyProductExtraction d
     | None => false
     end.

Definition extractAllStrategies (text : jsstring) : ExtractionResult :=
  let directResult := tryDirectParse text in
  if accepted directResult then with_strategy directResult "directParse"
  else
    let balancedResult := extractBalancedBraces text in
    if accepted balancedResult then with_strategy balancedResult "balancedBraces"
    else
      let codeBlockResult := extractFromCodeBlock text in
      if accepted codeBlockResult then with_strategy codeBlockResult "codeBlock"
      else
        let cleanupResult := extractWithCleanup text in
        if accepted cleanupResult then with_strategy cleanupResult "cleanup"
        else
          let repairResult := repairCommonJSONErrors text in
          if accepted repairResult then with_strategy repairResult "repair"
          else
            let json5Result := tryJSON5Parse text in
            if accepted json5Result then with_strategy json5Result "json5"
            else failed (js "All extraction strategies failed").
End Lenient.

End JsonExtractor.

(* ===================================================================== *)
(** ** Extraction client (ai-extractor) *)
(* ===================================================================== *)

Module AIExtractor.
Import Regex JsonParse JsonValidator.

Record ValidationWarning := {
  fieldPath : jsstring;
  message : jsstring;
  severity : Severity
}.

(** The result of one strategy and of the cascade has the shape of the
    recovery module's result. *)
Abbreviation StrategyResult := JsonExtractor.ExtractionResult.

Definition accept (v : value) : StrategyResult :=
  {| JsonExtractor.success := true; JsonExtractor.data := Some v;
     JsonExtractor.strategy := None; JsonExtractor.error := None |}.

Definition reject : StrategyResult :=
  {| JsonExtractor.success := false; JsonExtractor.data := None;
     JsonExtractor.strategy := None; JsonExtractor.error := None |}.

Section Cascade.
Variable JSON5_parse : jsstring -> option value.
Variable validator : value -> bool.

Definition validated (parsed : option value) : StrategyResult :=
  match parsed with
  | Some d => if validator d then accept d else reject
  | None => reject
  end.

Definition tryDirectParseWithValidator (text : jsstring) : StrategyResult :=
  let trimmed := trim text in
  validated (JSON_parse trimmed).

Definition findBalancedJSON (text : jsstring) (startIndex : nat) : option nat :=
  JsonExtractor.balanced_scan (skipn startIndex text) startIndex 0 false false.

Definition tryBalancedBracesWithValidator (text : jsstring) : StrategyResult :=
  match indexOf text (js "{") with
  | None => reject
  | Some firstBrace =>
      match findBalancedJSON text firstBrace with
      | None => reject
      | Some endIndex =>
          validated (JSON_parse (substring text firstBrace endIndex))
      end
  end.

Definition tryCodeBlockWithValidator (text : jsstring) : StrategyResult :=
  let generic :=
    match JsonExtractor.group1 JsonExtractor.generic_block text with
    | Some g =>
        let content := trim g in
        if JsonExtractor.starts_with_brace content
        then validated (JSON_parse content)
        else reject
    | None => reject
    end in
  match JsonExtractor.group1 JsonExtractor.json_block text with
  | Some g =>
      match JSON_parse (trim g) with
      | Some d => if validator d then accept d else generic
      | None => reject
      end
  | None => generic
  end.

Definition tryCleanupWithValidator (text : jsstring) : StrategyResult :=
  let cleaned := JsonExtractor.remove_patterns text in
  let directResult := tryDirectParseWithValidator cleaned in
  if JsonExtractor.success directResult then directResult
  else tryBalancedBracesWithValidator cleaned.

Definition tryRepairWithValidator (text : jsstring) : StrategyResult :=
  let result := JsonExtractor.repairCommonJSONErrors text in
  if JsonExtractor.success result then validated (JsonExtractor.data result)
  else reject.

Definition tryJSON5WithValidator (text : jsstring) : StrategyResult :=
  let result := JsonExtractor.tryJSON5Parse JSON5_parse text in
  if JsonExtractor.success result then validated (JsonExtractor.data result)
  else reject.

Definition strategies (text : jsstring) : list (string * StrategyResult) :=
  [ ("directParse", tryDirectParseWithValidator text);
    ("balancedBraces", tryBalancedBracesWithValidator text);
    ("codeBlock", tryCodeBlockWithValidator text);
    ("cleanup", tryCleanupWithValidator text);
    ("repair", tryRepairWithValidator text);
    ("json5", tryJSON5WithValidator text) ]%string.

(** The [for] loop over the strategies. *)
Fixpoint first_success (l : list (string * StrategyResult)) : StrategyResult :=
  match l with
  | [] => JsonExtractor.failed (js "All extraction strategies failed")
  | (name, result) :: rest =>
      if JsonExtractor.success result
      then JsonExtractor.with_strategy result name
      else first_success rest
  end.

Definition extractJSONWithValidator (text : jsstring) : StrategyResult :=
  first_success (strategies text).
End Cascade.

(** [extractJSON]: the cascade with the full-extraction shape; [None] is
    the [null] returned when every strategy failed. *)
Definition extractJSON (JSON5_parse : jsstring -> option value)
    (text : jsstring) : option value :=
  let result := JsonExtractor.extractAllStrategies JSON5_parse text in
  if JsonExtractor.success result then JsonExtractor.data result else None.

Definition determineValidationSeverity (fieldPath message : jsstring) : Severity :=
  let lowerPath := toLowerCase fieldPath in
  let lowerMessage := toLowerCase message in
  if includes lowerPath (js "nutrients") && includes lowerPath (js "amount")
  then high
  else if includes lowerMessage (js "amount must include")
          || includes lowerMessage (js "invalid amount")
  then high
  else if includes lowerPath (js "dailyvalue") || includes lowerPath (js "daily_value")
  then medium
  else if includes lowerPath (js "servings") || includes lowerPath (js "serving")
  then medium
  else low.

Definition nonempty (s : jsstring) : bool :=
  match s with [] => false | _ :: _ => true end.

Definition parseValidationWarnings (errorString : jsstring)
  : list ValidationWarning :=
  let errorParts :=
    List.filter nonempty
      (List.map trim
         (split_on (fun c => (c =? 59)%N || (c =? 10)%N) errorString [])) in
  flat_map
    (fun part =>
       let unknown := (js "unknown", part) in
       let '(fieldPath, message) :=
         match indexOf part (js ":") with
         | Some colonIndex =>
             if (0 <? colonIndex)%nat && (colonIndex <? 100)%nat then
               let potentialPath := trim (substring part 0 colonIndex) in
               if includes potentialPath (js ".") || includes potentialPath (js "[")
               then (potentialPath,
                     trim (skipn (colonIndex + 1) part))
               else unknown
             else unknown
         | None => unknown
         end in
       if startsWith (toLowerCase message) (js "partial extraction") then []
       else [{| fieldPath := fieldPath; message := message;
                severity := determineValidationSeverity fieldPath message |}])
    errorParts.

Record ExtractionResult := {
  success : bool;
  data : option ProductExtractionData;
  rawResponse : option jsstring;
  error : option jsstring;
  processingTimeMs : Z;
  retryCount : nat;
  validationWarnings : option (list ValidationWarning)
}.

(** The validation stage of [extractProductInfo] on a recovered value:
    strict validation, then salvage.  Log lines are left out. *)
Definition validateRecovered (jsonData : value) (response : jsstring)
    (elapsed : Z) (retries : nat) : ExtractionResult :=
  match validateProductExtraction jsonData with
  | ValidationError err =>
      match safeParseProductExtraction jsonData with
      | Some partialData =>
          {| success := true;
             data := Some (DataNormalizer.normalizeProductData partialData false);
             rawResponse := Some response;
             error := Some (js "Partial extraction: " ++ err);
             processingTimeMs := elapsed; retryCount := retries;
             validationWarnings := Some (parseValidationWarnings err) |}
      | None =>
          {| success := false; data := None; rawResponse := Some response;
             error := Some err;
             processingTimeMs := elapsed; retryCount := retries;
             validationWarnings := None |}
      end
  | ValidationOk validated =>
      {| success := true;
         data := Some (DataNormalizer.normalizeProductData validated false);
         rawResponse := Some response;
         error := None;
         processingTimeMs := elapsed; retryCount := retries;
         validationWarnings := None |}
  end.

(** [!jsonData] *)
Definition falsy (v : value) : bool :=
  match v with
  | JNull | JBool false | JStr [] => true
  | JNum q => Qeq_bool q 0
  | _ => false
  end.

(** [extractProductInfo] from the provider's response text on: recovery,
    then the validation stage.  The diagnostic file written when recovery
    fails is left out. *)
Definition extractFromResponse (JSON5_parse : jsstring -> option value)
    (response : jsstring) (elapsed : Z) (retries : nat) : ExtractionResult :=
  let recovery_failed :=
    {| success := false; data := None; rawResponse := Some response;
       error :=
         Some (js "Failed to extract JSON from response (see logs for details)");
       processingTimeMs := elapsed; retryCount := retries;
       validationWarnings := None |} in
  match extractJSON JSON5_parse response with
  | None => recovery_failed
  | Some jsonData =>
      if falsy jsonData then recovery_failed
      else validateRecovered jsonData response elapsed retries
  end.

(** The first loop of [detectSuspiciousPatterns]: the positions of the raw
    line breaks inside strings, from index [i] on. *)
Fixpoint unescapedNewlines_from (s : jsstring) (i : nat)
    (inString escaped : bool) : list nat :=
  match s with
  | [] => []
  | char :: rest =>
      if escaped then unescapedNewlines_from rest (S i) inString false
      else if (char =? 92)%N then unescapedNewlines_from rest (S i) inString true
      else if (char =? 34)%N
      then unescapedNewlines_from rest (S i) (negb inString) false
      else if inString && ((char =? 10) || (char =? 13))%N
      then i :: unescapedNewlines_from rest (S i) inString false
      else unescapedNewlines_from rest (S i) inString false
  end.

Definition unescapedNewlines (text : jsstring) : list nat :=
  unescapedNewlines_from text 0 false false.

End AIExtractor.

(* ===================================================================== *)
(** ** Review prioritizer (repository) *)
(* ===================================================================== *)

Module Repository.

Inductive ReviewStatus := pending | in_progress | resolved | dismissed.

(** A row of [human_review_queue]; the surrogate [id] is left out, rows
    are identified by the unique [product_id]. *)
Record HumanReviewQueue := {
  product_id : Z;
  product_code : jsstring;
  total_discrepancies : nat;
  high_severity_count : nat;
  medium_severity_count : nat;
  review_status : ReviewStatus;
  review_priority : nat;
  assigned_to : option jsstring;
  review_notes : option jsstring;
  created_at : Z;
  reviewed_at : option Z
}.

Definition count_discrepancies (s : Severity)
    (l : list ComparisonEngine.Discrepancy) : nat :=
  length (List.filter
            (fun d => severity_eqb (ComparisonEngine.severity d) s) l).

Definition count_warnings (s : Severity)
    (l : list AIExtractor.ValidationWarning) : nat :=
  length (List.filter (fun w => severity_eqb (AIExtractor.severity w) s) l).

(** [validationWarnings || []] *)
Definition or_empty {A} (l : option (list A)) : list A :=
  match l with Some x => x | None => [] end.

(** [addToReviewQueue] on the table, at time [now]: insert, or on a
    conflict on [product_id] overwrite the counts, the priority and
    [created_at] of the existing row. *)
Definition addToReviewQueue (productId : Z) (productCode : jsstring)
    (discrepancies : list ComparisonEngine.Discrepancy)
    (validationWarnings : option (list AIExtractor.ValidationWarning))
    (now : Z) (table : gmap Z HumanReviewQueue) : gmap Z HumanReviewQueue :=
  let comparisonHighCount := count_discrepancies high discrepancies in
  let comparisonMediumCount := count_discrepancies medium discrepancies in
  let validationHighCount := count_warnings high (or_empty validationWarnings) in
  let validationMediumCount := count_warnings medium (or_empty validationWarnings) in
  let totalHighCount := (comparisonHighCount + validationHighCount)%nat in
  let totalMediumCount := (comparisonMediumCount + validationMediumCount)%nat in
  let totalDiscrepancies :=
    (length discrepancies + length (or_empty validationWarnings))%nat in
  let priority :=
    (validationHighCount * 3 + comparisonHighCount * 2 + totalMediumCount)%nat in
  match table !! productId with
  | Some row =>
      <[productId :=
          {| product_id := product_id row;
             product_code := product_code row;
             total_discrepancies := totalDiscrepancies;
             high_severity_count := totalHighCount;
             medium_severity_count := totalMediumCount;
             review_status := review_status row;
             review_priority := priority;
             assigned_to := assigned_to row;
             review_notes := review_notes row;
             created_at := now;
             reviewed_at := reviewed_at row |}]> table
  | None =>
      <[productId :=
          {| product_id := productId;
             product_code := productCode;
             total_discrepancies := totalDiscrepancies;
             high_severity_count := totalHighCount;
             medium_severity_count := totalMediumCount;
             review_status := pending;
             review_priority := priority;
             assigned_to := None;
             review_notes := None;
             created_at := now;
             reviewed_at := None |}]> table
  end.


End Repository.

(* ===================================================================== *)
(** ** Batch orchestrator (batch-processor) *)
(* ===================================================================== *)

Module BatchProcessor.

Record PDFFileMetadata := {
  productCode : jsstring;
  productName : jsstring;
  subbrand : option jsstring;
  filePath : jsstring;
  folderPath : jsstring;
  fileName : jsstring
}.

Record ScanResult := {
  totalFiles : nat;
  validFiles : nat;
  invalidFiles : nat;
  metadata : list PDFFileMetadata;
  errors : list jsstring
}.

Record ProcessingOptions := {
  skipExisting : option bool;
  concurrency : option nat;
  limit : option nat
}.

Record ProcessingResult := {
  totalProcessed : nat;
  successCount : nat;
  failureCount : nat;
  skippedCount : nat;
  elapsedMs : Z;
  successRate : number
}.

(** How the promise of [processSinglePDF] settles. *)
Inductive settled :=
| Fulfilled (value : bool)
| Rejected.

(** [array.slice(i, j)] for [0 <= i <= j]. *)
Definition slice {A} (l : list A) (i j : nat) : list A :=
  firstn (j - i) (skipn i l).

(** [(successCount / (successCount + failureCount)) * 100] *)
Definition rate (successCount failureCount : nat) : number :=
  num_scale
    (num_div (inject_Z (Z.of_nat successCount))
             (inject_Z (Z.of_nat (successCount + failureCount))))
    100.

Section Run.
(** [env.CONCURRENT_PROCESSES], positive by the environment schema. *)
Variable CONCURRENT_PROCESSES : positive.
(** [repository.isProductProcessed] *)
Variable isProductProcessed : jsstring -> bool.
(** How processing each item ends. *)
Variable processSinglePDF : PDFFileMetadata -> settled.
(** [shutdownHandler.isShuttingDownNow()] when read before the window
    that starts at a given index. *)
Variable isShuttingDownNow : nat -> bool.
(** [Date.now()] at the start and at the end of the run. *)
Variables startTime endTime : Z.

Definition count_result (acc : nat * nat) (result : settled) : nat * nat :=
  match result with
  | Fulfilled true => (S (fst acc), snd acc)
  | _ => (fst acc, S (snd acc))
  end.

(** The [for] loop over the windows, from index [i]. *)
Fixpoint windows (fuel : nat) (concurrency : nat) (i : nat)
    (pdfsToProcess : list PDFFileMetadata) (counts : nat * nat) : nat * nat :=
  match fuel with
  | O => counts
  | S fuel' =>
      if (i <? length pdfsToProcess)%nat then
        if isShuttingDownNow i then counts
        else
          let batch := slice pdfsToProcess i (i + concurrency) in
          let results := List.map processSinglePDF batch in
          windows fuel' concurrency (i + concurrency) pdfsToProcess
                  (fold_left count_result results counts)
      else counts
  end.

(** The filter on already processed items. *)
Definition unprocessed (skipExisting : bool) (scanResult : ScanResult)
  : list PDFFileMetadata :=
  if skipExisting
  then List.filter (fun pdf => negb (isProductProcessed (productCode pdf)))
                   (metadata scanResult)
  else metadata scanResult.

(** The cut to the first [limit] items; a missing or zero limit is falsy. *)
Definition limited (limit : option nat) (pdfsToProcess : list PDFFileMetadata)
  : list PDFFileMetadata :=
  match limit with
  | Some (S l) =>
      if (S l <? length pdfsToProcess)%nat
      then slice pdfsToProcess 0 (S l) else pdfsToProcess
  | _ => pdfsToProcess
  end.

Definition processAll (options : ProcessingOptions) (scanResult : ScanResult)
  : ProcessingResult :=
  let concurrency :=
    match concurrency options with
    | Some (S c) => S c
    | _ => Pos.to_nat CONCURRENT_PROCESSES
    end in
  let skipExisting :=
    match skipExisting options with Some b => b | None => true end in
  if Nat.eqb (validFiles scanResult) 0 then
    {| totalProcessed := 0; successCount := 0; failureCount := 0;
       skippedCount := 0; elapsedMs := endTime - startTime;
       successRate := Num 0 |}
  else
    let pdfsToProcess := unprocessed skipExisting scanResult in
    let skippedCount :=
      (length (metadata scanResult) - length pdfsToProcess)%nat in
    let pdfsToProcess := limited (limit options) pdfsToProcess in
    if Nat.eqb (length pdfsToProcess) 0 then
      {| totalProcessed := 0; successCount := 0; failureCount := 0;
         skippedCount := skippedCount; elapsedMs := endTime - startTime;
         successRate := Num 100 |}
    else
      let '(successCount, failureCount) :=
        windows (length pdfsToProcess) concurrency 0 pdfsToProcess (0, 0)%nat in
      {| totalProcessed := successCount + failureCount;
         successCount := successCount;
         failureCount := failureCount;
         skippedCount := skippedCount;
         elapsedMs := endTime - startTime;
         successRate := rate successCount failureCount |}.

(** The sequential loop of [retryFailed]; [None] when an item's promise
    rejects, which makes [retryFailed] reject. *)
Fixpoint retry_each (items : list PDFFileMetadata) (counts : nat * nat)
  : option (nat * nat) :=
  match items with
  | [] => Some counts
  | pdf :: rest =>
      match processSinglePDF pdf with
      | Fulfilled true => retry_each rest (S (fst counts), snd counts)
      | Fulfilled false => retry_each rest (fst counts, S (snd counts))
      | Rejected => None
      end
  end.

(** [retryFailed] on the failed products read from the repository, as
    the metadata built from their rows. *)
Definition retryFailed (failedProducts : list PDFFileMetadata)
  : option ProcessingResult :=
  if Nat.eqb (length failedProducts) 0 then
    Some {| totalProcessed := 0; successCount := 0; failureCount := 0;
            skippedCount := 0; elapsedMs := 0; successRate := Num 0 |}
  else
    match retry_each failedProducts (0, 0)%nat with
    | Some (successCount, failureCount) =>
        Some {| totalProcessed := successCount + failureCount;
                successCount := successCount;
                failureCount := failureCount;
                skippedCount := 0;
                elapsedMs := endTime - startTime;
                successRate := rate successCount failureCount |}
    | None => None
    end.
End Run.

(** Step 7 of [processSinglePDF]: whether the product needs review.
    [comparisonResult] is [None] when the verification did not run or did
    not succeed. *)
Definition needsReview
    (comparisonResult : option ComparisonEngine.ComparisonResult)
    (validationWarnings : list AIExtractor.ValidationWarning) : bool :=
  match comparisonResult with
  | Some c => ComparisonEngine.recommendsReview c
  | None => false
  end
  || existsb (fun w => severity_eqb (AIExtractor.severity w) high)
             validationWarnings
  || (2 <? length (List.filter
                     (fun w => severity_eqb (AIExtractor.severity w) medium)
                     validationWarnings))%nat.

(** Step 7 on the review queue: [extractionWarnings] is the
    [validationWarnings] member of the extraction result. *)
Definition flagForReview (productId : Z) (productCode : jsstring)
    (comparisonResult : option ComparisonEngine.ComparisonResult)
    (extractionWarnings : option (list AIExtractor.ValidationWarning))
    (now : Z) (table : gmap Z Repository.HumanReviewQueue)
  : gmap Z Repository.HumanReviewQueue :=
  let validationWarnings := Repository.or_empty extractionWarnings in
  if needsReview comparisonResult validationWarnings then
    let discrepancies :=
      match comparisonResult with
      | Some c => ComparisonEngine.discrepancies c
      | None => []
      end in
    Repository.addToReviewQueue productId productCode discrepancies
      (Some validationWarnings) now table
  else table.

End BatchProcessor.

(* ===================================================================== *)
(** * Specification vocabulary *)
(* ===================================================================== *)

(** The number of entries of a list that carry a given severity. *)
Fixpoint occurrences {A : Type} (sev : A -> Severity) (s : Severity)
    (l : list A) : nat :=
  match l with
  | [] => 0
  | x :: rest =>
      ((if severity_eqb (sev x) s then 1 else 0) + occurrences sev s rest)%nat
  end.

(** The review priority as the specification writes it. *)
Definition spec_priority (discrepancies : list ComparisonEngine.Discrepancy)
    (warnings : list AIExtractor.ValidationWarning) : nat :=
  (3 * occurrences AIExtractor.severity high warnings
   + 2 * occurrences ComparisonEngine.severity high discrepancies
   + (occurrences AIExtractor.severity medium warnings
      + occurrences ComparisonEngine.severity medium discrepancies))%nat.

(** The weight of a severity in the similarity score. *)
Definition spec_weight (s : Severity) : Q :=
  match s with
  | high => 1
  | medium => 1 # 2
  | low => 1 # 4
  end.

(** The sum of the weights of the discrepancies. *)
Definition spec_weight_sum (l : list ComparisonEngine.Discrepancy) : Q :=
  fold_right (fun d acc => spec_weight (ComparisonEngine.severity d) + acc)%Q 0%Q l.

(** [x] clamped to [0, 100]. *)
Definition clamp_0_100 (x : Q) : Q :=
  if Qle_bool x 0 then 0%Q else if Qle_bool 100 x then 100%Q else x.

(** [y] is [x] rounded to one decimal place. *)
Definition rounded_to_tenth (x y : Q) : Prop :=
  (exists k : Z, y == inject_Z k / 10)%Q /\ (Qabs (y - x) <= 1 # 20)%Q.

(** The similarity score before rounding, as the specification writes it. *)
Definition spec_raw_score (l : list ComparisonEngine.Discrepancy)
    (referenceNutrients : nat) : Q :=
  clamp_0_100
    (100 - spec_weight_sum l
           / inject_Z (Z.of_nat (4 + 3 * referenceNutrients)) * 100)%Q.





(** The rate the specification gives for a run with attempted items. *)
Definition spec_rate (successCount failureCount : nat) : Q :=
  (inject_Z (Z.of_nat successCount)
   / inject_Z (Z.of_nat (successCount + failureCount)) * 100)%Q.

(** How often a trace of [withRetry] invoked the operation, and how often
    it slept. *)
Definition invocations (trace : list ErrorHandler.event) : nat :=
  length (List.filter ErrorHandler.is_invoke trace).

Definition sleeps (trace : list ErrorHandler.event) : nat :=
  length (List.filter ErrorHandler.is_sleep trace).



(** The name under which the engine matches a nutrient. *)
Definition matching_name (n : JsonValidator.NutrientData) : jsstring :=
  ComparisonEngine.normalizeNutrientName (JsonValidator.name n).

(** An output nutrient keeps the fields of a recovered entry: its name,
    and every amount or daily-value text the entry carries; the legacy
    [dailyValuePercent] text is kept too, as the adult value when the entry
    has none, or under its own name. *)
Definition keeps_entry (n : value) (out : JsonValidator.NutrientData) : Prop :=
  prop n "name" = Some (JStr (JsonValidator.name out))
  /\ (forall s, prop n "amount" = Some (JStr s) ->
                JsonValidator.amount out = MStr s)
  /\ (forall s, prop n "dailyValuePercentAdult" = Some (JStr s) ->
                JsonValidator.dailyValuePercentAdult out = MStr s)
  /\ (forall s, prop n "dailyValuePercentChildren" = Some (JStr s) ->
                JsonValidator.dailyValuePercentChildren out = MStr s)
  /\ (forall s, prop n "dailyValuePercent" = Some (JStr s) ->
                JsonValidator.is_string (prop n "dailyValuePercentAdult") = false ->
                JsonValidator.dailyValuePercentAdult out = MStr s
                \/ JsonValidator.dailyValuePercent out = MStr s).




(** A result is gated by the shape validator: it succeeds only with a
    value the validator accepts. *)
Definition gated (validator : value -> bool)
    (r : JsonExtractor.ExtractionResult) : Prop :=
  JsonExtractor.success r = true ->
  exists v, JsonExtractor.data r = Some v /\ validator v = true.


(** An item counts as a success when its promise fulfils with [true]. *)
Definition fulfilled_true (r : BatchProcessor.settled) : bool :=
  match r with
  | BatchProcessor.Fulfilled true => true
  | _ => false
  end.

(** The items of a list whose processing succeeds. *)
Definition successes (processSinglePDF : BatchProcessor.PDFFileMetadata -> BatchProcessor.settled)
    (pdfs : list BatchProcessor.PDFFileMetadata) : nat :=
  length (List.filter (fun pdf => fulfilled_true (processSinglePDF pdf)) pdfs).

(** The items [processAll] selects: not yet processed, cut to the limit. *)
Definition selected (isProductProcessed : jsstring -> bool)
    (options : BatchProcessor.ProcessingOptions)
    (scanResult : BatchProcessor.ScanResult) : list BatchProcessor.PDFFileMetadata :=
  BatchProcessor.limited (BatchProcessor.limit options)
    (BatchProcessor.unprocessed isProductProcessed
       (match BatchProcessor.skipExisting options with Some b => b | None => true end)
       scanResult).

(** The size of a window. *)
Definition window_size (CONCURRENT_PROCESSES : positive)
    (options : BatchProcessor.ProcessingOptions) : nat :=
  match BatchProcessor.concurrency options with
  | Some (S c) => S c
  | _ => Pos.to_nat CONCURRENT_PROCESSES
  end.

(** Whether [s] is the content of a string literal as the scanners of the
    recovery module read it: every unit is a plain one (no quote, no
    backslash) or belongs to an escape, a backslash and the unit after it.
    [escaped] tells that the unit before [s] was an unpaired backslash; the
    result is the same flag at the end of [s], or [None] when [s] holds a
    quote outside an escape. *)
Fixpoint content_state (s : jsstring) (escaped : bool) : option bool :=
  match s with
  | [] => Some escaped
  | c :: rest =>
      if escaped then content_state rest false
      else if (c =? 92)%N then content_state rest true
      else if (c =? 34)%N then None
      else content_state rest false
  end.

Definition literal_content (s : jsstring) : Prop :=
  content_state s false = Some false.

(** The units that lie inside the strings of a text, as the scanners of
    the recovery module read it: a quote outside an escape opens or closes
    a string, a backslash escapes the unit after it; quotes, backslashes
    and escaped units are left out. *)
Fixpoint string_units (s : jsstring) (inString escaped : bool) : list N :=
  match s with
  | [] => []
  | c :: rest =>
      if escaped then string_units rest inString false
      else if (c =? 92)%N then string_units rest inString true
      else if (c =? 34)%N then string_units rest (negb inString) false
      else if inString then c :: string_units rest inString false
      else string_units rest inString false
  end.

(** Whether the text ends inside a string, and whether it ends with an
    unpaired backslash. *)
Fixpoint end_state (s : jsstring) (inString escaped : bool) : bool * bool :=
  match s with
  | [] => (inString, escaped)
  | c :: rest =>
      if escaped then end_state rest inString false
      else if (c =? 92)%N then end_state rest inString true
      else if (c =? 34)%N then end_state rest (negb inString) false
      else end_state rest inString false
  end.

(** The lengths of the string literals of a text, in code units between
    the quotes, as the scanners of the recovery module delimit them; a
    string left open at the end of the text counts too. *)
Fixpoint literal_lengths (s : jsstring) (inString escaped : bool)
    (current : nat) : list nat :=
  match s with
  | [] => if inString then [current] else []
  | c :: rest =>
      let counted := if inString then S current else current in
      if escaped then literal_lengths rest inString false counted
      else if (c =? 92)%N then literal_lengths rest inString true counted
      else if (c =? 34)%N then
        if inString then current :: literal_lengths rest false false 0
        else literal_lengths rest true false 0
      else literal_lengths rest inString false counted
  end.

(** The warning read from the first line of a validation error. *)
Definition header_warning : AIExtractor.ValidationWarning :=
  {| AIExtractor.fieldPath := js "unknown";
     AIExtractor.message := js "Validation failed:";
     AIExtractor.severity := low |}.

(** A text that starts with a unit other than white space. *)
Definition starts_plain (s : jsstring) : Prop :=
  exists c rest, s = c :: rest /\ isWhiteSpace c = false.

(** A text that ends with a full stop, an exclamation mark or a question mark. *)
Definition ends_sentence (s : jsstring) : Prop :=
  exists body c, s = body ++ [c] /\ (c = 46%N \/ c = 33%N \/ c = 63%N).


(** The message of the schema for an amount it does not accept. *)
Definition amount_message : string :=
  "Amount must include number and unit (e.g., '100 mg', '<1 g')".

(** The issue the schema raises for the amount of the nutrient at an index. *)
Definition amount_issue (index : nat) : JsonValidator.issue :=
  {| JsonValidator.path :=
       [js "supplementFacts"; js "nutrients"; nat_to_string index; js "amount"];
     JsonValidator.message := js amount_message |}.

(** The line of the error text for that issue. *)
Definition amount_line (index : nat) : jsstring :=
  js "supplementFacts.nutrients." ++ nat_to_string index ++ js ".amount"
  ++ js ": " ++ js amount_message.

(** The separators at which [parseValidationWarnings] splits. *)
Definition is_separator (c : N) : bool := ((c =? 59) || (c =? 10))%N.

(** The path of an amount issue as the error text prints it. *)
Definition amount_path (index : nat) : jsstring :=
  js "supplementFacts.nutrients." ++ nat_to_string index ++ js ".amount".

(* ===================================================================== *)
(** * Sample inputs *)
(* ===================================================================== *)

(** A nutrient entry with a name and an amount only. *)
Definition nutrient_with_amount (n a : string) : JsonValidator.NutrientData :=
  {| JsonValidator.name := js n;
     JsonValidator.amount := MStr (js a);
     JsonValidator.dailyValuePercentAdult := MNull;
     JsonValidator.dailyValuePercentChildren := MNull;
     JsonValidator.dailyValuePercent := MUndefined |}.

(** A validation warning on a nutrient amount, with a given severity. *)
Definition warning_of (s : Severity) : AIExtractor.ValidationWarning :=
  {| AIExtractor.fieldPath := js "supplementFacts.nutrients.0.amount";
     AIExtractor.message := js "Amount must include number and unit";
     AIExtractor.severity := s |}.

(** The metadata of a scanned file, and a scan that found the given codes. *)
Definition sample_pdf (code : string) : BatchProcessor.PDFFileMetadata :=
  {| BatchProcessor.productCode := js code;
     BatchProcessor.productName := js "Sample product";
     BatchProcessor.subbrand := None;
     BatchProcessor.filePath := js "/pdfs/" ++ js code ++ js "-PI_EN.pdf";
     BatchProcessor.folderPath := js "/pdfs";
     BatchProcessor.fileName := js code ++ js "-PI_EN.pdf" |}.

Definition sample_scan (codes : list string) : BatchProcessor.ScanResult :=
  {| BatchProcessor.totalFiles := length codes;
     BatchProcessor.validFiles := length codes;
     BatchProcessor.invalidFiles := 0;
     BatchProcessor.metadata := List.map sample_pdf codes;
     BatchProcessor.errors := [] |}.

(** The options of a run started without arguments. *)
Definition default_options : BatchProcessor.ProcessingOptions :=
  {| BatchProcessor.skipExisting := None;
     BatchProcessor.concurrency := None;
     BatchProcessor.limit := None |}.

(** An operation that fails every time with the same error. *)
Definition always_failing (error : ErrorHandler.thrown) (attempt : nat)
  : ErrorHandler.Outcome unit :=
  ErrorHandler.Thrown error.

(** The error strict validation raises for a missing product name. *)
Definition validation_failure : ErrorHandler.thrown :=
  ErrorHandler.ErrorObject (js "Validation failed: productName: Required").

(** The passes of a sample interleaving on a limiter with ceiling 2. *)
Definition sample_passes : list Z := [0; 10; 20; 60101; 60111; 60112].




(** A recovered value whose supplement facts lack the serving texts and
    carry one nutrient with a numeric amount and a legacy daily value. *)
Definition partial_product_json : value :=
  JObj [ (js "productName", JStr (js "Zinc Plus"));
         (js "ingredients",
          JArr [ JObj [ (js "name", JStr (js "Zinc citrate")) ] ]);
         (js "dietaryAttributes", JArr [ JStr (js "Vegan") ]);
         (js "supplementFacts",
          JObj [ (js "servings", JNum 1);
                 (js "nutrients",
                  JArr [ JObj [ (js "name", JStr (js "Zinc"));
                                (js "amount", JStr (js "15 mg"));
                                (js "dailyValuePercent", JStr (js "136")) ];
                         JObj [ (js "amount", JStr (js "2 mg")) ] ]) ]) ].

(** JSON text written with apostrophes in place of double quotes. *)
Definition json_text (s : string) : jsstring :=
  List.map (fun c => if (c =? 39)%N then 34%N else c) (js s).


(** The value it parses to. *)
Definition well_formed_value : value :=
  JObj [ (js "productName", JStr (js "Zinc Plus"));
         (js "productDescription", JStr (js "A zinc supplement."));
         (js "directions", JStr (js "Take one capsule daily.")) ].

(** A lenient parser that accepts nothing, and a validator that accepts
    any object. *)
Definition no_lenient_parser (text : jsstring) : option value := None.
Definition any_object (v : value) : bool := is_object v.

(** The codes of twenty scanned items. *)
Definition twenty_codes : list string :=
  ["P01"; "P02"; "P03"; "P04"; "P05"; "P06"; "P07"; "P08"; "P09"; "P10";
   "P11"; "P12"; "P13"; "P14"; "P15"; "P16"; "P17"; "P18"; "P19"; "P20"]%string.

(** Options that cut the run to five items, two per window. *)
Definition limit_five : BatchProcessor.ProcessingOptions :=
  {| BatchProcessor.skipExisting := Some true;
     BatchProcessor.concurrency := Some 2%nat;
     BatchProcessor.limit := Some 5%nat |}.

(** An object with one string member of 5000 letters. *)
Definition long_string_object : jsstring :=
  json_text "{'a':'" ++ repeat 120%N 5000 ++ json_text "'}".

(** A record that lists vitamin C twice, under two spellings that
    normalize to the same matching name, with different amounts. *)
Definition duplicate_names_facts : JsonValidator.SupplementFactsData :=
  {| JsonValidator.servings := js "1 tablet";
     JsonValidator.servingsPerContainer := js "90";
     JsonValidator.calories := MNull;
     JsonValidator.protein := MNull;
     JsonValidator.nutrients :=
       [ nutrient_with_amount "Vitamin C" "500 mg";
         nutrient_with_amount "Vit C (ascorbic acid)" "250 mg" ] |}.

(** A random source that always draws one half. *)
Definition half_jitter (attempt : nat) : Q := 1 # 2.

(** Two records without nutrients that differ in three texts. *)
Definition capsule_facts : JsonValidator.SupplementFactsData :=
  {| JsonValidator.servings := js "1 capsule";
     JsonValidator.servingsPerContainer := js "30";
     JsonValidator.calories := MStr (js "5");
     JsonValidator.protein := MNull;
     JsonValidator.nutrients := [] |}.

Definition tablet_facts : JsonValidator.SupplementFactsData :=
  {| JsonValidator.servings := js "2 tablets";
     JsonValidator.servingsPerContainer := js "60";
     JsonValidator.calories := MStr (js "10");
     JsonValidator.protein := MNull;
     JsonValidator.nutrients := [] |}.

(** A supplement-facts block without the list of nutrients. *)
Definition servings_only_json : value :=
  JObj [ (js "servings", JStr (js "1 capsule"));
         (js "servingsPerContainer", JStr (js "30")) ].

(** A validated record whose supplement facts hold one nutrient without
    an amount and one with the amount "500mg". *)
Definition record_with_facts : JsonValidator.ProductExtractionData :=
  {| JsonValidator.productName := js "Zinc Plus";
     JsonValidator.productSlogan := MNull;
     JsonValidator.productDescription := js "A zinc supplement";
     JsonValidator.subbrand := MUndefined;
     JsonValidator.supplementFacts :=
       Some {| JsonValidator.servings := js "1 capsule";
               JsonValidator.servingsPerContainer := js "30";
               JsonValidator.calories := MNull;
               JsonValidator.protein := MNull;
               JsonValidator.nutrients :=
                 [ {| JsonValidator.name := js "Zinc";
                      JsonValidator.amount := MNull;
                      JsonValidator.dailyValuePercentAdult := MStr (js "136");
                      JsonValidator.dailyValuePercentChildren := MNull;
                      JsonValidator.dailyValuePercent := MUndefined |};
                   nutrient_with_amount "Vitamin C" "500mg" ] |};
     JsonValidator.ingredients := [];
     JsonValidator.directions := js "Take one capsule daily";
     JsonValidator.caution := MNull;
     JsonValidator.dietaryAttributes := [js "vegan"; js "Vegan "];
     JsonValidator.references := MNull |}.

(** A recovered value whose second nutrient has an amount without a unit. *)
Definition unitless_amount_json : value :=
  JObj [ (js "productName", JStr (js "Zinc Plus"));
         (js "productDescription", JStr (js "A zinc supplement."));
         (js "directions", JStr (js "Take one capsule daily."));
         (js "supplementFacts",
          JObj [ (js "servings", JStr (js "1 capsule"));
                 (js "servingsPerContainer", JStr (js "30"));
                 (js "nutrients",
                  JArr [ JObj [ (js "name", JStr (js "Zinc"));
                                (js "amount", JStr (js "15 mg")) ];
                         JObj [ (js "name", JStr (js "Copper"));
                                (js "amount", JStr (js "2")) ] ]) ]) ].

(* ===================================================================== *)
(** * Properties *)
(* ===================================================================== *)

(** ** Shared lemmas *)

Lemma occurrences_filter {A : Type} (sev : A -> Severity) (s : Severity)
    (l : list A) :
  length (List.filter (fun x => severity_eqb (sev x) s) l) = occurrences sev s l.
Proof.
  induction l as [|x l IH]; simpl; [reflexivity|].
  destruct (severity_eqb (sev x) s); simpl; rewrite IH; reflexivity.
Qed.




(** ** Review prioritizer *)

(** C9: the priority written by [addToReviewQueue], on insert and on
    conflict alike, is 3 x (high validation warnings) + 2 x (high comparison
    discrepancies) + (medium warnings + medium discrepancies); one high
    validation warning alone gives 3, and two high comparison discrepancies
    with one medium entry give 5. *)
Theorem C9_review_priority_written_on_upsert :
  (forall productId productCode discrepancies validationWarnings now
          (table : gmap Z Repository.HumanReviewQueue),
      exists row,
        Repository.addToReviewQueue productId productCode discrepancies
          validationWarnings now table !! productId = Some row
        /\ Repository.review_priority row
           = spec_priority discrepancies (Repository.or_empty validationWarnings))
  /\ (forall w, AIExtractor.severity w = high ->
                spec_priority [] [w] = 3%nat)
  /\ (forall d1 d2 d3,
        ComparisonEngine.severity d1 = high ->
        ComparisonEngine.severity d2 = high ->
        ComparisonEngine.severity d3 = medium ->
        spec_priority [d1; d2; d3] [] = 5%nat)
  /\ (forall d1 d2 w,
        ComparisonEngine.severity d1 = high ->
        ComparisonEngine.severity d2 = high ->
        AIExtractor.severity w = medium ->
        spec_priority [d1; d2] [w] = 5%nat).
Proof.
  repeat split.
  - intros productId productCode discrepancies validationWarnings now table.
    unfold Repository.addToReviewQueue, spec_priority,
      Repository.count_warnings, Repository.count_discrepancies.
    rewrite !occurrences_filter.
    destruct (table !! productId) as [row|] eqn:Hrow;
      eexists; (split; [apply lookup_insert_eq|]); simpl; lia.
  - intros w Hw. unfold spec_priority. simpl. rewrite Hw. reflexivity.
  - intros d1 d2 d3 H1 H2 H3. unfold spec_priority. simpl.
    rewrite H1, H2, H3. reflexivity.
  - intros d1 d2 w H1 H2 H3. unfold spec_priority. simpl.
    rewrite H1, H2, H3. reflexivity.
Qed.

(** C9 at a concrete warning. *)
Lemma C9_witness :
  spec_priority [] [warning_of high] = 3%nat.
Proof.
  destruct C9_review_priority_written_on_upsert as (_ & H & _).
  apply H. reflexivity.
Defined.

(** ** Batch orchestrator *)

Lemma rate_attempted (successCount failureCount : nat) :
  (0 < successCount + failureCount)%nat ->
  BatchProcessor.rate successCount failureCount
  = Num (spec_rate successCount failureCount).
Proof.
  intros Hpos. unfold BatchProcessor.rate, num_div, spec_rate.
  destruct (Qeq_bool (inject_Z (Z.of_nat (successCount + failureCount))) 0) eqn:E.
  - apply Qeq_bool_iff in E. unfold Qeq in E. simpl in E. lia.
  - reflexivity.
Qed.

(** C3, as stated, fails: a [processAll] run in which every scanned item
    is skipped as already processed attempts nothing and reports 100. *)
Lemma C3_counterexample_all_skipped_reports_100 :
  let r :=
    BatchProcessor.processAll 5%positive (fun _ => true)
      (fun _ => BatchProcessor.Fulfilled true) (fun _ => false) 0 1000
      default_options (sample_scan ["A1"%string]) in
  (BatchProcessor.successCount r + BatchProcessor.failureCount r = 0)%nat
  /\ BatchProcessor.successRate r = Num 100
  /\ ~ num_eq (BatchProcessor.successRate r) (Num 0).
Proof.
  vm_compute. split; [reflexivity|]. split; [reflexivity|]. discriminate.
Qed.

(** C3, amended: in every batch run in which at least one item was
    attempted, [successRate] is successCount / (successCount +
    failureCount) * 100; a [processAll] run whose scan found no valid file
    and a [retryFailed] run with no failed product report 0; a [processAll]
    run in which every scanned item is skipped as already processed
    reports 100. *)
Theorem C3_success_rate_amended :
  forall CONCURRENT_PROCESSES isProductProcessed processSinglePDF
         isShuttingDownNow startTime endTime,
    (forall options scanResult,
        let r :=
          BatchProcessor.processAll CONCURRENT_PROCESSES isProductProcessed
            processSinglePDF isShuttingDownNow startTime endTime
            options scanResult in
        ((0 < BatchProcessor.successCount r + BatchProcessor.failureCount r)%nat ->
         BatchProcessor.successRate r
         = Num (spec_rate (BatchProcessor.successCount r)
                          (BatchProcessor.failureCount r)))
        /\ (BatchProcessor.validFiles scanResult = 0%nat ->
            BatchProcessor.successRate r = Num 0)
        /\ (BatchProcessor.validFiles scanResult <> 0%nat ->
            BatchProcessor.skipExisting options <> Some false ->
            (forall pdf, In pdf (BatchProcessor.metadata scanResult) ->
                         isProductProcessed (BatchProcessor.productCode pdf) = true) ->
            BatchProcessor.successRate r = Num 100))
    /\ (forall failedProducts r,
          BatchProcessor.retryFailed processSinglePDF startTime endTime
            failedProducts = Some r ->
          ((0 < BatchProcessor.successCount r + BatchProcessor.failureCount r)%nat ->
           BatchProcessor.successRate r
           = Num (spec_rate (BatchProcessor.successCount r)
                            (BatchProcessor.failureCount r)))
          /\ (failedProducts = [] -> BatchProcessor.successRate r = Num 0)).
Proof.
  intros CP isProcessed process shutdown startTime endTime. split.
  - intros options scanResult r. subst r. unfold BatchProcessor.processAll.
    destruct (Nat.eqb (BatchProcessor.validFiles scanResult) 0) eqn:Hvalid.
    + simpl. repeat split; try reflexivity; try lia.
      intros Hne. apply Nat.eqb_eq in Hvalid. contradiction.
    + set (todo := BatchProcessor.limited _ _).
      destruct (Nat.eqb (length todo) 0) eqn:Hempty.
      * simpl. repeat split; try reflexivity; try lia.
        intros H0. apply Nat.eqb_neq in Hvalid. contradiction.
      * destruct (BatchProcessor.windows _ _ _ _ _ _ _) as [sc fc] eqn:Hw.
        simpl. split; [apply rate_attempted|]. split.
        -- intros H0. apply Nat.eqb_neq in Hvalid. contradiction.
        -- intros _ Hskip Hall. exfalso.
           assert (Hnil : todo = []).
           { subst todo. unfold BatchProcessor.unprocessed.
             assert (Hs : match BatchProcessor.skipExisting options with
                          | Some b => b | None => true end = true).
             { destruct (BatchProcessor.skipExisting options) as [[|]|];
                 congruence. }
             rewrite Hs.
             assert (Hf : List.filter
                            (fun pdf => negb (isProcessed (BatchProcessor.productCode pdf)))
                            (BatchProcessor.metadata scanResult) = []).
             { induction (BatchProcessor.metadata scanResult) as [|x l IH];
                 [reflexivity|].
               simpl. rewrite (Hall x (or_introl eq_refl)). simpl.
               apply IH. intros pdf Hin. apply Hall. right. exact Hin. }
             rewrite Hf. unfold BatchProcessor.limited.
             destruct (BatchProcessor.limit options) as [[|l]|]; reflexivity. }
           rewrite Hnil in Hempty. discriminate.
  - intros failedProducts r. unfold BatchProcessor.retryFailed.
    destruct (Nat.eqb (length failedProducts) 0) eqn:Hempty.
    + intros [= <-]. simpl. split; [lia|reflexivity].
    + destruct (BatchProcessor.retry_each _ _ _) as [[sc fc]|]; [|discriminate].
      intros [= <-]. simpl. split; [apply rate_attempted|].
      intros ->. discriminate.
Qed.

(** C3 (amended) on a run of three items of which one succeeds. *)
Lemma C3_witness :
  let r :=
    BatchProcessor.processAll 2%positive (fun _ => false)
      (fun pdf => BatchProcessor.Fulfilled
                    (str_eqb (BatchProcessor.productCode pdf) (js "A1")))
      (fun _ => false) 0 1000
      default_options (sample_scan ["A1"; "B2"; "C3"]%string) in
  BatchProcessor.successCount r = 1%nat
  /\ BatchProcessor.failureCount r = 2%nat
  /\ BatchProcessor.successRate r = Num (spec_rate 1 2).
Proof.
  split; [reflexivity|]. split; [reflexivity|].
  apply (C3_success_rate_amended 2%positive (fun _ => false)
           (fun pdf => BatchProcessor.Fulfilled
                         (str_eqb (BatchProcessor.productCode pdf) (js "A1")))
           (fun _ => false) 0 1000).
  vm_compute. lia.
Defined.

(** Outside the amended statement: when the shutdown flag is already set
    before the first window, nothing is attempted and the unguarded
    division gives NaN. *)
Example shutdown_before_first_window_gives_NaN :
  let r :=
    BatchProcessor.processAll 5%positive (fun _ => false)
      (fun _ => BatchProcessor.Fulfilled true) (fun _ => true) 0 1000
      default_options (sample_scan ["A1"; "B2"]%string) in
  BatchProcessor.totalProcessed r = 0%nat
  /\ BatchProcessor.successRate r = NaN.
Proof. vm_compute. split; reflexivity. Qed.

(** With a limit of 5 over 20 eligible items exactly 5 are processed, and
    items already processed are left out before the limit applies. *)
Example limit_five_of_twenty :
  let r :=
    BatchProcessor.processAll 5%positive
      (fun code => str_eqb code (js "P01"))
      (fun _ => BatchProcessor.Fulfilled true) (fun _ => false) 0 1000
      limit_five (sample_scan twenty_codes) in
  BatchProcessor.totalProcessed r = 5%nat
  /\ BatchProcessor.skippedCount r = 1%nat
  /\ BatchProcessor.successRate r = Num (spec_rate 5 0).
Proof. vm_compute. repeat split; reflexivity. Qed.

(** The window loop never runs out of fuel: with a positive window size,
    any fuel of at least the number of remaining items gives the same
    counts. *)
Lemma windows_fuel_irrelevant process shutdown concurrency pdfs :
  (0 < concurrency)%nat ->
  forall fuel1 fuel2 i counts,
    (length pdfs - i <= fuel1)%nat -> (length pdfs - i <= fuel2)%nat ->
    BatchProcessor.windows process shutdown fuel1 concurrency i pdfs counts
    = BatchProcessor.windows process shutdown fuel2 concurrency i pdfs counts.
Proof.
  intros Hc. induction fuel1 as [|f1 IH]; intros fuel2 i counts H1 H2.
  - destruct fuel2 as [|f2]; [reflexivity|]. simpl.
    destruct (i <? length pdfs)%nat eqn:E; [|reflexivity].
    apply Nat.ltb_lt in E. lia.
  - destruct fuel2 as [|f2]; simpl.
    + destruct (i <? length pdfs)%nat eqn:E; [|reflexivity].
      apply Nat.ltb_lt in E. lia.
    + destruct (i <? length pdfs)%nat eqn:E; [|reflexivity].
      destruct (shutdown i); [reflexivity|].
      apply IH; lia.
Qed.

(** ** Retry controller *)

Lemma withRetry_from_always_failing config random error :
  forall remaining currentAttempt,
    (currentAttempt + remaining = ErrorHandler.maxRetries config)%nat ->
    exists trace,
      ErrorHandler.withRetry_from config random (always_failing error)
        (S remaining) currentAttempt
      = Some (trace, ErrorHandler.Thrown error)
      /\ invocations trace = S remaining
      /\ sleeps trace = remaining.
Proof.
  induction remaining as [|n IH]; intros currentAttempt Hsum.
  - simpl.
    assert (Hle : (ErrorHandler.maxRetries config <=? currentAttempt)%nat = true)
      by (apply Nat.leb_le; lia).
    rewrite Hle. eexists. split; [reflexivity|]. split; reflexivity.
  - change (ErrorHandler.withRetry_from config random (always_failing error)
              (S (S n)) currentAttempt)
      with (if (ErrorHandler.maxRetries config <=? currentAttempt)%nat
            then Some ([ErrorHandler.Invoke currentAttempt; ErrorHandler.LogError],
                       ErrorHandler.Thrown (T := unit) error)
            else
              match ErrorHandler.withRetry_from config random
                      (always_failing error) (S n) (S currentAttempt) with
              | Some (tr, r) =>
                  Some (ErrorHandler.Invoke currentAttempt
                          :: ErrorHandler.LogWarn currentAttempt
                          :: ErrorHandler.Sleep
                               (ErrorHandler.calculateDelay config random
                                  currentAttempt)
                          :: tr, r)
              | None => None
              end).
    assert (Hgt : (ErrorHandler.maxRetries config <=? currentAttempt)%nat = false)
      by (apply Nat.leb_gt; lia).
    rewrite Hgt.
    destruct (IH (S currentAttempt)) as (tr & Heq & Hinv & Hsl); [lia|].
    rewrite Heq. eexists. split; [reflexivity|].
    unfold invocations, sleeps in *. simpl. rewrite Hinv, Hsl. split; reflexivity.
Qed.

(** [withRetry] always settles: the fuel it is given is enough for any
    operation. *)
Lemma withRetry_terminates {T : Type} config random (fn : nat -> ErrorHandler.Outcome T) :
  exists result, ErrorHandler.withRetry config random fn = Some result.
Proof.
  unfold ErrorHandler.withRetry.
  assert (Hgen : forall remaining currentAttempt,
             (currentAttempt + remaining = ErrorHandler.maxRetries config)%nat ->
             exists result,
               ErrorHandler.withRetry_from config random fn (S remaining)
                 currentAttempt = Some result).
  { induction remaining as [|n IH]; intros currentAttempt Hsum.
    - simpl. destruct (fn currentAttempt); [eexists; reflexivity|].
      assert (Hle : (ErrorHandler.maxRetries config <=? currentAttempt)%nat = true)
        by (apply Nat.leb_le; lia).
      rewrite Hle. eexists. reflexivity.
    - cbn [ErrorHandler.withRetry_from].
      destruct (fn currentAttempt); [eexists; reflexivity|].
      destruct (ErrorHandler.maxRetries config <=? currentAttempt)%nat;
        [eexists; reflexivity|].
      destruct (IH (S currentAttempt)) as [[tr r] Hres]; [lia|].
      cbn [ErrorHandler.withRetry_from] in Hres. rewrite Hres.
      eexists. reflexivity. }
  apply (Hgen (ErrorHandler.maxRetries config) 0%nat). reflexivity.
Qed.

(** The delay before the next attempt is the capped exponential backoff
    plus a jitter below one second. *)
Lemma calculateDelay_bounds config random attemptNumber :
  (0 <= random attemptNumber < 1)%Q ->
  let backoff :=
    Qmin (ErrorHandler.baseDelay config
          * Qpower (ErrorHandler.backoffMultiplier config)
                   (Z.of_nat attemptNumber))
         (ErrorHandler.maxDelay config) in
  (backoff <= ErrorHandler.calculateDelay config random attemptNumber
   < backoff + 1000)%Q.
Proof.
  intros [Hlo Hhi] backoff. unfold ErrorHandler.calculateDelay.
  fold backoff. clearbody backoff.
  set (j := random attemptNumber) in *. clearbody j.
  split; lra.
Qed.

(** C1 (the code departs from the claim): an error classified VALIDATION is
    not retryable by [isRetryable], yet [withRetry] with three retries
    invokes the always-failing operation four times and sleeps three times
    before it lets the error through. *)
Theorem C1_withRetry_retries_non_retryable_error :
  forall random,
    ErrorHandler.classifyError validation_failure = ErrorHandler.VALIDATION
    /\ ErrorHandler.isRetryable validation_failure = false
    /\ exists trace,
         ErrorHandler.withRetry (ErrorHandler.DEFAULT_RETRY_CONFIG 3) random
           (always_failing validation_failure)
         = Some (trace, ErrorHandler.Thrown validation_failure)
         /\ invocations trace = 4%nat
         /\ sleeps trace = 3%nat.
Proof.
  intros random. split; [vm_compute; reflexivity|].
  split; [vm_compute; reflexivity|].
  unfold ErrorHandler.withRetry.
  apply (withRetry_from_always_failing
           (ErrorHandler.DEFAULT_RETRY_CONFIG 3) random validation_failure 3 0).
  reflexivity.
Qed.

(** ** Rate limiter *)

Lemma filter_length_bound {A : Type} (f : A -> bool) (l : list A) :
  (length (List.filter f l) <= length l)%nat.
Proof.
  induction l as [|x l IH]; simpl; [lia|].
  destruct (f x); simpl; lia.
Qed.











(** The decisions of the sample interleaving: the third pass finds the
    window full and is told to sleep until the first admission is 60.1 s
    old; the retry at that time is admitted. *)
Example sample_run_decisions :
  List.map snd (snd (RateLimiter.run sample_passes (RateLimiter.create 2) []))
  = [RateLimiter.Granted; RateLimiter.Granted; RateLimiter.Suspended 60080;
     RateLimiter.Granted; RateLimiter.Granted; RateLimiter.Suspended 60089].
Proof. reflexivity. Qed.

(** ** Comparison engine: amounts and units *)





(** ** Comparison engine: similarity score and review recommendation *)

Lemma weight_spec (d : ComparisonEngine.Discrepancy) :
  ComparisonEngine.weight d = spec_weight (ComparisonEngine.severity d).
Proof. unfold ComparisonEngine.weight. destruct (ComparisonEngine.severity d); reflexivity. Qed.

Lemma weighted_sum_spec (l : list ComparisonEngine.Discrepancy) :
  forall acc : Q,
    (fold_left (fun (sum : Q) d => sum + ComparisonEngine.weight d) l acc
     == acc + spec_weight_sum l)%Q.
Proof.
  induction l as [|d l IH]; intros acc; simpl.
  - ring.
  - rewrite IH, weight_spec. ring.
Qed.

Lemma clamp_spec (x : Q) : (Qmax 0 (Qmin 100 x) == clamp_0_100 x)%Q.
Proof.
  unfold clamp_0_100.
  destruct (Qle_bool x 0) eqn:E0.
  - apply Qle_bool_iff in E0.
    rewrite (Q.min_r 100 x) by lra. apply Q.max_l. exact E0.
  - destruct (Qle_bool 100 x) eqn:E1.
    + apply Qle_bool_iff in E1.
      rewrite (Q.min_l 100 x) by exact E1. apply Q.max_r. lra.
    + assert (H0 : ~ (x <= 0)%Q) by (rewrite <- Qle_bool_iff; congruence).
      assert (H1 : ~ (100 <= x)%Q) by (rewrite <- Qle_bool_iff; congruence).
      rewrite (Q.min_r 100 x) by lra. apply Q.max_r. lra.
Qed.

Lemma clamp_compat (x y : Q) : (x == y)%Q -> (clamp_0_100 x == clamp_0_100 y)%Q.
Proof.
  intros Hxy. rewrite <- !clamp_spec. rewrite Hxy. reflexivity.
Qed.

Lemma round_to_tenth (x : Q) :
  rounded_to_tenth x (inject_Z (ComparisonEngine.Math_round (x * 10)) / 10)%Q.
Proof.
  unfold rounded_to_tenth, ComparisonEngine.Math_round. split.
  - eexists. reflexivity.
  - pose proof (Qfloor_le (x * 10 + (1 # 2))) as Hlo.
    pose proof (Qlt_floor (x * 10 + (1 # 2))) as Hhi.
    rewrite inject_Z_plus in Hhi. change (inject_Z 1) with 1%Q in Hhi.
    set (k := inject_Z (Qfloor (x * 10 + (1 # 2)))) in *. clearbody k.
    assert (E : (k / 10 == k * (1 # 10))%Q) by (unfold Qdiv; reflexivity).
    rewrite E.
    apply Qabs_Qle_condition. split; lra.
Qed.

Lemma rounded_compat (x x' y : Q) :
  (x == x')%Q -> rounded_to_tenth x y -> rounded_to_tenth x' y.
Proof.
  intros Hx [Hk Habs]. split; [exact Hk|]. rewrite <- Hx. exact Habs.
Qed.

Lemma occurrences_positive {A : Type} (sev : A -> Severity) (s : Severity)
    (l : list A) :
  (0 < occurrences sev s l)%nat <-> exists x, In x l /\ sev x = s.
Proof.
  induction l as [|x l IH]; simpl.
  - split; [lia|]. intros (y & [] & _).
  - destruct (severity_eqb (sev x) s) eqn:E.
    + split; [|lia]. intros _. exists x. split; [left; reflexivity|].
      destruct (sev x), s; simpl in E; congruence.
    + rewrite Nat.add_0_l, IH. split.
      * intros (y & Hin & Hy). exists y. split; [right; exact Hin|exact Hy].
      * intros (y & [<-|Hin] & Hy).
        -- subst s. destruct (sev x); discriminate.
        -- exists y. split; assumption.
Qed.

(** C5: [similarityScore] is 100 - (sum of the weights of the
    discrepancies / totalFieldCount * 100) clamped to [0, 100] and rounded
    to one decimal place, with weights 1, 0.5 and 0.25 for high, medium and
    low and totalFieldCount = 4 + 3 x (number of nutrients of the reference
    side); [recommendsReview] holds exactly when there is a high-severity
    discrepancy, or more than two medium-severity ones, or the score is
    below 85. *)
Theorem C5_similarity_score_and_review_recommendation :
  forall a b : JsonValidator.SupplementFactsData,
    let r := ComparisonEngine.compareSupplementFacts a b in
    rounded_to_tenth
      (spec_raw_score (ComparisonEngine.discrepancies r)
                      (length (JsonValidator.nutrients a)))
      (ComparisonEngine.similarityScore r)
    /\ (ComparisonEngine.recommendsReview r = true
        <-> (exists d, In d (ComparisonEngine.discrepancies r)
                       /\ ComparisonEngine.severity d = high)
            \/ (2 < occurrences ComparisonEngine.severity medium
                      (ComparisonEngine.discrepancies r))%nat
            \/ (ComparisonEngine.similarityScore r < 85)%Q).
Proof.
  intros a b r. subst r. unfold ComparisonEngine.compareSupplementFacts.
  set (l := (ComparisonEngine.compareTextField _ _ _ ++ _)%list).
  cbn [ComparisonEngine.discrepancies ComparisonEngine.similarityScore
       ComparisonEngine.recommendsReview].
  split.
  - unfold ComparisonEngine.calculateSimilarityScore,
      ComparisonEngine.countTotalFields.
    replace (4 + length (JsonValidator.nutrients a) * 3)%nat
      with (4 + 3 * length (JsonValidator.nutrients a))%nat by lia.
    change (Nat.eqb (4 + 3 * length (JsonValidator.nutrients a)) 0) with false.
    cbv iota.
    eapply rounded_compat; [|apply round_to_tenth].
    rewrite clamp_spec. unfold spec_raw_score. apply clamp_compat.
    rewrite weighted_sum_spec. unfold Qdiv. ring.
  - unfold ComparisonEngine.count_severity. rewrite !occurrences_filter.
    rewrite !orb_true_iff, !Nat.ltb_lt, negb_true_iff, occurrences_positive.
    assert (Hscore : forall q : Q, Qle_bool 85 q = false <-> (q < 85)%Q).
    { intros q. split.
      - intros E. apply Qnot_le_lt. rewrite <- Qle_bool_iff. congruence.
      - intros Hlt. destruct (Qle_bool 85 q) eqn:E; [|reflexivity].
        apply Qle_bool_iff in E. lra. }
    rewrite Hscore. tauto.
Qed.

(** ** Comparison engine: a record against itself *)
















Lemma score_without_discrepancies (a b : JsonValidator.SupplementFactsData) :
  (ComparisonEngine.calculateSimilarityScore a b [] == 100)%Q.
Proof.
  unfold ComparisonEngine.calculateSimilarityScore,
    ComparisonEngine.countTotalFields.
  change (Nat.eqb (4 + length (JsonValidator.nutrients a) * 3) 0) with false.
  cbv iota. simpl fold_left.
  set (t := inject_Z (Z.of_nat (4 + length (JsonValidator.nutrients a) * 3))).
  assert (Hraw : (100 - 0 / t * 100 == 100)%Q) by (unfold Qdiv; ring).
  assert (Hscore : (Qmax 0 (Qmin 100 (100 - 0 / t * 100)) == 100)%Q).
  { rewrite clamp_spec. rewrite (clamp_compat _ 100 Hraw). reflexivity. }
  unfold ComparisonEngine.Math_round.
  rewrite Hscore. reflexivity.
Qed.


(** Why the amended statement asks for distinct matching names: entries
    under one matching name are all compared against the last of them. *)
Example duplicate_names_compare_against_the_last_entry :
  List.map matching_name (JsonValidator.nutrients duplicate_names_facts)
  = [js "vitc"; js "vitc"]
  /\ List.map ComparisonEngine.fieldPath
       (ComparisonEngine.discrepancies
          (ComparisonEngine.compareSupplementFacts duplicate_names_facts
                                                   duplicate_names_facts))
     = [js "supplementFacts.nutrients[0].amount"].
Proof. vm_compute. split; reflexivity. Qed.



(** ** Salvage parse *)

Lemma validation_error_invalid (data : value) (e : jsstring) :
  JsonValidator.validateProductExtraction data = JsonValidator.ValidationError e ->
  exists issues,
    JsonValidator.productExtractionSchema [] (Some data)
    = JsonValidator.Invalid issues.
Proof.
  unfold JsonValidator.validateProductExtraction.
  destruct (JsonValidator.productExtractionSchema [] (Some data)) as [d|issues];
    [discriminate|].
  intros _. exists issues. reflexivity.
Qed.

(** C10: whenever the salvage parse is used (strict validation failed on
    a non-null object) the salvaged record has empty [ingredients] and
    [dietaryAttributes], whatever the input carried there, and each of
    [productName], [productDescription] and [directions] is the input's
    text when that is a string and otherwise the placeholder 'Unknown',
    'No description available' or 'No directions provided'. *)
Theorem C10_salvage_discards_lists_and_fills_placeholders :
  forall (data : value) (e : jsstring),
    JsonValidator.validateProductExtraction data
    = JsonValidator.ValidationError e ->
    is_object data = true ->
    exists r,
      JsonValidator.safeParseProductExtraction data = Some r
      /\ JsonValidator.ingredients r = []
      /\ JsonValidator.dietaryAttributes r = []
      /\ (forall s, prop data "productName" = Some (JStr s) ->
                    JsonValidator.productName r = s)
      /\ (as_string (prop data "productName") = None ->
          JsonValidator.productName r = js "Unknown")
      /\ (forall s, prop data "productDescription" = Some (JStr s) ->
                    JsonValidator.productDescription r = s)
      /\ (as_string (prop data "productDescription") = None ->
          JsonValidator.productDescription r = js "No description available")
      /\ (forall s, prop data "directions" = Some (JStr s) ->
                    JsonValidator.directions r = s)
      /\ (as_string (prop data "directions") = None ->
          JsonValidator.directions r = js "No directions provided").
Proof.
  intros data e Hfail Hobj.
  destruct (validation_error_invalid data e Hfail) as [issues Hinv].
  unfold JsonValidator.safeParseProductExtraction. rewrite Hinv, Hobj.
  eexists. split; [reflexivity|]. simpl.
  split; [reflexivity|]. split; [reflexivity|].
  repeat split.
  - intros s ->. reflexivity.
  - destruct (prop data "productName") as [[]|]; try reflexivity; discriminate.
  - intros s ->. reflexivity.
  - destruct (prop data "productDescription") as [[]|];
      try reflexivity; discriminate.
  - intros s ->. reflexivity.
  - destruct (prop data "directions") as [[]|]; try reflexivity; discriminate.
Qed.

(** C10 on a recovered value without description and directions. *)
Lemma C10_witness :
  exists r,
    JsonValidator.safeParseProductExtraction partial_product_json = Some r
    /\ JsonValidator.ingredients r = []
    /\ JsonValidator.dietaryAttributes r = []
    /\ JsonValidator.productName r = js "Zinc Plus"
    /\ JsonValidator.productDescription r = js "No description available"
    /\ JsonValidator.directions r = js "No directions provided".
Proof.
  destruct (C10_salvage_discards_lists_and_fills_placeholders
              partial_product_json
              (match JsonValidator.validateProductExtraction partial_product_json with
               | JsonValidator.ValidationError e => e
               | JsonValidator.ValidationOk _ => []
               end))
    as (r & Hr & Hing & Hdiet & Hname & _ & _ & Hdesc & _ & Hdir);
    [vm_compute; reflexivity|reflexivity|].
  exists r. split; [exact Hr|]. split; [exact Hing|]. split; [exact Hdiet|].
  split; [apply Hname; reflexivity|].
  split; [apply Hdesc; reflexivity|apply Hdir; reflexivity].
Defined.

Lemma z_string_min1_valid p v s :
  JsonValidator.z_string_min1 p v = JsonValidator.Valid s -> v = Some (JStr s).
Proof.
  unfold JsonValidator.z_string_min1, JsonValidator.invalid_type.
  destruct v as [[| | |t| |]|]; try discriminate.
  destruct t; [discriminate|]. intros [= <-]. reflexivity.
Qed.

Lemma z_string_regex_opt_valid re msg p v out :
  JsonValidator.z_string_regex_opt re msg p v = JsonValidator.Valid out ->
  forall s, v = Some (JStr s) -> out = MStr s.
Proof.
  unfold JsonValidator.z_string_regex_opt, JsonValidator.invalid_type.
  intros H s ->. destruct (Regex.test_anchored re s); [|discriminate].
  injection H as <-. reflexivity.
Qed.

Lemma z_string_opt_valid p v out :
  JsonValidator.z_string_opt p v = JsonValidator.Valid out ->
  forall s, v = Some (JStr s) -> out = MStr s.
Proof.
  unfold JsonValidator.z_string_opt. intros H s ->.
  injection H as <-. reflexivity.
Qed.

Lemma nutrientSchema_valid p n out :
  JsonValidator.nutrientSchema p (Some n) = JsonValidator.Valid out ->
  keeps_entry n out /\ JsonValidator.has_string_name n = true.
Proof.
  unfold JsonValidator.nutrientSchema, JsonValidator.invalid_type.
  destruct n as [| | | | |fields]; try discriminate.
  destruct (JsonValidator.z_string_min1 _ _) as [nm|] eqn:Hn;
    [|destruct (JsonValidator.z_string_regex_opt _ _ _ (prop _ "amount"));
      discriminate].
  destruct (JsonValidator.z_string_regex_opt _ _ _ (prop _ "amount"))
    as [a|] eqn:Ha; [|discriminate].
  destruct (JsonValidator.z_string_regex_opt _ _ _
              (prop _ "dailyValuePercentAdult")) as [da|] eqn:Hda;
    [|discriminate].
  destruct (JsonValidator.z_string_regex_opt _ _ _
              (prop _ "dailyValuePercentChildren")) as [dc|] eqn:Hdc;
    [|discriminate].
  destruct (JsonValidator.z_string_opt _ _) as [dl|] eqn:Hdl; [|discriminate].
  intros [= <-]. apply z_string_min1_valid in Hn.
  split.
  - unfold keeps_entry. cbn [JsonValidator.name JsonValidator.amount
      JsonValidator.dailyValuePercentAdult
      JsonValidator.dailyValuePercentChildren JsonValidator.dailyValuePercent].
    split; [exact Hn|].
    split; [apply (z_string_regex_opt_valid _ _ _ _ _ Ha)|].
    split; [apply (z_string_regex_opt_valid _ _ _ _ _ Hda)|].
    split; [apply (z_string_regex_opt_valid _ _ _ _ _ Hdc)|].
    intros s Hs _. right. apply (z_string_opt_valid _ _ _ Hdl s Hs).
  - unfold JsonValidator.has_string_name. rewrite Hn. reflexivity.
Qed.

Lemma z_items_nutrients_valid p :
  forall items i l,
    JsonValidator.z_items JsonValidator.nutrientSchema p i items
    = JsonValidator.Valid l ->
    Forall2 keeps_entry items l
    /\ List.filter JsonValidator.has_string_name items = items.
Proof.
  induction items as [|x items IH]; intros i l; cbn [JsonValidator.z_items].
  - intros [= <-]. split; [constructor|reflexivity].
  - destruct (JsonValidator.nutrientSchema _ (Some x)) as [a|] eqn:Hx;
      [|destruct (JsonValidator.z_items _ _ _ items); discriminate].
    destruct (JsonValidator.z_items _ _ _ items) as [l'|] eqn:Hl;
      [|discriminate].
    intros [= <-]. apply nutrientSchema_valid in Hx as [Hkeep Hname].
    destruct (IH _ _ Hl) as [Hall Hfilter].
    split; [constructor; assumption|].
    cbn [List.filter]. rewrite Hname, Hfilter. reflexivity.
Qed.

Lemma supplementFactsSchema_valid sf ns out :
  prop (JObj sf) "nutrients" = Some (JArr ns) ->
  JsonValidator.supplementFactsSchema [] (Some (JObj sf))
  = JsonValidator.Valid out ->
  Forall2 keeps_entry (List.filter JsonValidator.has_string_name ns)
          (JsonValidator.nutrients out).
Proof.
  intros Hns. unfold JsonValidator.supplementFactsSchema. rewrite Hns.
  unfold JsonValidator.z_array_default_empty.
  destruct (JsonValidator.z_string_min1 _ (prop _ "servings")) as [s|];
    [|destruct (JsonValidator.z_string_min1 _ _); discriminate].
  destruct (JsonValidator.z_string_min1 _ _) as [c|]; [|discriminate].
  destruct (JsonValidator.z_string_opt _ (prop _ "calories")) as [cal|];
    [|discriminate].
  destruct (JsonValidator.z_string_opt _ _) as [pr|]; [|discriminate].
  destruct (JsonValidator.z_items _ _ _ ns) as [l|] eqn:Hl; [|discriminate].
  intros [= <-]. simpl.
  destruct (z_items_nutrients_valid _ _ _ _ Hl) as [Hall Hfilter].
  rewrite Hfilter. exact Hall.
Qed.

Lemma salvage_nutrient_keeps (n : value) :
  JsonValidator.has_string_name n = true ->
  keeps_entry n (JsonValidator.salvage_nutrient n).
Proof.
  unfold JsonValidator.has_string_name, JsonValidator.salvage_nutrient, keeps_entry.
  intros H. apply andb_true_iff in H as [_ Hname].
  cbn [JsonValidator.name JsonValidator.amount
       JsonValidator.dailyValuePercentAdult
       JsonValidator.dailyValuePercentChildren JsonValidator.dailyValuePercent].
  split.
  - destruct (prop n "name") as [[]|]; try discriminate. reflexivity.
  - split; [intros s ->; reflexivity|].
    split; [intros s ->; reflexivity|].
    split; [intros s ->; reflexivity|].
    intros s Hs Hnot. left. rewrite Hs.
    destruct (prop n "dailyValuePercentAdult") as [[]|];
      try reflexivity; discriminate.
Qed.

Lemma salvage_nutrients_keep (ns : list value) :
  Forall2 keeps_entry (List.filter JsonValidator.has_string_name ns)
          (List.map JsonValidator.salvage_nutrient
                    (List.filter JsonValidator.has_string_name ns)).
Proof.
  induction ns as [|n ns IH]; simpl; [constructor|].
  destruct (JsonValidator.has_string_name n) eqn:Hn; [|exact IH].
  simpl. constructor; [apply salvage_nutrient_keeps; exact Hn|exact IH].
Qed.

(** C4: when strict validation fails on an object whose [supplementFacts]
    is an object with a [nutrients] array, the salvage parse returns a
    record with a supplement-facts block that has, for each entry with a
    string name and in order, a nutrient with that name and with the
    entry's amount and daily-value texts (the legacy [dailyValuePercent]
    text standing in as the adult value when the entry has none).  When the
    block passes its own schema it is kept as validated; otherwise
    [servings] and [servingsPerContainer] that are not strings become '1',
    and [calories] and [protein] that are not strings become null.  The
    attempt is reported as a success with the normalized record and the
    warnings parsed from the validation error. *)
Theorem C4_salvage_preserves_supplement_facts :
  forall (data : value) fields sf ns e,
    JsonValidator.validateProductExtraction data
    = JsonValidator.ValidationError e ->
    data = JObj fields ->
    prop data "supplementFacts" = Some (JObj sf) ->
    prop (JObj sf) "nutrients" = Some (JArr ns) ->
    exists r facts,
      JsonValidator.safeParseProductExtraction data = Some r
      /\ JsonValidator.supplementFacts r = Some facts
      /\ Forall2 keeps_entry (List.filter JsonValidator.has_string_name ns)
                 (JsonValidator.nutrients facts)
      /\ (forall v,
            JsonValidator.supplementFactsSchema [] (Some (JObj sf))
            = JsonValidator.Valid v -> facts = v)
      /\ (forall issues,
            JsonValidator.supplementFactsSchema [] (Some (JObj sf))
            = JsonValidator.Invalid issues ->
            JsonValidator.servings facts
            = match prop (JObj sf) "servings" with
              | Some (JStr s) => s | _ => js "1" end
            /\ JsonValidator.servingsPerContainer facts
               = match prop (JObj sf) "servingsPerContainer" with
                 | Some (JStr s) => s | _ => js "1" end
            /\ JsonValidator.calories facts
               = match prop (JObj sf) "calories" with
                 | Some (JStr s) => MStr s | _ => MNull end
            /\ JsonValidator.protein facts
               = match prop (JObj sf) "protein" with
                 | Some (JStr s) => MStr s | _ => MNull end
            /\ JsonValidator.nutrients facts
               = List.map JsonValidator.salvage_nutrient
                          (List.filter JsonValidator.has_string_name ns))
      /\ (forall response elapsed retries,
            let outcome :=
              AIExtractor.validateRecovered data response elapsed retries in
            AIExtractor.success outcome = true
            /\ AIExtractor.data outcome
               = Some (DataNormalizer.normalizeProductData r false)
            /\ AIExtractor.validationWarnings outcome
               = Some (AIExtractor.parseValidationWarnings e)).
Proof.
  intros data fields sf ns e Hfail Hdata Hfacts Hns.
  destruct (validation_error_invalid data e Hfail) as [issues Hinv].
  assert (Hsafe : exists r,
             JsonValidator.safeParseProductExtraction data = Some r
             /\ JsonValidator.supplementFacts r
                = JsonValidator.salvage_supplementFacts data).
  { unfold JsonValidator.safeParseProductExtraction. rewrite Hinv.
    subst data. simpl is_object. cbv iota.
    eexists. split; reflexivity. }
  destruct Hsafe as (r & Hr & Hsf).
  unfold JsonValidator.salvage_supplementFacts in Hsf.
  rewrite Hfacts in Hsf. simpl is_object in Hsf. cbv iota in Hsf.
  rewrite Hns in Hsf.
  assert (Hout : forall response elapsed retries,
            let outcome :=
              AIExtractor.validateRecovered data response elapsed retries in
            AIExtractor.success outcome = true
            /\ AIExtractor.data outcome
               = Some (DataNormalizer.normalizeProductData r false)
            /\ AIExtractor.validationWarnings outcome
               = Some (AIExtractor.parseValidationWarnings e)).
  { intros response elapsed retries. unfold AIExtractor.validateRecovered.
    rewrite Hfail, Hr. simpl. repeat split; reflexivity. }
  destruct (JsonValidator.supplementFactsSchema [] (Some (JObj sf)))
    as [v|issues'] eqn:Hschema.
  - exists r, v. split; [exact Hr|]. split; [exact Hsf|].
    split; [apply (supplementFactsSchema_valid sf ns v Hns Hschema)|].
    split; [intros v' [= ->]; reflexivity|].
    split; [intros ? [=]|exact Hout].
  - eexists r, _. split; [exact Hr|]. split; [exact Hsf|].
    cbn [JsonValidator.nutrients JsonValidator.servings
         JsonValidator.servingsPerContainer JsonValidator.calories
         JsonValidator.protein].
    split; [apply salvage_nutrients_keep|].
    split; [intros v' [=]|].
    split; [|exact Hout].
    intros ? _. unfold JsonValidator.string_or, JsonValidator.string_or_null.
    repeat split; reflexivity.
Qed.

(** C4 on a recovered value whose supplement facts fail their schema. *)
Lemma C4_witness :
  exists r facts,
    JsonValidator.safeParseProductExtraction partial_product_json = Some r
    /\ JsonValidator.supplementFacts r = Some facts
    /\ JsonValidator.servings facts = js "1"
    /\ JsonValidator.servingsPerContainer facts = js "1"
    /\ JsonValidator.calories facts = MNull
    /\ JsonValidator.nutrients facts
       = [ {| JsonValidator.name := js "Zinc";
              JsonValidator.amount := MStr (js "15 mg");
              JsonValidator.dailyValuePercentAdult := MStr (js "136");
              JsonValidator.dailyValuePercentChildren := MNull;
              JsonValidator.dailyValuePercent := MUndefined |} ].
Proof.
  destruct (C4_salvage_preserves_supplement_facts
              partial_product_json
              (match partial_product_json with JObj f => f | _ => [] end)
              (match prop partial_product_json "supplementFacts" with
               | Some (JObj f) => f | _ => [] end)
              (match prop partial_product_json "supplementFacts" with
               | Some sf =>
                   match prop sf "nutrients" with
                   | Some (JArr l) => l | _ => []
                   end
               | None => []
               end)
              (match JsonValidator.validateProductExtraction partial_product_json with
               | JsonValidator.ValidationError e => e
               | JsonValidator.ValidationOk _ => []
               end))
    as (r & facts & Hr & Hfacts & _ & _ & Hsalvage & _);
    [vm_compute; reflexivity|reflexivity|reflexivity|reflexivity|].
  exists r, facts. split; [exact Hr|]. split; [exact Hfacts|].
  destruct (Hsalvage
              (match JsonValidator.supplementFactsSchema []
                       (prop partial_product_json "supplementFacts") with
               | JsonValidator.Invalid l => l
               | JsonValidator.Valid _ => []
               end))
    as (Hs & Hc & Hcal & _ & Hnut); [vm_compute; reflexivity|].
  split; [exact Hs|]. split; [exact Hc|]. split; [exact Hcal|exact Hnut].
Defined.

(** ** Recovery cascade *)









(** The recovery behaviours the specification lists as testable. *)
Example prose_wrapped_object_recovered_by_balanced_braces :
  AIExtractor.extractJSONWithValidator no_lenient_parser any_object
    (json_text "Sure, here you go: {'a':1} and that is all.")
  = JsonExtractor.with_strategy
      (JsonExtractor.succeeded (JObj [(js "a", JNum 1)])) "balancedBraces".
Proof. vm_compute. reflexivity. Qed.

Example newline_inside_string_recovered_by_repair :
  AIExtractor.extractJSONWithValidator no_lenient_parser any_object
    (json_text "{'a':'line1" ++ [10%N] ++ json_text "line2'}")
  = JsonExtractor.with_strategy
      (JsonExtractor.succeeded
         (JObj [(js "a", JStr (js "line1" ++ [10%N] ++ js "line2"))])) "repair".
Proof. vm_compute. reflexivity. Qed.

Example trailing_comma_left_to_the_lenient_parser :
  JsonParse.JSON_parse (json_text "{'a':1,}") = None
  /\ forall lenient,
       lenient (json_text "{'a':1,}") = Some (JObj [(js "a", JNum 1)]) ->
       AIExtractor.extractJSONWithValidator lenient any_object
         (json_text "{'a':1,}")
       = JsonExtractor.with_strategy
           (JsonExtractor.succeeded (JObj [(js "a", JNum 1)])) "json5".
Proof.
  split; [vm_compute; reflexivity|].
  intros lenient Hlenient.
  set (t := json_text "{'a':1,}") in *.
  assert (Hlenient_result :
    JsonExtractor.tryJSON5Parse lenient t
    = JsonExtractor.succeeded (JObj [(js "a", JNum 1)])).
  { unfold JsonExtractor.tryJSON5Parse.
    replace (indexOf t (js "{")) with (Some 0%nat) by (vm_compute; reflexivity).
    replace (JsonExtractor.findBalancedJSON t 0) with (Some 8%nat)
      by (vm_compute; reflexivity).
    replace (substring t 0 8) with t by (vm_compute; reflexivity).
    rewrite Hlenient. reflexivity. }
  unfold AIExtractor.extractJSONWithValidator, AIExtractor.strategies.
  replace (AIExtractor.tryDirectParseWithValidator any_object t)
    with AIExtractor.reject by (vm_compute; reflexivity).
  replace (AIExtractor.tryBalancedBracesWithValidator any_object t)
    with AIExtractor.reject by (vm_compute; reflexivity).
  replace (AIExtractor.tryCodeBlockWithValidator any_object t)
    with AIExtractor.reject by (vm_compute; reflexivity).
  replace (AIExtractor.tryCleanupWithValidator any_object t)
    with AIExtractor.reject by (vm_compute; reflexivity).
  replace (AIExtractor.tryRepairWithValidator any_object t)
    with AIExtractor.reject by (vm_compute; reflexivity).
  unfold AIExtractor.tryJSON5WithValidator. rewrite Hlenient_result.
  reflexivity.
Qed.

Example text_without_object_fails_every_strategy :
  AIExtractor.extractJSONWithValidator no_lenient_parser any_object
    (js "I could not read the document.")
  = JsonExtractor.failed (js "All extraction strategies failed").
Proof. vm_compute. reflexivity. Qed.

(** A string of 5000 letters is cut to 1997 letters and the marker. *)
Example long_string_truncated_by_repair :
  exists v,
    JsonExtractor.data (JsonExtractor.repairCommonJSONErrors long_string_object)
    = Some (JObj [(js "a", JStr v)])
    /\ length v = 2000%nat
    /\ skipn 1997 v = js "...".
Proof. eexists. vm_compute. repeat split; reflexivity. Qed.

(** Daily values within one percentage point match; beyond it they do not;
    a missing value matches a missing value only. *)
Example percentage_tolerance :
  ComparisonEngine.percentagesMatch (Some (js "100%")) (Some (js "101%")) = true
  /\ ComparisonEngine.percentagesMatch (Some (js "100%")) (Some (js "103%")) = false
  /\ ComparisonEngine.percentagesMatch None None = true
  /\ ComparisonEngine.percentagesMatch None (Some (js "5")) = false.
Proof. vm_compute. repeat split; reflexivity. Qed.

(* ===================================================================== *)
(** ** Retry controller: what a run does *)
(* ===================================================================== *)

Lemma withRetry_from_first_success {T : Type} config random
    (fn : nat -> ErrorHandler.Outcome T) :
  forall remaining currentAttempt,
    (currentAttempt + remaining = ErrorHandler.maxRetries config)%nat ->
    exists trace result,
      ErrorHandler.withRetry_from config random fn (S remaining) currentAttempt
      = Some (trace, result)
      /\ List.filter ErrorHandler.is_invoke trace
         = List.map ErrorHandler.Invoke (seq currentAttempt (S (sleeps trace)))
      /\ (sleeps trace <= remaining)%nat
      /\ result = fn (currentAttempt + sleeps trace)%nat
      /\ (forall i, (currentAttempt <= i < currentAttempt + sleeps trace)%nat ->
                    exists e, fn i = ErrorHandler.Thrown e)
      /\ (forall e, result = ErrorHandler.Thrown e -> sleeps trace = remaining).
Proof.
  induction remaining as [|remaining IH]; intros currentAttempt Hsum.
  - cbn [ErrorHandler.withRetry_from].
    destruct (fn currentAttempt) as [v|error] eqn:Hfn.
    + exists [ErrorHandler.Invoke currentAttempt], (ErrorHandler.Resolved v).
      unfold sleeps; cbn. rewrite Nat.add_0_r.
      repeat split; try reflexivity; try lia; auto;
        try (intros; lia); try (intros; discriminate).
    + replace (ErrorHandler.maxRetries config <=? currentAttempt)%nat with true
        by (symmetry; apply Nat.leb_le; lia).
      exists [ErrorHandler.Invoke currentAttempt; ErrorHandler.LogError],
             (ErrorHandler.Thrown error).
      unfold sleeps; cbn. rewrite Nat.add_0_r.
      repeat split; try reflexivity; try lia; auto;
        try (intros; lia); try (intros; discriminate).
  - change (ErrorHandler.withRetry_from config random fn (S (S remaining)) currentAttempt)
      with (match fn currentAttempt with
            | ErrorHandler.Resolved v =>
                Some ([ErrorHandler.Invoke currentAttempt], ErrorHandler.Resolved v)
            | ErrorHandler.Thrown error =>
                if (ErrorHandler.maxRetries config <=? currentAttempt)%nat then
                  Some ([ErrorHandler.Invoke currentAttempt; ErrorHandler.LogError],
                        ErrorHandler.Thrown error)
                else
                  match ErrorHandler.withRetry_from config random fn (S remaining)
                          (S currentAttempt) with
                  | Some (tr, r) =>
                      Some (ErrorHandler.Invoke currentAttempt
                              :: ErrorHandler.LogWarn currentAttempt
                              :: ErrorHandler.Sleep
                                   (ErrorHandler.calculateDelay config random currentAttempt)
                              :: tr, r)
                  | None => None
                  end
            end).
    destruct (fn currentAttempt) as [v|error] eqn:Hfn.
    + exists [ErrorHandler.Invoke currentAttempt], (ErrorHandler.Resolved v).
      unfold sleeps; cbn. rewrite Nat.add_0_r.
      repeat split; try reflexivity; try lia; auto;
        try (intros; lia); try (intros; discriminate).
    + replace (ErrorHandler.maxRetries config <=? currentAttempt)%nat with false
        by (symmetry; apply Nat.leb_gt; lia).
      destruct (IH (S currentAttempt)) as (tr & r & Hrun & Hinv & Hle & Hres & Hfail & Hthrown);
        [lia|].
      rewrite Hrun.
      eexists _, r. split; [reflexivity|].
      assert (Hs : sleeps (ErrorHandler.Invoke currentAttempt
                             :: ErrorHandler.LogWarn currentAttempt
                             :: ErrorHandler.Sleep
                                  (ErrorHandler.calculateDelay config random currentAttempt)
                             :: tr) = S (sleeps tr)) by reflexivity.
      rewrite Hs.
      repeat split.
      * cbn [List.filter ErrorHandler.is_invoke]. rewrite Hinv. reflexivity.
      * lia.
      * rewrite Hres. f_equal. lia.
      * intros i Hi. destruct (Nat.eq_dec i currentAttempt) as [->|Hne].
        -- eauto.
        -- apply Hfail. lia.
      * intros e He. rewrite (Hthrown e He). reflexivity.
Qed.

(** X1 (ErrorHandler.withRetry): for every operation the run ends; it
    invokes attempts 0, 1, 2, ... in order, sleeps once between two
    invocations, never retries more than [maxRetries] times, returns the
    outcome of its last invocation, every earlier invocation threw, and an
    error is returned only after [maxRetries] retries. *)
Theorem withRetry_stops_at_the_first_success {T : Type} config random
    (fn : nat -> ErrorHandler.Outcome T) :
  exists trace result,
    ErrorHandler.withRetry config random fn = Some (trace, result)
    /\ List.filter ErrorHandler.is_invoke trace
       = List.map ErrorHandler.Invoke (seq 0 (S (sleeps trace)))
    /\ (sleeps trace <= ErrorHandler.maxRetries config)%nat
    /\ result = fn (sleeps trace)
    /\ (forall i, (i < sleeps trace)%nat -> exists e, fn i = ErrorHandler.Thrown e)
    /\ (forall e, result = ErrorHandler.Thrown e ->
                  sleeps trace = ErrorHandler.maxRetries config).
Proof.
  destruct (withRetry_from_first_success config random fn
              (ErrorHandler.maxRetries config) 0%nat eq_refl)
    as (trace & result & Hrun & Hinv & Hle & Hres & Hfail & Hthrown).
  exists trace, result. repeat split; auto.
  intros i Hi. apply Hfail. lia.
Qed.

Lemma withRetry_from_sleeps {T : Type} config random
    (fn : nat -> ErrorHandler.Outcome T) :
  forall fuel currentAttempt trace result,
    ErrorHandler.withRetry_from config random fn fuel currentAttempt
    = Some (trace, result) ->
    forall ms, In (ErrorHandler.Sleep ms) trace ->
      exists attempt, ms = ErrorHandler.calculateDelay config random attempt.
Proof.
  induction fuel as [|fuel IH]; intros currentAttempt trace result Hrun ms Hin.
  - discriminate.
  - cbn [ErrorHandler.withRetry_from] in Hrun.
    destruct (fn currentAttempt) as [v|error].
    + injection Hrun as <- <-. destruct Hin as [Hin|[]]; discriminate.
    + destruct (ErrorHandler.maxRetries config <=? currentAttempt)%nat.
      * injection Hrun as <- <-. destruct Hin as [Hin|[Hin|[]]]; discriminate.
      * destruct (ErrorHandler.withRetry_from config random fn fuel (S currentAttempt))
          as [[tr r]|] eqn:Hrest; [|discriminate].
        injection Hrun as <- <-.
        destruct Hin as [Hin|[Hin|[Hin|Hin]]]; try discriminate.
        -- injection Hin as <-. eauto.
        -- eapply IH; eauto.
Qed.

(** X2 (ErrorHandler.calculateDelay, withRetry): with random draws in [0, 1),
    a base delay between 0 and the maximal delay and a multiplier of at
    least 1, every sleep of a run lasts at least the base delay and less
    than the maximal delay plus 1000 ms. *)
Theorem withRetry_sleeps_within_backoff_bounds {T : Type} config random
    (fn : nat -> ErrorHandler.Outcome T) trace result :
  (forall n, 0 <= random n < 1)%Q ->
  (0 <= ErrorHandler.baseDelay config <= ErrorHandler.maxDelay config)%Q ->
  (1 <= ErrorHandler.backoffMultiplier config)%Q ->
  ErrorHandler.withRetry config random fn = Some (trace, result) ->
  forall ms, In (ErrorHandler.Sleep ms) trace ->
    (ErrorHandler.baseDelay config <= ms < ErrorHandler.maxDelay config + 1000)%Q.
Proof.
  intros Hrandom [Hbase Hmax] Hmult Hrun ms Hin.
  destruct (withRetry_from_sleeps config random fn _ _ _ _ Hrun ms Hin)
    as [attempt ->].
  unfold ErrorHandler.calculateDelay.
  specialize (Hrandom attempt).
  set (backoff := Qmin _ _).
  assert (Hup : (backoff <= ErrorHandler.maxDelay config)%Q)
    by apply Q.le_min_r.
  assert (Hlow : (ErrorHandler.baseDelay config <= backoff)%Q).
  { apply Q.min_glb; [|exact Hmax].
    assert (Hpow : (1 <= ErrorHandler.backoffMultiplier config ^ Z.of_nat attempt)%Q)
      by (apply Qpower_1_le; [exact Hmult|lia]).
    set (p := (ErrorHandler.backoffMultiplier config ^ Z.of_nat attempt)%Q) in *.
    clearbody p. nra. }
  clearbody backoff. lra.
Qed.

Lemma withRetry_sleeps_witness :
  exists trace,
    ErrorHandler.withRetry (ErrorHandler.DEFAULT_RETRY_CONFIG 3) half_jitter
      (always_failing validation_failure)
    = Some (trace, ErrorHandler.Thrown validation_failure)
    /\ forall ms, In (ErrorHandler.Sleep ms) trace -> (1000 <= ms < 11000)%Q.
Proof.
  eexists. split; [vm_compute; reflexivity|].
  apply (withRetry_sleeps_within_backoff_bounds
           (ErrorHandler.DEFAULT_RETRY_CONFIG 3) half_jitter
           (always_failing validation_failure) _
           (ErrorHandler.Thrown validation_failure)).
  - intros n. split; [discriminate|reflexivity].
  - split; discriminate.
  - discriminate.
  - vm_compute. reflexivity.
Defined.

(* ===================================================================== *)
(** ** Rate limiter: bounded memory *)
(* ===================================================================== *)

Lemma acquire_pass_length ceiling now rl :
  1 <= ceiling ->
  RateLimiter.maxRequestsPerMinute rl = ceiling ->
  Z.of_nat (length (RateLimiter.requestTimes rl)) <= ceiling ->
  let rl' := fst (RateLimiter.acquire_pass now rl) in
  RateLimiter.maxRequestsPerMinute rl' = ceiling
  /\ Z.of_nat (length (RateLimiter.requestTimes rl')) <= ceiling.
Proof.
  intros Hc Hmax Hlen. unfold RateLimiter.acquire_pass.
  set (kept := List.filter _ _).
  assert (Hkept : (length kept <= length (RateLimiter.requestTimes rl))%nat)
    by apply filter_length_bound.
  assert (Hold : forall t, In t kept -> now - 60000 < t).
  { intros t Ht. apply filter_In in Ht. destruct Ht as [_ Ht].
    apply Z.ltb_lt in Ht. exact Ht. }
  rewrite Hmax.
  destruct (ceiling <=? Z.of_nat (length kept)) eqn:Hfull.
  - destruct kept as [|oldest rest] eqn:Hk.
    + apply Z.leb_le in Hfull. simpl in Hfull. lia.
    + assert (Hwait : 0 < 60000 - (now - oldest) + 100).
      { specialize (Hold oldest (or_introl eq_refl)). lia. }
      apply Z.ltb_lt in Hwait. rewrite Hwait. cbn [fst RateLimiter.requestTimes
        RateLimiter.maxRequestsPerMinute]. split; [reflexivity|]. lia.
  - apply Z.leb_gt in Hfull.
    cbn [fst RateLimiter.requestTimes RateLimiter.maxRequestsPerMinute].
    split; [reflexivity|]. rewrite length_app. simpl. lia.
Qed.

Lemma run_length ceiling :
  1 <= ceiling ->
  forall passes rl history,
    RateLimiter.maxRequestsPerMinute rl = ceiling ->
    Z.of_nat (length (RateLimiter.requestTimes rl)) <= ceiling ->
    let rl' := fst (RateLimiter.run passes rl history) in
    RateLimiter.maxRequestsPerMinute rl' = ceiling
    /\ Z.of_nat (length (RateLimiter.requestTimes rl')) <= ceiling.
Proof.
  intros Hc. induction passes as [|now rest IH]; intros rl history Hmax Hlen.
  - simpl. auto.
  - cbn [RateLimiter.run].
    pose proof (acquire_pass_length ceiling now rl Hc Hmax Hlen) as Hpass.
    destruct (RateLimiter.acquire_pass now rl) as [rl1 d]. simpl in Hpass.
    destruct Hpass as [Hmax1 Hlen1].
    specialize (IH rl1 (match d with
                        | RateLimiter.Granted => history ++ [now]
                        | RateLimiter.Suspended _ => history
                        end) Hmax1 Hlen1).
    destruct (RateLimiter.run rest rl1 _) as [rl2 log]. exact IH.
Qed.

(** X3 (RateLimiter.acquire): with a ceiling of at least 1 the limiter never
    retains more than [ceiling] request times and never changes its
    ceiling, whatever the interleaving of callers and whatever the clock
    reads at each pass. *)
Theorem requestTimes_never_hold_more_than_the_ceiling ceiling passes :
  1 <= ceiling ->
  let rl := fst (RateLimiter.run passes (RateLimiter.create ceiling) []) in
  RateLimiter.maxRequestsPerMinute rl = ceiling
  /\ Z.of_nat (length (RateLimiter.requestTimes rl)) <= ceiling.
Proof.
  intros Hc. apply run_length; [exact Hc|reflexivity|simpl; lia].
Qed.

Lemma requestTimes_witness :
  RateLimiter.maxRequestsPerMinute
    (fst (RateLimiter.run sample_passes (RateLimiter.create 2) [])) = 2
  /\ Z.of_nat (length (RateLimiter.requestTimes
                         (fst (RateLimiter.run sample_passes
                                 (RateLimiter.create 2) [])))) <= 2.
Proof.
  apply (requestTimes_never_hold_more_than_the_ceiling 2 sample_passes). lia.
Defined.

(* ===================================================================== *)
(** ** Batch orchestrator: which items are attempted *)
(* ===================================================================== *)

Lemma count_results process (pdfs : list BatchProcessor.PDFFileMetadata) :
  forall counts,
    fold_left BatchProcessor.count_result (List.map process pdfs) counts
    = (fst counts + successes process pdfs,
       snd counts + (length pdfs - successes process pdfs))%nat.
Proof.
  unfold successes.
  induction pdfs as [|pdf rest IH]; intros [s f].
  - simpl. f_equal; lia.
  - cbn [List.map fold_left List.filter]. rewrite IH.
    pose proof (filter_length_bound (fun pdf => fulfilled_true (process pdf)) rest)
      as Hle.
    destruct (process pdf) as [[|]|]; cbn [fulfilled_true BatchProcessor.count_result
      fst snd length]; f_equal; lia.
Qed.

Lemma firstn_plus {A} (a b : nat) (l : list A) :
  firstn (a + b) l = firstn a l ++ firstn b (skipn a l).
Proof.
  revert l. induction a as [|a IH]; intros [|x l]; simpl; try reflexivity.
  - rewrite firstn_nil. reflexivity.
  - rewrite IH. reflexivity.
Qed.

Lemma slice_app {A} (l : list A) (i j k : nat) :
  (i <= j <= k)%nat ->
  BatchProcessor.slice l i j ++ BatchProcessor.slice l j k
  = BatchProcessor.slice l i k.
Proof.
  intros H. unfold BatchProcessor.slice.
  replace (k - i)%nat with ((j - i) + (k - j))%nat by lia.
  rewrite firstn_plus. f_equal.
  rewrite skipn_skipn. replace (j - i + i)%nat with j by lia. reflexivity.
Qed.

Lemma slice_beyond {A} (l : list A) (i j : nat) :
  (length l <= j)%nat ->
  BatchProcessor.slice l i j = BatchProcessor.slice l i (length l).
Proof.
  intros H. unfold BatchProcessor.slice.
  rewrite !firstn_all2; [reflexivity| |]; rewrite length_skipn; lia.
Qed.

Lemma slice_empty {A} (l : list A) (i j : nat) :
  (length l <= i)%nat -> BatchProcessor.slice l i j = [].
Proof.
  intros H. unfold BatchProcessor.slice. rewrite skipn_all2 by lia.
  apply firstn_nil.
Qed.

Lemma windows_prefix process shutdown concurrency pdfs :
  (0 < concurrency)%nat ->
  forall fuel i counts,
    (length pdfs - i <= fuel)%nat ->
    exists n,
      (n <= length pdfs)%nat
      /\ BatchProcessor.windows process shutdown fuel concurrency i pdfs counts
         = fold_left BatchProcessor.count_result
             (List.map process (BatchProcessor.slice pdfs i n)) counts
      /\ (n = length pdfs
          \/ ((i <= n)%nat /\ (exists k, n = i + k * concurrency)%nat
              /\ shutdown n = true)).
Proof.
  intros Hc. induction fuel as [|fuel IH]; intros i counts Hfuel.
  - exists (length pdfs). split; [lia|]. split; [|left; reflexivity].
    rewrite slice_empty by lia. reflexivity.
  - cbn [BatchProcessor.windows].
    destruct (i <? length pdfs)%nat eqn:Hi.
    + apply Nat.ltb_lt in Hi.
      destruct (shutdown i) eqn:Hs.
      * exists i. split; [lia|]. split.
        -- unfold BatchProcessor.slice. rewrite Nat.sub_diag. reflexivity.
        -- right. split; [lia|]. split; [exists 0%nat; lia|exact Hs].
      * destruct (IH (i + concurrency)%nat
                    (fold_left BatchProcessor.count_result
                       (List.map process
                          (BatchProcessor.slice pdfs i (i + concurrency))) counts))
          as (n & Hn & Hrun & Hcase); [lia|].
        exists n. split; [exact Hn|]. split.
        -- rewrite Hrun, <- fold_left_app, <- map_app. do 2 f_equal.
           destruct Hcase as [->|(Hle & _ & _)].
           ++ destruct (Nat.le_gt_cases (i + concurrency) (length pdfs)) as [H|H].
              ** apply slice_app. lia.
              ** rewrite (slice_empty pdfs (i + concurrency)) by lia.
                 rewrite app_nil_r. apply slice_beyond. lia.
           ++ apply slice_app. lia.
        -- destruct Hcase as [->|(Hle & [k ->] & Hsn)]; [left; reflexivity|].
           right. split; [lia|]. split; [exists (S k); lia|exact Hsn].
    + apply Nat.ltb_ge in Hi. exists (length pdfs).
      split; [lia|]. split; [|left; reflexivity].
      rewrite slice_empty by lia. reflexivity.
Qed.

Lemma window_size_positive CP options : (0 < window_size CP options)%nat.
Proof.
  unfold window_size. destruct (BatchProcessor.concurrency options) as [[|c]|]; lia.
Qed.

(** X4 (BatchProcessor.processAll): when the scan found valid files, the
    items attempted are a prefix of the selected items; successes are the
    items of that prefix whose promise fulfils with [true], every other one
    (fulfilled with [false] or rejected) is a failure; the prefix is the
    whole selection, or it ends at a window boundary at which the shutdown
    flag was read as set. *)
Theorem processAll_attempts_a_prefix_of_whole_windows :
  forall CONCURRENT_PROCESSES isProductProcessed processSinglePDF
         isShuttingDownNow startTime endTime options scanResult,
    BatchProcessor.validFiles scanResult <> 0%nat ->
    let pdfsToProcess := selected isProductProcessed options scanResult in
    let r :=
      BatchProcessor.processAll CONCURRENT_PROCESSES isProductProcessed
        processSinglePDF isShuttingDownNow startTime endTime options scanResult in
    exists n,
      (n <= length pdfsToProcess)%nat
      /\ BatchProcessor.totalProcessed r = n
      /\ BatchProcessor.successCount r
         = successes processSinglePDF (firstn n pdfsToProcess)
      /\ BatchProcessor.failureCount r
         = (n - successes processSinglePDF (firstn n pdfsToProcess))%nat
      /\ (n = length pdfsToProcess
          \/ ((exists k, n = k * window_size CONCURRENT_PROCESSES options)%nat
              /\ isShuttingDownNow n = true)).
Proof.
  intros CP isProcessed process shutdown startTime endTime options scanResult Hvalid.
  cbv zeta. unfold BatchProcessor.processAll.
  apply Nat.eqb_neq in Hvalid. rewrite Hvalid.
  fold (window_size CP options). fold (selected isProcessed options scanResult).
  set (pdfs := selected isProcessed options scanResult).
  destruct (Nat.eqb (length pdfs) 0) eqn:Hempty.
  - apply Nat.eqb_eq in Hempty. exists 0%nat. cbn.
    repeat split; lia.
  - destruct (windows_prefix process shutdown (window_size CP options) pdfs
                (window_size_positive CP options) (length pdfs) 0%nat (0, 0)%nat)
      as (n & Hn & Hrun & Hcase); [lia|].
    rewrite Hrun, count_results. cbn [fst snd Nat.add].
    unfold BatchProcessor.slice. rewrite Nat.sub_0_r.
    change (skipn 0 pdfs) with pdfs.
    assert (Hlen : length (firstn n pdfs) = n) by (rewrite length_firstn; lia).
    rewrite Hlen.
    assert (Hs : (successes process (firstn n pdfs) <= n)%nat).
    { rewrite <- Hlen at 2. apply filter_length_bound. }
    exists n. cbn [BatchProcessor.totalProcessed BatchProcessor.successCount
                    BatchProcessor.failureCount].
    repeat split; try lia.
    destruct Hcase as [->|(_ & [k Hk] & Hsn)]; [left; reflexivity|].
    right. split; [exists k; lia|exact Hsn].
Qed.

Lemma limited_length (limit : option nat) pdfs :
  (length (BatchProcessor.limited limit pdfs) <= length pdfs)%nat
  /\ forall l, limit = Some (S l) ->
               (length (BatchProcessor.limited limit pdfs) <= S l)%nat.
Proof.
  unfold BatchProcessor.limited.
  destruct limit as [[|l]|].
  - split; [lia|]. intros l H; discriminate.
  - destruct (S l <? length pdfs)%nat eqn:Hlt.
    + apply Nat.ltb_lt in Hlt. unfold BatchProcessor.slice.
      rewrite length_firstn, length_skipn. split; [lia|].
      intros l' [= <-]. lia.
    + apply Nat.ltb_ge in Hlt. split; [lia|]. intros l' [= <-]. lia.
  - split; [lia|]. intros l H; discriminate.
Qed.

Lemma unprocessed_length isProcessed skip scanResult :
  (length (BatchProcessor.unprocessed isProcessed skip scanResult)
   <= length (BatchProcessor.metadata scanResult))%nat.
Proof.
  unfold BatchProcessor.unprocessed. destruct skip; [|lia].
  apply filter_length_bound.
Qed.

(** X5 (BatchProcessor.processAll): a run never reports more attempted items
    than the limit allows, attempted and skipped items together never
    exceed the scanned ones, and the total is the sum of successes and
    failures. *)
Theorem processAll_never_exceeds_the_limit_or_the_scan :
  forall CONCURRENT_PROCESSES isProductProcessed processSinglePDF
         isShuttingDownNow startTime endTime options scanResult,
    let r :=
      BatchProcessor.processAll CONCURRENT_PROCESSES isProductProcessed
        processSinglePDF isShuttingDownNow startTime endTime options scanResult in
    BatchProcessor.totalProcessed r
    = (BatchProcessor.successCount r + BatchProcessor.failureCount r)%nat
    /\ (BatchProcessor.totalProcessed r + BatchProcessor.skippedCount r
        <= length (BatchProcessor.metadata scanResult))%nat
    /\ (forall l, BatchProcessor.limit options = Some (S l) ->
                  (BatchProcessor.totalProcessed r <= S l)%nat).
Proof.
  intros CP isProcessed process shutdown startTime endTime options scanResult.
  cbv zeta. unfold BatchProcessor.processAll.
  destruct (Nat.eqb (BatchProcessor.validFiles scanResult) 0).
  { cbn. repeat split; lia. }
  set (skip := match BatchProcessor.skipExisting options with
               | Some b => b | None => true end).
  set (candidates := BatchProcessor.unprocessed isProcessed skip scanResult).
  set (pdfs := BatchProcessor.limited (BatchProcessor.limit options) candidates).
  pose proof (unprocessed_length isProcessed skip scanResult) as Hu.
  fold candidates in Hu.
  destruct (limited_length (BatchProcessor.limit options) candidates)
    as [Hl Hlimit]. fold pdfs in Hl, Hlimit.
  destruct (Nat.eqb (length pdfs) 0).
  { cbn. repeat split; lia. }
  fold (window_size CP options).
  destruct (windows_prefix process shutdown (window_size CP options) pdfs
              (window_size_positive CP options) (length pdfs) 0%nat (0, 0)%nat)
    as (n & Hn & Hrun & _); [lia|].
  rewrite Hrun, count_results. cbn [fst snd Nat.add].
  unfold BatchProcessor.slice. rewrite Nat.sub_0_r.
  change (skipn 0 pdfs) with pdfs.
  assert (Hlen : length (firstn n pdfs) = n) by (rewrite length_firstn; lia).
  rewrite Hlen.
  assert (Hs : (successes process (firstn n pdfs) <= n)%nat).
  { rewrite <- Hlen at 2. apply filter_length_bound. }
  cbn [BatchProcessor.totalProcessed BatchProcessor.successCount
         BatchProcessor.failureCount BatchProcessor.skippedCount].
  repeat split; try lia.
  intros l Hsome. specialize (Hlimit l Hsome). lia.
Qed.

Lemma retry_each_spec process (items : list BatchProcessor.PDFFileMetadata) :
  forall counts,
    (BatchProcessor.retry_each process items counts = None
     <-> exists pdf, In pdf items /\ process pdf = BatchProcessor.Rejected)
    /\ forall result,
         BatchProcessor.retry_each process items counts = Some result ->
         result = (fst counts + successes process items,
                   snd counts + (length items - successes process items))%nat.
Proof.
  unfold successes.
  induction items as [|pdf rest IH]; intros [s f].
  - cbn. split.
    + split; [discriminate|]. intros (pdf & [] & _).
    + intros result [= <-]. f_equal; lia.
  - cbn [BatchProcessor.retry_each List.filter].
    pose proof (filter_length_bound (fun pdf => fulfilled_true (process pdf)) rest)
      as Hle.
    destruct (process pdf) as [[|]|] eqn:Hp; cbn [fulfilled_true fst snd length].
    + destruct (IH (S s, f)) as [Hnone Hsome]. split.
      * rewrite Hnone. split.
        -- intros (x & Hx & Hr). exists x. split; [right; exact Hx|exact Hr].
        -- intros (x & [<-|Hx] & Hr); [congruence|eauto].
      * intros result Hres. rewrite (Hsome result Hres). cbn [fst snd].
        f_equal; lia.
    + destruct (IH (s, S f)) as [Hnone Hsome]. split.
      * rewrite Hnone. split.
        -- intros (x & Hx & Hr). exists x. split; [right; exact Hx|exact Hr].
        -- intros (x & [<-|Hx] & Hr); [congruence|eauto].
      * intros result Hres. rewrite (Hsome result Hres). cbn [fst snd].
        f_equal; lia.
    + split.
      * split; [|reflexivity]. intros _. exists pdf. split; [left; reflexivity|exact Hp].
      * discriminate.
Qed.

(** X6 (BatchProcessor.retryFailed): the retry rejects exactly when the
    processing of some failed product rejects; otherwise it counts every
    failed product once, as a success when its processing fulfils with
    [true] and as a failure otherwise, and skips none. *)
Theorem retryFailed_counts_every_item_or_rejects :
  forall processSinglePDF startTime endTime failedProducts,
    (BatchProcessor.retryFailed processSinglePDF startTime endTime failedProducts
     = None
     <-> exists pdf, In pdf failedProducts
                     /\ processSinglePDF pdf = BatchProcessor.Rejected)
    /\ forall r,
         BatchProcessor.retryFailed processSinglePDF startTime endTime
           failedProducts = Some r ->
         BatchProcessor.totalProcessed r = length failedProducts
         /\ BatchProcessor.successCount r
            = successes processSinglePDF failedProducts
         /\ BatchProcessor.failureCount r
            = (length failedProducts
               - successes processSinglePDF failedProducts)%nat
         /\ BatchProcessor.skippedCount r = 0%nat.
Proof.
  intros process startTime endTime failed.
  unfold BatchProcessor.retryFailed.
  destruct (Nat.eqb (length failed) 0) eqn:Hempty.
  - apply Nat.eqb_eq in Hempty. destruct failed; [|discriminate]. split.
    + split; [discriminate|]. intros (pdf & [] & _).
    + intros r [= <-]. cbn. auto.
  - destruct (retry_each_spec process failed (0, 0)%nat) as [Hnone Hsome].
    assert (Hs : (successes process failed <= length failed)%nat)
      by apply filter_length_bound.
    destruct (BatchProcessor.retry_each process failed (0%nat, 0%nat))
      as [[s f]|] eqn:Hrun.
    + specialize (Hsome _ eq_refl). cbn [fst snd Nat.add] in Hsome.
      injection Hsome as -> ->. split.
      * split; [discriminate|]. intros Hex. apply Hnone in Hex. discriminate.
      * intros r [= <-]. cbn. repeat split; lia.
    + split.
      * split; [intros _; apply Hnone; reflexivity|reflexivity].
      * discriminate.
Qed.

Lemma processAll_prefix_witness :
  exists n,
    (n <= 3)%nat
    /\ BatchProcessor.totalProcessed
         (BatchProcessor.processAll 2%positive (fun _ => false)
            (fun _ => BatchProcessor.Fulfilled true) (Nat.leb 2) 0 1000
            default_options (sample_scan ["A1"; "B2"; "C3"]%string)) = n
    /\ (n = 3%nat \/ ((exists k, n = k * 2)%nat /\ Nat.leb 2 n = true)).
Proof.
  destruct (processAll_attempts_a_prefix_of_whole_windows 2%positive
              (fun _ => false) (fun _ => BatchProcessor.Fulfilled true)
              (Nat.leb 2) 0 1000 default_options
              (sample_scan ["A1"; "B2"; "C3"]%string))
    as (n & Hn & Htotal & _ & _ & Hcase).
  - vm_compute. discriminate.
  - exists n. split; [exact Hn|]. split; [exact Htotal|exact Hcase].
Defined.

(* ===================================================================== *)
(** ** Review queue *)
(* ===================================================================== *)

Lemma addToReviewQueue_row productId productCode discrepancies validationWarnings
    now (table : gmap Z Repository.HumanReviewQueue) :
  exists row,
    Repository.addToReviewQueue productId productCode discrepancies
      validationWarnings now table !! productId = Some row
    /\ Repository.high_severity_count row
       = (Repository.count_discrepancies high discrepancies
          + Repository.count_warnings high (Repository.or_empty validationWarnings))%nat
    /\ Repository.medium_severity_count row
       = (Repository.count_discrepancies medium discrepancies
          + Repository.count_warnings medium (Repository.or_empty validationWarnings))%nat
    /\ Repository.total_discrepancies row
       = (length discrepancies + length (Repository.or_empty validationWarnings))%nat
    /\ Repository.review_priority row
       = (Repository.count_warnings high (Repository.or_empty validationWarnings) * 3
          + Repository.count_discrepancies high discrepancies * 2
          + (Repository.count_discrepancies medium discrepancies
             + Repository.count_warnings medium
                 (Repository.or_empty validationWarnings)))%nat
    /\ Repository.created_at row = now
    /\ match table !! productId with
       | Some old =>
           Repository.product_id row = Repository.product_id old
           /\ Repository.product_code row = Repository.product_code old
           /\ Repository.review_status row = Repository.review_status old
           /\ Repository.assigned_to row = Repository.assigned_to old
           /\ Repository.review_notes row = Repository.review_notes old
           /\ Repository.reviewed_at row = Repository.reviewed_at old
       | None =>
           Repository.product_id row = productId
           /\ Repository.product_code row = productCode
           /\ Repository.review_status row = Repository.pending
           /\ Repository.assigned_to row = None
           /\ Repository.review_notes row = None
           /\ Repository.reviewed_at row = None
       end.
Proof.
  unfold Repository.addToReviewQueue.
  destruct (table !! productId) as [old|]; rewrite lookup_insert_eq;
    eexists; (split; [reflexivity|]); cbn; repeat split; reflexivity.
Qed.



Lemma count_zero_no_high {A} (sev : A -> Severity) (s : Severity) (l : list A) :
  length (List.filter (fun x => severity_eqb (sev x) s) l) = 0%nat ->
  existsb (fun x => severity_eqb (sev x) s) l = false.
Proof.
  induction l as [|x l IH]; [reflexivity|]. cbn.
  destruct (severity_eqb (sev x) s); [discriminate|]. exact IH.
Qed.

(** X8 (BatchProcessor.processSinglePDF, step 7): a product that is flagged
    for review and queued with priority 0 was flagged by the comparison
    alone, for a similarity below 85, and its row counts no high and no
    medium severity entry. *)
Theorem queued_with_priority_zero_only_for_low_similarity :
  forall claude grok productId productCode extractionWarnings now
         (table : gmap Z Repository.HumanReviewQueue) row,
    let comparison := ComparisonEngine.compareSupplementFacts claude grok in
    BatchProcessor.needsReview (Some comparison)
      (Repository.or_empty extractionWarnings) = true ->
    BatchProcessor.flagForReview productId productCode (Some comparison)
      extractionWarnings now table !! productId = Some row ->
    Repository.review_priority row = 0%nat ->
    (ComparisonEngine.similarityScore comparison < 85)%Q
    /\ Repository.high_severity_count row = 0%nat
    /\ Repository.medium_severity_count row = 0%nat.
Proof.
  intros claude grok productId productCode extractionWarnings now table row
         comparison Hneeds Hrow Hzero.
  unfold BatchProcessor.flagForReview in Hrow. cbv zeta in Hrow.
  rewrite Hneeds in Hrow.
  destruct (addToReviewQueue_row productId productCode
              (ComparisonEngine.discrepancies comparison)
              (Some (Repository.or_empty extractionWarnings)) now table)
    as (row' & Hrow' & Hhigh & Hmedium & _ & Hprio & _).
  rewrite Hrow in Hrow'. injection Hrow' as <-.
  cbn [Repository.or_empty] in Hhigh, Hmedium, Hprio.
  rewrite Hzero in Hprio.
  split; [|split; lia].
  unfold BatchProcessor.needsReview in Hneeds.
  rewrite (count_zero_no_high AIExtractor.severity high) in Hneeds
    by (unfold Repository.count_warnings in Hprio; lia).
  replace (2 <? _)%nat with false in Hneeds
    by (symmetry; apply Nat.ltb_ge; unfold Repository.count_warnings in Hprio; lia).
  rewrite !orb_false_r in Hneeds.
  subst comparison. unfold ComparisonEngine.compareSupplementFacts in Hneeds, Hprio |- *.
  cbn [ComparisonEngine.recommendsReview ComparisonEngine.similarityScore
       ComparisonEngine.discrepancies] in Hneeds, Hprio |- *.
  set (ds := (ComparisonEngine.compareTextField _ _ _ ++ _)) in *.
  unfold Repository.count_discrepancies in Hprio.
  unfold ComparisonEngine.count_severity in Hneeds.
  replace (0 <? _)%nat with false in Hneeds
    by (symmetry; apply Nat.ltb_ge; lia).
  replace (2 <? _)%nat with false in Hneeds
    by (symmetry; apply Nat.ltb_ge; lia).
  cbn [orb] in Hneeds. apply negb_true_iff in Hneeds.
  destruct (Qlt_le_dec (ComparisonEngine.calculateSimilarityScore claude grok ds) 85)
    as [Hlt|Hge]; [exact Hlt|].
  apply Qle_bool_iff in Hge. congruence.
Qed.

Lemma queued_with_priority_zero_witness :
  exists row,
    BatchProcessor.flagForReview 7 (js "0358")
      (Some (ComparisonEngine.compareSupplementFacts capsule_facts tablet_facts))
      None 1000 (empty : gmap Z Repository.HumanReviewQueue) !! 7 = Some row
    /\ Repository.review_priority row = 0%nat
    /\ (ComparisonEngine.similarityScore
          (ComparisonEngine.compareSupplementFacts capsule_facts tablet_facts)
        < 85)%Q
    /\ Repository.high_severity_count row = 0%nat
    /\ Repository.medium_severity_count row = 0%nat.
Proof.
  eexists. split; [vm_compute; reflexivity|]. split; [reflexivity|].
  apply (queued_with_priority_zero_only_for_low_similarity capsule_facts
           tablet_facts 7 (js "0358") None 1000
           (empty : gmap Z Repository.HumanReviewQueue)).
  - vm_compute. reflexivity.
  - vm_compute. reflexivity.
  - reflexivity.
Defined.

(* ===================================================================== *)
(** ** Recovery cascade: scanners and repairs *)
(* ===================================================================== *)

Lemma startsWith_one (s : jsstring) (c : N) :
  startsWith s [c] = true -> exists rest, s = c :: rest.
Proof.
  destruct s as [|x s]; cbn; [discriminate|].
  intros H. apply andb_true_iff in H. destruct H as [H _].
  apply N.eqb_eq in H. subst. eauto.
Qed.

Lemma indexOf_one (c : N) :
  forall (s : jsstring) (i : nat),
    indexOf s [c] = Some i ->
    nth_error s i = Some c /\ ~ In c (firstn i s).
Proof.
  induction s as [|x s IH]; intros i H.
  - cbn in H. discriminate.
  - cbn [indexOf] in H.
    destruct (startsWith (x :: s) [c]) eqn:Hst.
    + injection H as <-. apply startsWith_one in Hst. destruct Hst as [rest Heq].
      injection Heq as -> ->.
      split; [reflexivity|]. intros [].
    + destruct (indexOf s [c]) as [j|] eqn:Hj; [|discriminate].
      injection H as <-. destruct (IH j eq_refl) as [Hn Hnot].
      split; [exact Hn|]. cbn. intros [->|Hin]; [|tauto].
      cbn in Hst. rewrite N.eqb_refl in Hst. destruct s; discriminate.
Qed.

Lemma balanced_scan_end :
  forall (s : jsstring) (i : nat) (braceCount : Z) (inString escaped : bool) e,
    JsonExtractor.balanced_scan s i braceCount inString escaped = Some e ->
    (i < e <= i + length s)%nat
    /\ nth_error s (e - S i) = Some 125%N.
Proof.
  induction s as [|char rest IH]; intros i braceCount inString escaped e H.
  - discriminate.
  - cbn [JsonExtractor.balanced_scan] in H.
    assert (Hstep : forall bc ins esc,
               JsonExtractor.balanced_scan rest (S i) bc ins esc = Some e ->
               (i < e <= i + length (char :: rest))%nat
               /\ nth_error (char :: rest) (e - S i) = Some 125%N).
    { intros bc ins esc Hr. destruct (IH _ _ _ _ _ Hr) as [Hb Hn].
      cbn [length]. split; [lia|].
      replace (e - S i)%nat with (S (e - S (S i))) by lia. exact Hn. }
    destruct escaped; [eauto|].
    destruct (char =? 92)%N; [eauto|].
    destruct (char =? 34)%N; [eauto|].
    destruct (negb inString); [|eauto].
    destruct (char =? 125)%N eqn:Hclose; [|eauto].
    destruct (_ =? 0) ; [|eauto].
    injection H as <-. apply N.eqb_eq in Hclose. subst char.
    cbn [length]. split; [lia|]. rewrite Nat.sub_diag. reflexivity.
Qed.

(** X9 (findBalancedJSON, extractBalancedBraces): the candidate cut from the
    first opening brace to the index [findBalancedJSON] returns lies inside
    the text, starts with an opening brace that no other one precedes, and
    ends with a closing brace. *)
Theorem balanced_candidate_is_delimited_by_braces :
  forall (text : jsstring) (firstBrace endIndex : nat),
    indexOf text (js "{") = Some firstBrace ->
    JsonExtractor.findBalancedJSON text firstBrace = Some endIndex ->
    (firstBrace < endIndex <= length text)%nat
    /\ ~ In 123%N (firstn firstBrace text)
    /\ exists body,
         substring text firstBrace endIndex = 123%N :: body ++ [125%N].
Proof.
  intros text firstBrace endIndex Hfirst Hend.
  change (js "{") with [123%N] in Hfirst.
  destruct (indexOf_one 123 text firstBrace Hfirst) as [Hopen Hnone].
  unfold JsonExtractor.findBalancedJSON in Hend.
  destruct (balanced_scan_end _ _ _ _ _ _ Hend) as [Hb Hclose].
  assert (Hlt : (firstBrace < length text)%nat)
    by (apply nth_error_Some; congruence).
  rewrite length_skipn in Hb.
  rewrite nth_error_skipn in Hclose.
  split; [lia|]. split; [exact Hnone|].
  unfold substring.
  assert (Hne : (firstBrace + (endIndex - S firstBrace))%nat <> firstBrace).
  { intros Heq. rewrite Heq, Hopen in Hclose. discriminate. }
  set (m := (endIndex - firstBrace - 2)%nat).
  replace (endIndex - firstBrace)%nat with (S (m + 1)) by lia.
  destruct (skipn firstBrace text) as [|c rest] eqn:Hskip.
  { apply (f_equal (@length N)) in Hskip. rewrite length_skipn in Hskip.
    cbn in Hskip. lia. }
  assert (Hc : c = 123%N).
  { pose proof (nth_error_skipn firstBrace text 0) as H0.
    rewrite Hskip, Nat.add_0_r, Hopen in H0. cbn in H0. congruence. }
  subst c. cbn [firstn]. exists (firstn m rest). f_equal.
  assert (Hlast : nth_error rest m = Some 125%N).
  { pose proof (nth_error_skipn firstBrace text (S m)) as H0.
    rewrite Hskip in H0. cbn [nth_error] in H0. rewrite H0, <- Hclose.
    f_equal. lia. }
  clear - Hlast. revert rest Hlast.
  induction m as [|m IH]; intros [|x rest] Hlast; try discriminate.
  - cbn in Hlast. injection Hlast as ->. reflexivity.
  - cbn in Hlast |- *. rewrite (IH rest Hlast). reflexivity.
Qed.

Lemma content_state_app (a b : jsstring) :
  forall escaped,
    content_state (a ++ b) escaped
    = match content_state a escaped with
      | Some e => content_state b e
      | None => None
      end.
Proof.
  induction a as [|c a IH]; intros escaped; [reflexivity|].
  cbn [app content_state].
  destruct escaped; [apply IH|].
  destruct (c =? 92)%N; [apply IH|].
  destruct (c =? 34)%N; [reflexivity|apply IH].
Qed.

Lemma balanced_scan_content (content : jsstring) :
  forall escaped e rest i braceCount,
    content_state content escaped = Some e ->
    JsonExtractor.balanced_scan (content ++ rest) i braceCount true escaped
    = JsonExtractor.balanced_scan rest (i + length content) braceCount true e.
Proof.
  induction content as [|c content IH]; intros escaped e rest i braceCount H.
  - cbn in H. injection H as <-. cbn. rewrite Nat.add_0_r. reflexivity.
  - cbn [content_state] in H. cbn [app JsonExtractor.balanced_scan length].
    replace (i + S (length content))%nat with (S i + length content)%nat by lia.
    destruct escaped; [apply IH; exact H|].
    destruct (c =? 92)%N; [apply IH; exact H|].
    destruct (c =? 34)%N; [discriminate|].
    cbn [negb]. apply IH. exact H.
Qed.

(** X10 (findBalancedJSON): braces, and escaped quotes, inside a string are
    not counted: an object whose only member is a string literal is closed
    by the brace after the literal, whatever the literal holds. *)
Theorem braces_inside_a_string_are_not_counted :
  forall content rest : jsstring,
    literal_content content ->
    JsonExtractor.findBalancedJSON
      (js "{" ++ dq ++ content ++ dq ++ js "}" ++ rest) 0
    = Some (length content + 4)%nat.
Proof.
  intros content rest Hcontent.
  unfold JsonExtractor.findBalancedJSON.
  change (skipn 0 ?l) with l.
  change (js "{" ++ dq ++ content ++ dq ++ js "}" ++ rest)
    with (123%N :: 34%N :: (content ++ 34%N :: 125%N :: rest)).
  cbn [JsonExtractor.balanced_scan N.eqb Pos.eqb negb].
  rewrite (balanced_scan_content content false false _ _ _ Hcontent).
  cbn [JsonExtractor.balanced_scan N.eqb Pos.eqb negb].
  change (0 + 1 - 1 =? 0) with true. cbn iota.
  f_equal. lia.
Qed.

Lemma braces_inside_a_string_witness :
  literal_content (json_text "a } and \' and {")
  /\ JsonExtractor.findBalancedJSON
       (js "{" ++ dq ++ json_text "a } and \' and {" ++ dq ++ js "}"
        ++ js " trailing }") 0
     = Some 20%nat.
Proof.
  split; [reflexivity|].
  apply (braces_inside_a_string_are_not_counted
           (json_text "a } and \' and {") (js " trailing }")).
  reflexivity.
Defined.

Lemma repaired_newlines_not_detected :
  forall (s : jsstring) (i : nat) (inString escaped : bool),
    AIExtractor.unescapedNewlines_from
      (JsonExtractor.repairUnescapedNewlines_from s inString escaped)
      i inString escaped = [].
Proof.
  induction s as [|char rest IH]; intros i inString escaped; [reflexivity|].
  cbn [JsonExtractor.repairUnescapedNewlines_from].
  destruct escaped.
  { cbn [AIExtractor.unescapedNewlines_from]. apply IH. }
  destruct (char =? 92)%N eqn:Hbs.
  { cbn [AIExtractor.unescapedNewlines_from]. rewrite Hbs. apply IH. }
  destruct (char =? 34)%N eqn:Hq.
  { cbn [AIExtractor.unescapedNewlines_from]. rewrite Hbs, Hq. apply IH. }
  unfold JsonExtractor.isNewline.
  destruct (inString && ((char =? 10) || (char =? 13))%N) eqn:Hnl.
  - destruct ((char =? 13)%N
              && match rest with
                 | next :: _ => (next =? 10)%N
                 | [] => false
                 end).
    + apply IH.
    + cbn [AIExtractor.unescapedNewlines_from N.eqb Pos.eqb]. apply IH.
  - cbn [AIExtractor.unescapedNewlines_from]. rewrite Hbs, Hq, Hnl. apply IH.
Qed.

Lemma repairUnescapedNewlines_from_idempotent :
  forall (s : jsstring) (inString escaped : bool),
    JsonExtractor.repairUnescapedNewlines_from
      (JsonExtractor.repairUnescapedNewlines_from s inString escaped)
      inString escaped
    = JsonExtractor.repairUnescapedNewlines_from s inString escaped.
Proof.
  induction s as [|char rest IH]; intros inString escaped; [reflexivity|].
  cbn [JsonExtractor.repairUnescapedNewlines_from].
  destruct escaped.
  { cbn [JsonExtractor.repairUnescapedNewlines_from]. rewrite IH. reflexivity. }
  destruct (char =? 92)%N eqn:Hbs.
  { cbn [JsonExtractor.repairUnescapedNewlines_from]. rewrite Hbs, IH. reflexivity. }
  destruct (char =? 34)%N eqn:Hq.
  { cbn [JsonExtractor.repairUnescapedNewlines_from]. rewrite Hbs, Hq, IH.
    reflexivity. }
  destruct (inString && JsonExtractor.isNewline char) eqn:Hnl.
  - destruct ((char =? 13)%N
              && match rest with
                 | next :: _ => (next =? 10)%N
                 | [] => false
                 end).
    + apply IH.
    + cbn [JsonExtractor.repairUnescapedNewlines_from N.eqb Pos.eqb].
      rewrite IH. reflexivity.
  - cbn [JsonExtractor.repairUnescapedNewlines_from]. rewrite Hbs, Hq, Hnl, IH.
    reflexivity.
Qed.

Lemma clean_text_not_repaired :
  forall (s : jsstring) (i : nat) (inString escaped : bool),
    AIExtractor.unescapedNewlines_from s i inString escaped = [] ->
    JsonExtractor.repairUnescapedNewlines_from s inString escaped = s.
Proof.
  induction s as [|char rest IH]; intros i inString escaped H; [reflexivity|].
  cbn [JsonExtractor.repairUnescapedNewlines_from
       AIExtractor.unescapedNewlines_from] in *.
  destruct escaped; [f_equal; eapply IH; exact H|].
  destruct (char =? 92)%N; [f_equal; eapply IH; exact H|].
  destruct (char =? 34)%N; [f_equal; eapply IH; exact H|].
  unfold JsonExtractor.isNewline.
  destruct (inString && ((char =? 10) || (char =? 13))%N); [discriminate|].
  f_equal; eapply IH; exact H.
Qed.

(** X11 (repairUnescapedNewlines, detectSuspiciousPatterns): after the repair
    the scan for raw line breaks inside strings finds none; the repair is
    idempotent, and it leaves a text in which the scan finds nothing as it
    is. *)
Theorem repairUnescapedNewlines_leaves_no_raw_line_break_in_a_string :
  forall text : jsstring,
    AIExtractor.unescapedNewlines (JsonExtractor.repairUnescapedNewlines text) = []
    /\ JsonExtractor.repairUnescapedNewlines
         (JsonExtractor.repairUnescapedNewlines text)
       = JsonExtractor.repairUnescapedNewlines text
    /\ (AIExtractor.unescapedNewlines text = [] ->
        JsonExtractor.repairUnescapedNewlines text = text).
Proof.
  intros text. split; [|split].
  - apply repaired_newlines_not_detected.
  - apply repairUnescapedNewlines_from_idempotent.
  - apply clean_text_not_repaired.
Qed.

Lemma end_state_escape_flag (s : jsstring) :
  forall a b escaped,
    snd (end_state s a escaped) = snd (end_state s b escaped).
Proof.
  induction s as [|c rest IH]; intros a b escaped; [reflexivity|].
  cbn [end_state]. destruct escaped; [apply IH|].
  destruct (c =? 92)%N; [apply IH|]. destruct (c =? 34)%N; apply IH.
Qed.

Lemma repaired_strings_hold_no_delimiter :
  forall (s : jsstring) (inString escaped : bool),
    Forall (fun c => JsonExtractor.isDelimiter c = false)
           (string_units
              (JsonExtractor.repairUnterminatedStrings_from s inString escaped)
              inString escaped).
Proof.
  induction s as [|char rest IH]; intros inString escaped.
  - cbn. destruct inString; cbn; [destruct escaped|]; constructor.
  - cbn [JsonExtractor.repairUnterminatedStrings_from].
    destruct escaped; [cbn [string_units]; apply IH|].
    destruct (char =? 92)%N eqn:Hbs; [cbn [string_units]; rewrite Hbs; apply IH|].
    destruct (char =? 34)%N eqn:Hq;
      [cbn [string_units]; rewrite Hbs, Hq; apply IH|].
    destruct inString; cbn [andb].
    + destruct (JsonExtractor.isDelimiter char) eqn:Hd.
      * cbn [string_units N.eqb Pos.eqb negb]. rewrite Hbs, Hq. apply IH.
      * cbn [string_units]. rewrite Hbs, Hq. constructor; [exact Hd|apply IH].
    + cbn [string_units]. rewrite Hbs, Hq. apply IH.
Qed.

Lemma repaired_strings_are_closed :
  forall (s : jsstring) (inString escaped : bool),
    snd (end_state s inString escaped) = false ->
    end_state (JsonExtractor.repairUnterminatedStrings_from s inString escaped)
              inString escaped
    = (false, false).
Proof.
  induction s as [|char rest IH]; intros inString escaped H.
  - cbn in H. subst escaped. destruct inString; reflexivity.
  - cbn [JsonExtractor.repairUnterminatedStrings_from end_state] in *.
    destruct escaped; [cbn [end_state]; apply IH; exact H|].
    destruct (char =? 92)%N eqn:Hbs;
      [cbn [end_state]; rewrite Hbs; apply IH; exact H|].
    destruct (char =? 34)%N eqn:Hq;
      [cbn [end_state]; rewrite Hbs, Hq; apply IH; exact H|].
    destruct inString; cbn [andb].
    + destruct (JsonExtractor.isDelimiter char) eqn:Hd.
      * cbn [end_state N.eqb Pos.eqb negb]. rewrite Hbs, Hq.
        apply IH. rewrite (end_state_escape_flag rest false true). exact H.
      * cbn [end_state]. rewrite Hbs, Hq. apply IH. exact H.
    + cbn [end_state]. rewrite Hbs, Hq. apply IH. exact H.
Qed.

Lemma closed_strings_not_repaired :
  forall (s : jsstring) (inString escaped : bool),
    Forall (fun c => JsonExtractor.isDelimiter c = false)
           (string_units s inString escaped) ->
    fst (end_state s inString escaped) = false ->
    JsonExtractor.repairUnterminatedStrings_from s inString escaped = s.
Proof.
  induction s as [|char rest IH]; intros inString escaped Hunits Hend.
  - cbn in Hend. subst inString. reflexivity.
  - cbn [JsonExtractor.repairUnterminatedStrings_from string_units end_state] in *.
    destruct escaped; [f_equal; apply IH; assumption|].
    destruct (char =? 92)%N; [f_equal; apply IH; assumption|].
    destruct (char =? 34)%N; [f_equal; apply IH; assumption|].
    destruct inString; cbn [andb].
    + inversion Hunits as [|c l Hd Hrest]; subst. rewrite Hd.
      f_equal; apply IH; assumption.
    + f_equal; apply IH; assumption.
Qed.

(** X12 (repairUnterminatedStrings): in the repaired text no string holds an
    unescaped comma, closing brace or closing bracket; unless the text ends
    with an unpaired backslash, the repaired text ends outside a string;
    a text whose strings hold no such delimiter and that ends outside a
    string is left as it is. *)
Theorem repairUnterminatedStrings_closes_every_string :
  forall text : jsstring,
    let repaired := JsonExtractor.repairUnterminatedStrings text in
    Forall (fun c => JsonExtractor.isDelimiter c = false)
           (string_units repaired false false)
    /\ (snd (end_state text false false) = false ->
        end_state repaired false false = (false, false))
    /\ (Forall (fun c => JsonExtractor.isDelimiter c = false)
               (string_units text false false) ->
        fst (end_state text false false) = false ->
        repaired = text).
Proof.
  intros text repaired. split; [|split].
  - apply repaired_strings_hold_no_delimiter.
  - apply repaired_strings_are_closed.
  - apply closed_strings_not_repaired.
Qed.

Lemma truncateLongStrings_from_result :
  forall (s result : jsstring) (inString escaped : bool) (content : jsstring),
    JsonExtractor.truncateLongStrings_from s result inString escaped content
    = result
      ++ JsonExtractor.truncateLongStrings_from s [] inString escaped content.
Proof.
  induction s as [|char rest IH]; intros result inString escaped content.
  - cbn. destruct inString; [reflexivity|]. rewrite app_nil_r. reflexivity.
  - cbn [JsonExtractor.truncateLongStrings_from].
    destruct escaped.
    { destruct inString; [apply IH|].
      rewrite IH, (IH ([] ++ _)). cbn [app]. rewrite <- ?app_assoc. reflexivity. }
    destruct (char =? 92)%N; [apply IH|].
    destruct (char =? 34)%N.
    { destruct (negb inString).
      - rewrite IH, (IH ([] ++ _)). cbn [app]. rewrite <- ?app_assoc. reflexivity.
      - rewrite IH, (IH ([] ++ _)). cbn [app]. rewrite <- ?app_assoc. reflexivity. }
    destruct inString; [apply IH|].
    rewrite IH, (IH ([] ++ _)). cbn [app]. rewrite <- ?app_assoc. reflexivity.
Qed.

Lemma literal_lengths_content (content : jsstring) :
  forall escaped e rest current,
    content_state content escaped = Some e ->
    literal_lengths (content ++ rest) true escaped current
    = literal_lengths rest true e (current + length content).
Proof.
  induction content as [|c content IH]; intros escaped e rest current H.
  - cbn in H. injection H as <-. cbn. rewrite Nat.add_0_r. reflexivity.
  - cbn [content_state] in H. cbn [app literal_lengths length].
    replace (current + S (length content))%nat
      with (S current + length content)%nat by lia.
    destruct escaped; [apply IH; exact H|].
    destruct (c =? 92)%N; [apply IH; exact H|].
    destruct (c =? 34)%N; [discriminate|].
    apply IH. exact H.
Qed.

Lemma content_state_firstn (k : nat) :
  forall (s : jsstring) escaped e,
    content_state s escaped = Some e ->
    exists e', content_state (firstn k s) escaped = Some e'.
Proof.
  induction k as [|k IH]; intros s escaped e H; [cbn; eauto|].
  destruct s as [|c s]; [cbn; eauto|].
  cbn [firstn content_state] in *.
  destruct escaped; [eapply IH; exact H|].
  destruct (c =? 92)%N; [eapply IH; exact H|].
  destruct (c =? 34)%N; [discriminate|eapply IH; exact H].
Qed.

Lemma bounded_content (content : jsstring) :
  literal_content content ->
  literal_content (JsonExtractor.bounded content)
  /\ (length (JsonExtractor.bounded content) <= 2000)%nat.
Proof.
  intros H. unfold JsonExtractor.bounded, JsonExtractor.maxStringLength.
  destruct (2000 <? length content)%nat eqn:Hlong.
  - apply Nat.ltb_lt in Hlong. unfold substring.
    change (skipn 0 content) with content.
    set (k := (2000 - 3 - 0)%nat).
    assert (Hk : k = 1997%nat) by (subst k; lia). clearbody k.
    split.
    + unfold literal_content. rewrite content_state_app.
      destruct (content_state_firstn k content false false H) as [e' He'].
      rewrite He'. destruct e'; reflexivity.
    + rewrite length_app, length_firstn. change (length (js "...")) with 3%nat. lia.
  - apply Nat.ltb_ge in Hlong. split; [exact H|exact Hlong].
Qed.

Lemma content_snoc (content : jsstring) (c : N) :
  literal_content content -> (c =? 92)%N = false -> (c =? 34)%N = false ->
  literal_content (content ++ [c]).
Proof.
  intros H Hbs Hq. unfold literal_content in *.
  rewrite content_state_app, H. cbn. rewrite Hbs, Hq. reflexivity.
Qed.

Lemma content_escape (content : jsstring) (c : N) :
  literal_content content -> literal_content (content ++ [92%N; c]).
Proof.
  intros H. unfold literal_content in *.
  rewrite content_state_app, H. reflexivity.
Qed.

Lemma truncated_strings_bounded :
  forall (s : jsstring) (escaped : bool),
    (forall content,
        Forall (fun n => (n <= 2000)%nat)
               (literal_lengths
                  (JsonExtractor.truncateLongStrings_from s [] false escaped content)
                  false false 0))
    /\ (forall content,
          literal_content content ->
          Forall (fun n => (n <= 2000)%nat)
                 (literal_lengths
                    (JsonExtractor.truncateLongStrings_from s [] true escaped content)
                    true false 0)).
Proof.
  assert (Hclose : forall content tail,
             literal_content content ->
             Forall (fun n => (n <= 2000)%nat) (literal_lengths tail false false 0) ->
             Forall (fun n => (n <= 2000)%nat)
                    (literal_lengths
                       (JsonExtractor.bounded content ++ 34%N :: tail) true false 0)).
  { intros content tail Hc Htail.
    destruct (bounded_content content Hc) as [Hb Hlen].
    rewrite (literal_lengths_content _ false false _ _ Hb).
    cbn [literal_lengths N.eqb Pos.eqb]. constructor; [cbn; lia|exact Htail]. }
  induction s as [|char rest IH]; intros escaped.
  - split; intros content.
    + cbn. constructor.
    + intros Hc. cbn [JsonExtractor.truncateLongStrings_from app].
      change dq with ([34%N] : jsstring).
      apply (Hclose content [] Hc). cbn. constructor.
  - split; intros content.
    + cbn [JsonExtractor.truncateLongStrings_from].
      destruct escaped.
      { rewrite truncateLongStrings_from_result.
        cbn [app literal_lengths N.eqb Pos.eqb]. apply IH. }
      destruct (char =? 92)%N eqn:Hbs; [apply IH|].
      destruct (char =? 34)%N eqn:Hq.
      { cbn [negb]. rewrite truncateLongStrings_from_result.
        cbn [app literal_lengths]. rewrite Hbs, Hq. apply IH. reflexivity. }
      rewrite truncateLongStrings_from_result.
      cbn [app literal_lengths]. rewrite Hbs, Hq. apply IH.
    + intros Hc. cbn [JsonExtractor.truncateLongStrings_from].
      destruct escaped; [apply IH; apply content_escape; exact Hc|].
      destruct (char =? 92)%N eqn:Hbs; [apply IH; exact Hc|].
      destruct (char =? 34)%N eqn:Hq.
      { cbn [negb]. rewrite truncateLongStrings_from_result.
        apply N.eqb_eq in Hq. subst char. cbn [app].
        rewrite <- app_assoc. apply (Hclose content _ Hc). apply IH. }
      apply IH. apply content_snoc; assumption.
Qed.

(** X13 (truncateLongStrings): every string literal of the result holds at
    most 2000 code units. *)
Theorem truncateLongStrings_bounds_every_string :
  forall text : jsstring,
    Forall (fun n => (n <= 2000)%nat)
           (literal_lengths (JsonExtractor.truncateLongStrings text) false false 0).
Proof.
  intros text. apply (truncated_strings_bounded text false).
Qed.

Lemma balanced_candidate_witness :
  (6 < 21 <= 26)%nat
  /\ ~ In 123%N (firstn 6 (json_text "Sure: {'a':{'b':'}'}} done"))
  /\ exists body,
       substring (json_text "Sure: {'a':{'b':'}'}} done") 6 21
       = 123%N :: body ++ [125%N].
Proof.
  apply (balanced_candidate_is_delimited_by_braces
           (json_text "Sure: {'a':{'b':'}'}} done") 6 21);
    vm_compute; reflexivity.
Defined.

(* ===================================================================== *)
(** ** Validation stage *)
(* ===================================================================== *)

Lemma z_string_min1_nonempty p v s :
  JsonValidator.z_string_min1 p v = JsonValidator.Valid s ->
  JsonValidator.nonempty_string v = true.
Proof.
  unfold JsonValidator.z_string_min1, JsonValidator.invalid_type.
  destruct v as [[| | |[|c t]| |]|]; intros H; try discriminate. reflexivity.
Qed.

Lemma productExtractionSchema_shape p data d :
  JsonValidator.productExtractionSchema p (Some data) = JsonValidator.Valid d ->
  is_object data = true
  /\ JsonValidator.nonempty_string (prop data "productName") = true
  /\ JsonValidator.nonempty_string (prop data "productDescription") = true
  /\ JsonValidator.nonempty_string (prop data "directions") = true.
Proof.
  unfold JsonValidator.productExtractionSchema.
  destruct data as [| | | | |fields]; try (cbn; discriminate).
  intros H.
  destruct (JsonValidator.z_string_min1 (p ++ [js "productName"]) _)
    as [n|] eqn:Hn; [|discriminate].
  destruct (JsonValidator.z_string_opt (p ++ [js "productSlogan"]) _);
    [|discriminate].
  destruct (JsonValidator.z_string_min1 (p ++ [js "productDescription"]) _)
    as [de|] eqn:Hd; [|discriminate].
  destruct (JsonValidator.z_string_opt (p ++ [js "subbrand"]) _); [|discriminate].
  destruct (JsonValidator.supplementFactsSchema_optional _ _); [|discriminate].
  destruct (JsonValidator.z_array_default_empty JsonValidator.ingredientSchema _ _);
    [|discriminate].
  destruct (JsonValidator.z_string_min1 (p ++ [js "directions"]) _)
    as [di|] eqn:Hdi; [|discriminate].
  apply z_string_min1_nonempty in Hn, Hd, Hdi. auto.
Qed.

Lemma supplementFactsSchema_shape p data sf :
  JsonValidator.supplementFactsSchema p (Some data) = JsonValidator.Valid sf ->
  is_object data = true
  /\ JsonValidator.nonempty_string (prop data "servings") = true
  /\ JsonValidator.nonempty_string (prop data "servingsPerContainer") = true
  /\ (prop data "nutrients" = None \/ isArray (prop data "nutrients") = true).
Proof.
  unfold JsonValidator.supplementFactsSchema.
  destruct data as [| | | | |fields]; try (cbn; discriminate).
  intros H.
  destruct (JsonValidator.z_string_min1 (p ++ [js "servings"]) _)
    as [n|] eqn:Hn; [|discriminate].
  destruct (JsonValidator.z_string_min1 (p ++ [js "servingsPerContainer"]) _)
    as [c|] eqn:Hc; [|discriminate].
  destruct (JsonValidator.z_string_opt (p ++ [js "calories"]) _); [|discriminate].
  destruct (JsonValidator.z_string_opt (p ++ [js "protein"]) _); [|discriminate].
  destruct (JsonValidator.z_array_default_empty JsonValidator.nutrientSchema _ _)
    eqn:Harr; [|discriminate].
  apply z_string_min1_nonempty in Hn, Hc.
  repeat split; auto.
  unfold JsonValidator.z_array_default_empty, JsonValidator.invalid_type in Harr.
  destruct (prop (JObj fields) "nutrients") as [[| | | | |]|]; try discriminate; auto.
Qed.

Lemma nonempty_is_string v :
  JsonValidator.nonempty_string v = true -> JsonValidator.is_string v = true.
Proof. destruct v as [[| | |[|]| |]|]; cbn; congruence. Qed.

Lemma nonempty_defined v :
  JsonValidator.nonempty_string v = true -> JsonValidator.defined v = true.
Proof. destruct v as [[| | |[|]| |]|]; cbn; congruence. Qed.

(** X14 (isLikelyProductExtraction, isLikelySupplementFacts): the shape check
    of the full extraction accepts every value the strict schema accepts;
    the shape check of a supplement-facts block accepts a value the schema
    accepts exactly when the value has a [nutrients] member, which the
    schema does not require. *)
Theorem shape_checks_against_the_strict_schemas :
  (forall data d,
      JsonValidator.productExtractionSchema [] (Some data) = JsonValidator.Valid d ->
      JsonValidator.isLikelyProductExtraction data = true)
  /\ (forall data sf,
        JsonValidator.supplementFactsSchema [] (Some data) = JsonValidator.Valid sf ->
        JsonValidator.isLikelySupplementFacts data
        = JsonValidator.defined (prop data "nutrients")).
Proof.
  split.
  - intros data d H.
    destruct (productExtractionSchema_shape [] data d H) as (Ho & Hn & Hd & Hdir).
    unfold JsonValidator.isLikelyProductExtraction. rewrite Ho. cbn [negb forallb existsb].
    rewrite Hn, Hd, (nonempty_defined _ Hdir). cbn. rewrite ?orb_true_r. reflexivity.
  - intros data sf H.
    destruct (supplementFactsSchema_shape [] data sf H) as (Ho & Hs & Hc & Hn).
    unfold JsonValidator.isLikelySupplementFacts. rewrite Ho. cbn [negb].
    rewrite Hs, (nonempty_is_string _ Hc). cbn [andb].
    destruct Hn as [Hn|Hn].
    + rewrite Hn. reflexivity.
    + destruct (prop data "nutrients") as [[| | | | |]|]; try discriminate. reflexivity.
Qed.

Lemma shape_checks_witness :
  JsonValidator.isLikelyProductExtraction well_formed_value = true
  /\ JsonValidator.isLikelySupplementFacts servings_only_json = false.
Proof.
  split.
  - eapply (proj1 shape_checks_against_the_strict_schemas well_formed_value).
    vm_compute. reflexivity.
  - erewrite (proj2 shape_checks_against_the_strict_schemas servings_only_json).
    + reflexivity.
    + vm_compute. reflexivity.
Defined.

Lemma accepted_value (r : JsonExtractor.ExtractionResult) :
  JsonExtractor.accepted r = true ->
  JsonExtractor.success r = true
  /\ exists v, JsonExtractor.data r = Some v
               /\ JsonValidator.isLikelyProductExtraction v = true.
Proof.
  unfold JsonExtractor.accepted. intros H.
  apply andb_true_iff in H. destruct H as [Hs Hd].
  destruct (JsonExtractor.data r) as [v|]; [|discriminate]. eauto.
Qed.

Lemma cascade_step (P : JsonExtractor.ExtractionResult -> Prop)
    (r : JsonExtractor.ExtractionResult) (name : string)
    (otherwise : JsonExtractor.ExtractionResult) :
  (JsonExtractor.accepted r = true -> P (JsonExtractor.with_strategy r name)) ->
  P otherwise ->
  P (if JsonExtractor.accepted r then JsonExtractor.with_strategy r name
     else otherwise).
Proof. destruct (JsonExtractor.accepted r); auto. Qed.

Lemma accepted_with_strategy (r : JsonExtractor.ExtractionResult) (name : string) :
  JsonExtractor.accepted r = true ->
  gated JsonValidator.isLikelyProductExtraction
        (JsonExtractor.with_strategy r name).
Proof.
  intros H _. destruct (accepted_value r H) as (_ & v & Hv & Hlike).
  exists v. split; [exact Hv|exact Hlike].
Qed.

Lemma extractAllStrategies_gated JSON5_parse text :
  gated JsonValidator.isLikelyProductExtraction
        (JsonExtractor.extractAllStrategies JSON5_parse text).
Proof.
  unfold JsonExtractor.extractAllStrategies.
  repeat (apply cascade_step; [apply accepted_with_strategy|]).
  intros H. discriminate H.
Qed.

Lemma extractJSON_value JSON5_parse text v :
  AIExtractor.extractJSON JSON5_parse text = Some v ->
  JsonValidator.isLikelyProductExtraction v = true.
Proof.
  unfold AIExtractor.extractJSON.
  pose proof (extractAllStrategies_gated JSON5_parse text) as Hgated.
  destruct (JsonExtractor.success
              (JsonExtractor.extractAllStrategies JSON5_parse text)) eqn:Hs;
    [|discriminate].
  destruct (Hgated Hs) as (w & Hw & Hlike).
  rewrite Hw. intros [= <-]. exact Hlike.
Qed.

Lemma likely_product_is_object v :
  JsonValidator.isLikelyProductExtraction v = true ->
  is_object v = true /\ AIExtractor.falsy v = false.
Proof.
  unfold JsonValidator.isLikelyProductExtraction.
  destruct v; cbn; try discriminate; auto.
Qed.

(** X15 (AIExtractor.extractProductInfo, validation stage): the extraction
    fails only when the recovery cascade fails.  For every recovered value
    the outcome is a success whose data is the normalized result of the
    salvage parse; it has no error and no warnings when strict validation
    passes, and the error text "Partial extraction: ..." with the parsed
    warnings otherwise. *)
Theorem extraction_fails_only_when_recovery_fails :
  forall JSON5_parse response elapsed retries,
    let outcome :=
      AIExtractor.extractFromResponse JSON5_parse response elapsed retries in
    (AIExtractor.extractJSON JSON5_parse response = None ->
     AIExtractor.success outcome = false /\ AIExtractor.data outcome = None)
    /\ (forall jsonData,
          AIExtractor.extractJSON JSON5_parse response = Some jsonData ->
          AIExtractor.success outcome = true
          /\ (exists source,
                JsonValidator.safeParseProductExtraction jsonData = Some source
                /\ AIExtractor.data outcome
                   = Some (DataNormalizer.normalizeProductData source false))
          /\ (forall validated,
                JsonValidator.validateProductExtraction jsonData
                = JsonValidator.ValidationOk validated ->
                AIExtractor.error outcome = None
                /\ AIExtractor.validationWarnings outcome = None)
          /\ (forall e,
                JsonValidator.validateProductExtraction jsonData
                = JsonValidator.ValidationError e ->
                AIExtractor.error outcome = Some (js "Partial extraction: " ++ e)
                /\ AIExtractor.validationWarnings outcome
                   = Some (AIExtractor.parseValidationWarnings e))).
Proof.
  intros JSON5_parse response elapsed retries. cbv zeta.
  unfold AIExtractor.extractFromResponse. split.
  - intros ->. cbn. auto.
  - intros jsonData Hjson. rewrite Hjson.
    pose proof (extractJSON_value _ _ _ Hjson) as Hlike.
    destruct (likely_product_is_object _ Hlike) as [Hobj Hfalsy].
    rewrite Hfalsy. unfold AIExtractor.validateRecovered,
      JsonValidator.validateProductExtraction,
      JsonValidator.safeParseProductExtraction.
    destruct (JsonValidator.productExtractionSchema [] (Some jsonData))
      as [d|issues].
    + cbn [AIExtractor.success AIExtractor.data AIExtractor.error
           AIExtractor.validationWarnings].
      split; [reflexivity|]. split; [eauto|]. split.
      * intros validated _. split; reflexivity.
      * discriminate.
    + rewrite Hobj.
      cbn [AIExtractor.success AIExtractor.data AIExtractor.error
           AIExtractor.validationWarnings].
      split; [reflexivity|]. split; [eauto|]. split.
      * discriminate.
      * intros e [= <-]. split; reflexivity.
Qed.

Lemma parseValidationWarnings_header (rest : jsstring) :
  AIExtractor.parseValidationWarnings (js "Validation failed:" ++ [10%N] ++ rest)
  = header_warning :: AIExtractor.parseValidationWarnings rest.
Proof.
  unfold AIExtractor.parseValidationWarnings.
  set (separator := fun c : N => ((c =? 59) || (c =? 10))%N).
  set (warning_of_part := fun part : jsstring => _).
  assert (Hsplit : Regex.split_on separator
                     (js "Validation failed:" ++ [10%N] ++ rest) []
                   = js "Validation failed:" :: Regex.split_on separator rest [])
    by reflexivity.
  rewrite Hsplit. cbn [List.map].
  assert (Htrim : trim (js "Validation failed:") = js "Validation failed:")
    by (vm_compute; reflexivity).
  rewrite Htrim.
  assert (Hkeep : forall l,
             List.filter AIExtractor.nonempty (js "Validation failed:" :: l)
             = js "Validation failed:" :: List.filter AIExtractor.nonempty l)
    by reflexivity.
  rewrite Hkeep.
  assert (Hfirst : warning_of_part (js "Validation failed:") = [header_warning])
    by (vm_compute; reflexivity).
  change (flat_map warning_of_part (js "Validation failed:" :: ?l))
    with (warning_of_part (js "Validation failed:") ++ flat_map warning_of_part l).
  rewrite Hfirst. reflexivity.
Qed.

(** X21 (validateProductExtraction, parseValidationWarnings): the first line
    of every validation error, "Validation failed:", is itself parsed into
    a warning, with field path "unknown" and low severity; every partial
    extraction therefore carries at least one warning. *)
Theorem every_partial_extraction_carries_the_header_warning :
  forall (data : value) (e : jsstring),
    JsonValidator.validateProductExtraction data
    = JsonValidator.ValidationError e ->
    exists issues,
      AIExtractor.parseValidationWarnings e = header_warning :: issues.
Proof.
  intros data e. unfold JsonValidator.validateProductExtraction.
  destruct (JsonValidator.productExtractionSchema [] (Some data)) as [d|errors];
    [discriminate|].
  set (text := js "Validation failed:" ++ [10%N] ++ _).
  intros He. assert (Htext : e = text) by congruence.
  rewrite Htext. subst text. rewrite parseValidationWarnings_header. eauto.
Qed.

Lemma header_warning_witness :
  exists e,
    JsonValidator.validateProductExtraction partial_product_json
    = JsonValidator.ValidationError e
    /\ exists issues,
         AIExtractor.parseValidationWarnings e = header_warning :: issues.
Proof.
  eexists. split; [vm_compute; reflexivity|].
  apply (every_partial_extraction_carries_the_header_warning partial_product_json).
  vm_compute. reflexivity.
Defined.

(* ===================================================================== *)
(** ** Data normalizer and completeness *)
(* ===================================================================== *)

Lemma trimStart_head (s : jsstring) :
  trimStart s = [] \/ starts_plain (trimStart s).
Proof.
  induction s as [|c s IH]; [left; reflexivity|].
  cbn [trimStart]. destruct (isWhiteSpace c) eqn:Hc; [exact IH|].
  right. exists c, s. auto.
Qed.

Lemma trimStart_snoc (a : jsstring) (c : N) :
  isWhiteSpace c = false -> trimStart (a ++ [c]) = trimStart a ++ [c].
Proof.
  intros Hc. induction a as [|x a IH].
  - cbn. rewrite Hc. reflexivity.
  - cbn [app trimStart]. destruct (isWhiteSpace x); [exact IH|reflexivity].
Qed.

Lemma trimEnd_head (c : N) (x : jsstring) :
  isWhiteSpace c = false -> exists rest, trimEnd (c :: x) = c :: rest.
Proof.
  intros Hc. unfold trimEnd. cbn [rev].
  rewrite (trimStart_snoc _ c Hc), rev_app_distr. cbn. eauto.
Qed.

Lemma trim_head (s : jsstring) : trim s = [] \/ starts_plain (trim s).
Proof.
  unfold trim. destruct (trimStart_head s) as [->|(c & rest & -> & Hc)].
  - left. reflexivity.
  - right. destruct (trimEnd_head c rest Hc) as [r ->]. exists c, r. auto.
Qed.

Lemma starts_plain_not_blank (s : jsstring) :
  starts_plain s -> DataNormalizer.missing_text s = false.
Proof.
  intros (c & rest & -> & Hc).
  unfold DataNormalizer.missing_text, DataNormalizer.blank, trim.
  cbn [trimStart]. rewrite Hc.
  destruct (trimEnd_head c rest Hc) as [r ->]. reflexivity.
Qed.

Lemma collapse_head (c : N) (rest : jsstring) :
  isWhiteSpace c = false ->
  exists out,
    Regex.replace_all (Regex.plus Regex.ws) (js " ") (c :: rest) = c :: out.
Proof.
  intros Hc. unfold Regex.replace_all, Regex.replace_all_with.
  cbn [length Regex.replace_loop].
  unfold Regex.match_at, Regex.plus, Regex.ws.
  cbn [Regex.rmatch]. rewrite Hc. eauto.
Qed.

Lemma normalizeWhitespace_head (v : maybe_str) (s : jsstring) :
  DataNormalizer.normalizeWhitespace v = Some s -> s = [] \/ starts_plain s.
Proof.
  unfold DataNormalizer.normalizeWhitespace.
  destruct (or_null v) as [t|]; [|discriminate].
  intros [= <-].
  destruct (trim_head t) as [->|(c & rest & -> & Hc)].
  - left. reflexivity.
  - right. destruct (collapse_head c rest Hc) as [out ->]. exists c, out. auto.
Qed.

Lemma or_else_head (v : option jsstring) (fallback : jsstring) :
  (forall s, v = Some s -> s = [] \/ starts_plain s) ->
  starts_plain fallback ->
  starts_plain (DataNormalizer.or_else v fallback).
Proof.
  intros Hv Hf. destruct v as [[|c s]|]; cbn; try exact Hf.
  destruct (Hv (c :: s) eq_refl) as [H|H]; [discriminate|exact H].
Qed.

Lemma match_last (p : N -> bool) prev (s : jsstring) x :
  Regex.match_at (Regex.Seq (Regex.Chr p) Regex.Eos) prev s = Some x ->
  exists c, s = [c] /\ p c = true.
Proof.
  unfold Regex.match_at. cbn [Regex.rmatch].
  destruct s as [|c [|d s]]; try discriminate.
  - destruct (p c) eqn:Hp; [eauto|discriminate].
  - destruct (p c); discriminate.
Qed.

Lemma exec_last (p : N -> bool) :
  forall (s before : jsstring) x,
    Regex.exec_from (Regex.Seq (Regex.Chr p) Regex.Eos) before s = Some x ->
    exists body c, s = body ++ [c] /\ p c = true.
Proof.
  induction s as [|d s IH]; intros before x H.
  - cbn [Regex.exec_from] in H.
    destruct (Regex.match_at _ _ []) as [[rest caps]|] eqn:Hm; [|discriminate].
    apply match_last in Hm. destruct Hm as (c & Hc & _). discriminate.
  - cbn [Regex.exec_from] in H.
    destruct (Regex.match_at _ _ (d :: s)) as [[rest caps]|] eqn:Hm.
    + apply match_last in Hm. destruct Hm as (c & Hc & Hp).
      exists [], c. rewrite Hc. auto.
    + destruct (IH _ _ H) as (body & c & -> & Hp).
      exists (d :: body), c. auto.
Qed.

Lemma normalizeDescription_shape (description : jsstring) :
  starts_plain (DataNormalizer.normalizeDescription description)
  /\ ends_sentence (DataNormalizer.normalizeDescription description).
Proof.
  unfold DataNormalizer.normalizeDescription.
  set (normalized := DataNormalizer.or_else _ _).
  assert (Hplain : starts_plain normalized).
  { apply or_else_head.
    - intros s. apply normalizeWhitespace_head.
    - exists 78%N, (js "o description available"). split; reflexivity. }
  unfold Regex.test, Regex.exec.
  destruct (Regex.exec_from _ [] normalized) as [x|] eqn:Hexec; cbn [negb].
  - split; [exact Hplain|].
    destruct (exec_last _ _ _ _ Hexec) as (body & c & Heq & Hp).
    exists body, c. split; [exact Heq|].
    apply orb_true_iff in Hp. destruct Hp as [Hp|Hp];
      [apply orb_true_iff in Hp; destruct Hp as [Hp|Hp]|];
      apply N.eqb_eq in Hp; auto.
  - split.
    + destruct Hplain as (c & rest & -> & Hc). exists c, (rest ++ js "."). auto.
    + exists normalized, 46%N. auto.
Qed.

Lemma normalized_record_shape (data : JsonValidator.ProductExtractionData) :
  let normalized := DataNormalizer.normalizeProductData data false in
  starts_plain (JsonValidator.productName normalized)
  /\ starts_plain (JsonValidator.productDescription normalized)
  /\ starts_plain (JsonValidator.directions normalized).
Proof.
  cbv zeta.
  cbn [DataNormalizer.normalizeProductData JsonValidator.productName
       JsonValidator.productDescription JsonValidator.directions].
  split; [|split]; try apply normalizeDescription_shape.
  unfold DataNormalizer.normalizeProductName. apply or_else_head.
  - intros s. apply normalizeWhitespace_head.
  - exists 85%N, (js "nknown Product"). split; reflexivity.
Qed.

Lemma sanitized_length (references : maybe_str) (out : jsstring) :
  DataNormalizer.sanitizeReferencesField references = Some out ->
  (length out <= 5000)%nat.
Proof.
  unfold DataNormalizer.sanitizeReferencesField.
  destruct (or_null references) as [r|]; [|discriminate].
  cbv zeta. set (sanitized := trim _).
  destruct (5000 <? length sanitized)%nat eqn:Hlong; intros [= <-].
  - unfold substring. rewrite length_app, length_firstn.
    change (length (js "...")) with 3%nat. lia.
  - apply Nat.ltb_ge in Hlong. exact Hlong.
Qed.

(** X16 (normalizeProductData, normalizeDescription, sanitizeReferencesField):
    in a normalized record the product name, the description and the
    directions start with a unit other than white space, the description
    and the directions end with a full stop, an exclamation mark or a
    question mark, and the references, in either mode, hold at most 5000
    code units. *)
Theorem normalized_texts_are_sentences :
  forall data : JsonValidator.ProductExtractionData,
    let normalized := DataNormalizer.normalizeProductData data false in
    starts_plain (JsonValidator.productName normalized)
    /\ starts_plain (JsonValidator.productDescription normalized)
    /\ ends_sentence (JsonValidator.productDescription normalized)
    /\ starts_plain (JsonValidator.directions normalized)
    /\ ends_sentence (JsonValidator.directions normalized)
    /\ (forall strict out,
          JsonValidator.references
            (DataNormalizer.normalizeProductData data strict) = MStr out ->
          (length out <= 5000)%nat).
Proof.
  intros data. cbv zeta.
  destruct (normalized_record_shape data) as (Hn & _ & _).
  cbn [DataNormalizer.normalizeProductData JsonValidator.productName
       JsonValidator.productDescription JsonValidator.directions] in *.
  destruct (normalizeDescription_shape (JsonValidator.productDescription data))
    as [Hd1 Hd2].
  destruct (normalizeDescription_shape (JsonValidator.directions data))
    as [Hr1 Hr2].
  repeat split; try assumption.
  intros strict out Hout.
  assert (Hs : DataNormalizer.of_option
                 (DataNormalizer.sanitizeReferencesField
                    (JsonValidator.references data)) = MStr out)
    by (destruct strict; exact Hout).
  destruct (DataNormalizer.sanitizeReferencesField (JsonValidator.references data))
    as [r|] eqn:Hr; [|discriminate].
  injection Hs as <-. exact (sanitized_length _ _ Hr).
Qed.

Lemma Qfloor_unique (x : Q) (z : Z) :
  (inject_Z z <= x)%Q -> (x < inject_Z (z + 1))%Q -> Qfloor x = z.
Proof.
  intros Hlow Hup.
  assert (H1 : z <= Qfloor x).
  { rewrite <- (Qfloor_Z z). apply Qfloor_resp_le. exact Hlow. }
  assert (H2 : Qfloor x < z + 1).
  { rewrite Zlt_Qlt. eapply Qle_lt_trans; [apply Qfloor_le|exact Hup]. }
  lia.
Qed.

Lemma round_of_tenths (n : nat) :
  ComparisonEngine.Math_round
    (inject_Z (Z.of_nat n) / inject_Z (Z.of_nat (3 + 7)) * 100)%Q
  = 10 * Z.of_nat n.
Proof.
  unfold ComparisonEngine.Math_round. apply Qfloor_unique.
  - change (inject_Z (Z.of_nat (3 + 7))) with 10%Q.
    rewrite inject_Z_mult. change (inject_Z 10) with 10%Q.
    set (k := inject_Z (Z.of_nat n)). clearbody k.
    assert (He : (k / 10 * 100 == 10 * k)%Q) by field.
    rewrite He. lra.
  - change (inject_Z (Z.of_nat (3 + 7))) with 10%Q.
    rewrite inject_Z_plus, inject_Z_mult.
    change (inject_Z 10) with 10%Q. change (inject_Z 1) with 1%Q.
    set (k := inject_Z (Z.of_nat n)). clearbody k.
    assert (He : (k / 10 * 100 == 10 * k)%Q) by field.
    rewrite He. lra.
Qed.

(** X17 (checkDataCompleteness): the completeness percentage is ten times the
    number of present fields, lies between 20 and 100, and is at least 60
    for a complete record; for a normalized record no required field is
    missing and the percentage is at least 50, so the low-completeness
    warning of the batch orchestrator (below 50) is never raised. *)
Theorem completeness_of_a_normalized_record :
  (forall data : JsonValidator.ProductExtractionData,
      let report := DataNormalizer.checkDataCompleteness data in
      DataNormalizer.completenessPercent report
      = 10 * Z.of_nat (3 - length (DataNormalizer.missingFields report)
                       + DataNormalizer.presentOptionalFields data)
      /\ 20 <= DataNormalizer.completenessPercent report <= 100
      /\ (DataNormalizer.isComplete report = true ->
          60 <= DataNormalizer.completenessPercent report))
  /\ (forall data : JsonValidator.ProductExtractionData,
        let report :=
          DataNormalizer.checkDataCompleteness
            (DataNormalizer.normalizeProductData data false) in
        DataNormalizer.missingFields report = []
        /\ 50 <= DataNormalizer.completenessPercent report).
Proof.
  assert (Hgeneral : forall data : JsonValidator.ProductExtractionData,
             let report := DataNormalizer.checkDataCompleteness data in
             DataNormalizer.completenessPercent report
             = 10 * Z.of_nat (3 - length (DataNormalizer.missingFields report)
                              + DataNormalizer.presentOptionalFields data)).
  { intros data. cbv zeta. unfold DataNormalizer.checkDataCompleteness.
    cbn [DataNormalizer.completenessPercent DataNormalizer.missingFields].
    apply round_of_tenths. }
  assert (Hoptional : forall data,
             (2 <= DataNormalizer.presentOptionalFields data <= 7)%nat).
  { intros data. unfold DataNormalizer.presentOptionalFields.
    destruct (DataNormalizer.present_text (JsonValidator.productSlogan data)),
      (DataNormalizer.present_text (JsonValidator.subbrand data)),
      (DataNormalizer.present_text (JsonValidator.caution data)),
      (DataNormalizer.present_text (JsonValidator.references data)),
      (JsonValidator.supplementFacts data); cbn; lia. }
  assert (Hmissing : forall data,
             (length (DataNormalizer.missingFields
                        (DataNormalizer.checkDataCompleteness data)) <= 3)%nat).
  { intros data. unfold DataNormalizer.checkDataCompleteness.
    cbn [DataNormalizer.missingFields].
    destruct (DataNormalizer.missing_text (JsonValidator.productName data)),
      (DataNormalizer.missing_text (JsonValidator.productDescription data)),
      (DataNormalizer.missing_text (JsonValidator.directions data)); cbn; lia. }
  split.
  - intros data. cbv zeta. split; [apply Hgeneral|].
    pose proof (Hgeneral data) as Hp. cbv zeta in Hp. rewrite Hp.
    pose proof (Hoptional data) as Ho. pose proof (Hmissing data) as Hm.
    split; [lia|].
    unfold DataNormalizer.checkDataCompleteness at 1.
    cbn [DataNormalizer.isComplete]. intros Hc.
    apply andb_true_iff in Hc. destruct Hc as [Hc1 Hc2].
    apply Nat.eqb_eq in Hc1. apply Nat.leb_le in Hc2.
    fold (DataNormalizer.missingFields (DataNormalizer.checkDataCompleteness data))
      in Hc1.
    change (length (DataNormalizer.missingFields
                      (DataNormalizer.checkDataCompleteness data)) = 0%nat) in Hc1.
    lia.
  - intros data. cbv zeta.
    set (normalized := DataNormalizer.normalizeProductData data false).
    destruct (normalized_record_shape data) as (Hn & Hd & Hr).
    fold normalized in Hn, Hd, Hr.
    assert (Hnone : DataNormalizer.missingFields
                      (DataNormalizer.checkDataCompleteness normalized) = []).
    { unfold DataNormalizer.checkDataCompleteness.
      cbn [DataNormalizer.missingFields].
      rewrite (starts_plain_not_blank _ Hn), (starts_plain_not_blank _ Hd),
        (starts_plain_not_blank _ Hr). reflexivity. }
    split; [exact Hnone|].
    pose proof (Hgeneral normalized) as Hp. cbv zeta in Hp. rewrite Hp, Hnone.
    pose proof (Hoptional normalized) as Ho. cbn [length]. lia.
Qed.




(** X19 (normalizeProductData): every nutrient of a normalized record has an
    amount text and a non-empty name, has null or text daily values and no
    legacy daily value; normalization never adds nutrients, and the two
    serving texts are never empty. *)
Theorem normalized_nutrients_carry_an_amount :
  forall (data : JsonValidator.ProductExtractionData) source facts,
    JsonValidator.supplementFacts data = Some source ->
    JsonValidator.supplementFacts (DataNormalizer.normalizeProductData data false)
    = Some facts ->
    Forall (fun n =>
              (exists a, JsonValidator.amount n = MStr a)
              /\ JsonValidator.name n <> []
              /\ JsonValidator.dailyValuePercentAdult n <> MUndefined
              /\ JsonValidator.dailyValuePercentChildren n <> MUndefined
              /\ JsonValidator.dailyValuePercent n = MUndefined)
           (JsonValidator.nutrients facts)
    /\ (length (JsonValidator.nutrients facts)
        <= length (JsonValidator.nutrients source))%nat
    /\ JsonValidator.servings facts <> []
    /\ JsonValidator.servingsPerContainer facts <> [].
Proof.
  intros data source facts Hsource.
  cbn [DataNormalizer.normalizeProductData JsonValidator.supplementFacts].
  rewrite Hsource. intros [= <-].
  cbn [JsonValidator.nutrients JsonValidator.servings
       JsonValidator.servingsPerContainer].
  assert (Hor : forall v fallback,
             fallback <> [] -> DataNormalizer.or_else v fallback <> []).
  { intros [[|c s]|] fallback Hf; cbn; congruence. }
  split; [|split; [|split]].
  - apply List.Forall_forall. intros n Hn.
    apply filter_In in Hn. destruct Hn as [Hn Hamount].
    apply in_map_iff in Hn. destruct Hn as (raw & <- & _).
    cbn [JsonValidator.amount JsonValidator.name
         JsonValidator.dailyValuePercentAdult
         JsonValidator.dailyValuePercentChildren
         JsonValidator.dailyValuePercent] in *.
    split; [|split; [|split; [|split]]].
    + destruct (DataNormalizer.normalizeNutrientAmount (JsonValidator.amount raw));
        cbn in *; [eauto|discriminate].
    + apply Hor. discriminate.
    + destruct (DataNormalizer.normalizeDailyValuePercent _); discriminate.
    + destruct (DataNormalizer.normalizeDailyValuePercent _); discriminate.
    + reflexivity.
  - etransitivity; [apply filter_length_bound|]. rewrite length_map. lia.
  - apply Hor. discriminate.
  - apply Hor. discriminate.
Qed.

Lemma normalized_nutrients_witness :
  exists facts,
    JsonValidator.supplementFacts
      (DataNormalizer.normalizeProductData record_with_facts false) = Some facts
    /\ List.map JsonValidator.amount (JsonValidator.nutrients facts)
       = [MStr (js "500 mg")]
    /\ Forall (fun n =>
                 (exists a, JsonValidator.amount n = MStr a)
                 /\ JsonValidator.name n <> []
                 /\ JsonValidator.dailyValuePercentAdult n <> MUndefined
                 /\ JsonValidator.dailyValuePercentChildren n <> MUndefined
                 /\ JsonValidator.dailyValuePercent n = MUndefined)
              (JsonValidator.nutrients facts).
Proof.
  eexists. split; [vm_compute; reflexivity|]. split; [reflexivity|].
  eapply (normalized_nutrients_carry_an_amount record_with_facts);
    vm_compute; reflexivity.
Defined.

(* ===================================================================== *)
(** ** Comparison engine: bounds *)
(* ===================================================================== *)

Lemma compareTextField_length fieldPath v1 v2 :
  (length (ComparisonEngine.compareTextField fieldPath v1 v2) <= 1)%nat.
Proof.
  unfold ComparisonEngine.compareTextField.
  destruct (ComparisonEngine.opt_eqb v1 v2); [cbn; lia|].
  destruct (ComparisonEngine.opt_eqb _ _); cbn; lia.
Qed.

Lemma compare_nutrient_length grokMap index n :
  (length (ComparisonEngine.compare_nutrient grokMap index n) <= 3)%nat.
Proof.
  unfold ComparisonEngine.compare_nutrient.
  destruct (JsMap.get _ grokMap); [|cbn; lia].
  rewrite !length_app.
  destruct (negb (ComparisonEngine.amountsMatch _ _)),
    (negb (ComparisonEngine.percentagesMatch
             (or_null (JsonValidator.dailyValuePercentAdult n)) _)),
    (negb (ComparisonEngine.percentagesMatch
             (or_null (JsonValidator.dailyValuePercentChildren n)) _));
    cbn [length]; lia.
Qed.

Lemma compare_claude_length grokMap (l : list JsonValidator.NutrientData) :
  forall index,
    (length (ComparisonEngine.compare_claude grokMap index l) <= 3 * length l)%nat.
Proof.
  induction l as [|n l IH]; intros index; [cbn; lia|].
  cbn [ComparisonEngine.compare_claude length]. rewrite length_app.
  pose proof (compare_nutrient_length grokMap index n).
  specialize (IH (S index)). lia.
Qed.

Lemma compare_grok_length claudeMap (l : list JsonValidator.NutrientData) :
  forall index,
    (length (ComparisonEngine.compare_grok claudeMap index l) <= length l)%nat.
Proof.
  induction l as [|n l IH]; intros index; [cbn; lia|].
  cbn [ComparisonEngine.compare_grok length]. rewrite length_app.
  specialize (IH (S index)).
  destruct (negb (JsMap.has _ claudeMap)); cbn [length]; lia.
Qed.

Lemma similarity_score_bounds a b discrepancies :
  (0 <= ComparisonEngine.calculateSimilarityScore a b discrepancies <= 100)%Q.
Proof.
  unfold ComparisonEngine.calculateSimilarityScore,
    ComparisonEngine.countTotalFields.
  cbn [Nat.add Nat.eqb].
  set (score := Qmax 0 (Qmin 100 _)).
  assert (Hlow : (0 <= score)%Q) by apply Q.le_max_l.
  assert (Hup : (score <= 100)%Q).
  { apply Q.max_lub; [discriminate|apply Q.le_min_l]. }
  clearbody score. unfold ComparisonEngine.Math_round.
  assert (H0 : 0 <= Qfloor (score * 10 + (1 # 2))).
  { change 0 with (Qfloor 0). apply Qfloor_resp_le. lra. }
  assert (H1 : Qfloor (score * 10 + (1 # 2)) <= 1000).
  { change 1000 with (Qfloor (1000 + (1 # 2))). apply Qfloor_resp_le. lra. }
  set (k := Qfloor _) in *. clearbody k.
  rewrite Zle_Qle in H0, H1.
  change (inject_Z 0) with 0%Q in H0. change (inject_Z 1000) with 1000%Q in H1.
  set (q := inject_Z k) in *. clearbody q.
  assert (He : (q / 10 == q * (1 # 10))%Q) by field.
  rewrite He. lra.
Qed.

Lemma jsmap_set_length {V} (k : jsstring) (v : V) (m : JsMap.t V) :
  (length (JsMap.set k v m) <= S (length m))%nat.
Proof.
  induction m as [|[k' v'] m IH]; cbn [JsMap.set length]; [lia|].
  destruct (str_eqb k' k); cbn [length]; lia.
Qed.

Lemma name_map_length (ns : list JsonValidator.NutrientData) :
  (length (ComparisonEngine.name_map ns) <= length ns)%nat.
Proof.
  unfold ComparisonEngine.name_map, JsMap.of_entries.
  rewrite <- (length_map
                (fun n => (ComparisonEngine.normalizeNutrientName
                             (JsonValidator.name n), n)) ns).
  generalize (List.map
                (fun n => (ComparisonEngine.normalizeNutrientName
                             (JsonValidator.name n), n)) ns).
  intros entries.
  assert (H : forall m : JsMap.t JsonValidator.NutrientData,
             (length (fold_left (fun m e => JsMap.set (fst e) (snd e) m) entries m)
              <= length m + length entries)%nat).
  { induction entries as [|e entries IH]; intros m; cbn [fold_left length]; [lia|].
    specialize (IH (JsMap.set (fst e) (snd e) m)).
    pose proof (jsmap_set_length (fst e) (snd e) m). lia. }
  specialize (H []). cbn [length] in H. lia.
Qed.

Lemma countMatchingFields_bound (a b : JsonValidator.SupplementFactsData) :
  (ComparisonEngine.countMatchingFields a b
   <= ComparisonEngine.countTotalFields a)%nat.
Proof.
  unfold ComparisonEngine.countMatchingFields, ComparisonEngine.countTotalFields.
  cbv zeta.
  pose proof (name_map_length (JsonValidator.nutrients a)) as Hmap.
  set (claudeMap := ComparisonEngine.name_map (JsonValidator.nutrients a)) in *.
  set (per_entry := fun e : jsstring * JsonValidator.NutrientData => _).
  assert (Hsum : (list_sum (List.map per_entry claudeMap)
                  <= 3 * length claudeMap)%nat).
  { clearbody claudeMap. clear Hmap.
    induction claudeMap as [|[k n] m IH]; cbn [List.map list_sum fold_right length]; [lia|].
    fold (list_sum (List.map per_entry m)).
    assert (Hone : (per_entry (k, n) <= 3)%nat).
    { subst per_entry. cbv beta iota.
      destruct (JsMap.get k _); [|lia].
      destruct (ComparisonEngine.amountsMatch _ _),
        (ComparisonEngine.percentagesMatch _ _); lia. }
    lia. }
  repeat match goal with
         | |- context [if ComparisonEngine.no_discrepancy ?x then _ else _] =>
             destruct (ComparisonEngine.no_discrepancy x)
         end; lia.
Qed.

(** X20 (ComparisonEngine.compareSupplementFacts): the similarity score lies
    between 0 and 100; there are at most 4 + 3 x (reference nutrients) +
    (other nutrients) discrepancies; the counts of different and missing
    fields never exceed the number of discrepancies, the count of matching
    fields never exceeds the total; and a result without
    discrepancies has score 100 and does not recommend review. *)
Theorem comparison_result_is_within_bounds :
  forall a b : JsonValidator.SupplementFactsData,
    let r := ComparisonEngine.compareSupplementFacts a b in
    (0 <= ComparisonEngine.similarityScore r <= 100)%Q
    /\ (length (ComparisonEngine.discrepancies r)
        <= 4 + 3 * length (JsonValidator.nutrients a)
           + length (JsonValidator.nutrients b))%nat
    /\ (ComparisonEngine.differentCount (ComparisonEngine.fieldCounts r)
        + ComparisonEngine.missingCount (ComparisonEngine.fieldCounts r)
        <= length (ComparisonEngine.discrepancies r))%nat
    /\ (ComparisonEngine.matching (ComparisonEngine.fieldCounts r)
        <= ComparisonEngine.total (ComparisonEngine.fieldCounts r))%nat
    /\ (ComparisonEngine.hasDiscrepancies r = false ->
        ComparisonEngine.discrepancies r = []
        /\ (ComparisonEngine.similarityScore r == 100)%Q
        /\ ComparisonEngine.recommendsReview r = false).
Proof.
  intros a b. cbv zeta. unfold ComparisonEngine.compareSupplementFacts.
  set (ds := ComparisonEngine.compareTextField _ _ _ ++ _).
  cbn [ComparisonEngine.similarityScore ComparisonEngine.discrepancies
       ComparisonEngine.hasDiscrepancies ComparisonEngine.recommendsReview
       ComparisonEngine.fieldCounts ComparisonEngine.differentCount
       ComparisonEngine.missingCount ComparisonEngine.matching
       ComparisonEngine.total].
  split; [apply similarity_score_bounds|]. split; [|split; [|split]];
    [| |apply countMatchingFields_bound|].
  - subst ds. rewrite !length_app.
    pose proof (compareTextField_length (js "supplementFacts.servings")
                  (Some (JsonValidator.servings a)) (Some (JsonValidator.servings b))).
    pose proof (compareTextField_length (js "supplementFacts.servingsPerContainer")
                  (Some (JsonValidator.servingsPerContainer a))
                  (Some (JsonValidator.servingsPerContainer b))).
    pose proof (compareTextField_length (js "supplementFacts.calories")
                  (or_null (JsonValidator.calories a))
                  (or_null (JsonValidator.calories b))).
    pose proof (compareTextField_length (js "supplementFacts.protein")
                  (or_null (JsonValidator.protein a))
                  (or_null (JsonValidator.protein b))).
    unfold ComparisonEngine.compareNutrients. rewrite length_app.
    pose proof (compare_claude_length
                  (ComparisonEngine.name_map (JsonValidator.nutrients b))
                  (JsonValidator.nutrients a) 0).
    pose proof (compare_grok_length
                  (ComparisonEngine.name_map (JsonValidator.nutrients a))
                  (JsonValidator.nutrients b) 0).
    lia.
  - clearbody ds. induction ds as [|d ds IH]; [cbn; lia|].
    unfold ComparisonEngine.is_type in *. cbn [List.filter].
    destruct (ComparisonEngine.type d); cbn [length]; lia.
  - clearbody ds. intros Hnone.
    destruct ds as [|d ds]; [|discriminate].
    split; [reflexivity|].
    pose proof (score_without_discrepancies a b) as Hscore.
    split; [exact Hscore|].
    cbn [ComparisonEngine.count_severity List.filter length Nat.ltb Nat.leb orb].
    apply negb_false_iff. apply Qle_bool_iff. rewrite Hscore. discriminate.
Qed.

(* ===================================================================== *)
(** ** From an unreadable amount to the review queue *)
(* ===================================================================== *)

Lemma digits_of_digits :
  forall fuel n acc,
    Forall (fun c => isDigit c = true) acc ->
    Forall (fun c => isDigit c = true) (digits_of fuel n acc).
Proof.
  induction fuel as [|fuel IH]; intros n acc Hacc; [exact Hacc|].
  cbn [digits_of].
  assert (Hd : isDigit (48 + n mod 10)%N = true).
  { unfold isDigit.
    pose proof (N.mod_upper_bound n 10 ltac:(discriminate)) as Hm.
    set (m := (n mod 10)%N) in *. clearbody m.
    apply andb_true_iff. split; apply N.leb_le; lia. }
  destruct (n / 10 =? 0)%N; [|apply IH]; constructor; assumption.
Qed.

Lemma nat_to_string_digits (n : nat) :
  Forall (fun c => isDigit c = true) (nat_to_string n).
Proof. apply digits_of_digits. constructor. Qed.

Lemma digit_plain (c : N) :
  isDigit c = true ->
  is_separator c = false /\ (c =? 58)%N = false.
Proof.
  unfold isDigit, is_separator. intros H.
  apply andb_true_iff in H. destruct H as [H1 H2].
  apply N.leb_le in H1, H2.
  repeat split; rewrite ?orb_false_iff; repeat split; apply N.eqb_neq; lia.
Qed.

Lemma split_on_after (p : N -> bool) (x : jsstring) (c : N) (s : jsstring) :
  p c = true -> In x (Regex.split_on p s []) ->
  forall pre cur, In x (Regex.split_on p (pre ++ c :: s) cur).
Proof.
  intros Hc Hx. induction pre as [|d pre IH]; intros cur.
  - cbn. rewrite Hc. right. exact Hx.
  - cbn [app Regex.split_on]. destruct (p d); [right|]; apply IH.
Qed.

Lemma split_on_line (p : N -> bool) (line : jsstring) :
  Forall (fun c => p c = false) line ->
  forall post cur,
    post = [] \/ (exists c post', post = c :: post' /\ p c = true) ->
    In (rev cur ++ line) (Regex.split_on p (line ++ post) cur).
Proof.
  induction 1 as [|d line Hd Hline IH]; intros post cur Hpost.
  - cbn [app]. rewrite app_nil_r.
    destruct Hpost as [->|(c & post' & -> & Hc)].
    + cbn. auto.
    + cbn. rewrite Hc. left. reflexivity.
  - cbn [app Regex.split_on]. rewrite Hd.
    specialize (IH post (d :: cur) Hpost). cbn [rev] in IH.
    rewrite <- app_assoc in IH. exact IH.
Qed.

Lemma join_lines (line : jsstring) (lines : list jsstring) :
  In line lines ->
  exists pre post,
    join [10%N] lines = pre ++ line ++ post
    /\ (pre = [] \/ exists pre', pre = pre' ++ [10%N])
    /\ (post = [] \/ exists post', post = 10%N :: post').
Proof.
  induction lines as [|l lines IH]; intros Hin; [destruct Hin|].
  destruct lines as [|l2 rest].
  - destruct Hin as [->|[]]. exists [], []. cbn. rewrite app_nil_r. auto.
  - change (join [10%N] (l :: l2 :: rest))
      with (l ++ [10%N] ++ join [10%N] (l2 :: rest)).
    destruct Hin as [->|Hin].
    + exists [], ([10%N] ++ join [10%N] (l2 :: rest)). cbn [app].
      split; [reflexivity|]. split; [auto|right; eauto].
    + destruct (IH Hin) as (pre & post & Heq & Hpre & Hpost).
      exists (l ++ [10%N] ++ pre), post. rewrite Heq.
      split; [rewrite <- !app_assoc; reflexivity|]. split; [|exact Hpost].
      right. destruct Hpre as [->|[pre' ->]].
      * exists l. rewrite app_nil_r. reflexivity.
      * exists (l ++ [10%N] ++ pre'). rewrite <- !app_assoc. reflexivity.
Qed.

Lemma error_text_parts (line : jsstring) (lines : list jsstring) :
  In line lines ->
  Forall (fun c => is_separator c = false) line ->
  In line (Regex.split_on is_separator
             (js "Validation failed:" ++ [10%N] ++ join [10%N] lines) []).
Proof.
  intros Hin Hplain.
  destruct (join_lines line lines Hin) as (pre & post & -> & Hpre & Hpost).
  assert (Hx : In line (Regex.split_on is_separator (line ++ post) [])).
  { apply (split_on_line is_separator line Hplain post []).
    destruct Hpost as [->|[post' ->]]; [left; reflexivity|].
    right. exists 10%N, post'. auto. }
  destruct Hpre as [->|[pre' ->]].
  - cbn [app]. apply (split_on_after is_separator line 10%N (line ++ post)
                        eq_refl Hx (js "Validation failed:") []).
  - replace (js "Validation failed:" ++ [10%N] ++ (pre' ++ [10%N]) ++ line ++ post)
      with ((js "Validation failed:" ++ [10%N] ++ pre') ++ 10%N :: (line ++ post))
      by (rewrite <- !app_assoc; reflexivity).
    apply (split_on_after is_separator line 10%N (line ++ post) eq_refl Hx).
Qed.

Lemma trim_plain (c d : N) (middle : jsstring) :
  isWhiteSpace c = false -> isWhiteSpace d = false ->
  trim (c :: middle ++ [d]) = c :: middle ++ [d].
Proof.
  intros Hc Hd. unfold trim. cbn [trimStart]. rewrite Hc.
  unfold trimEnd. cbn [rev]. rewrite rev_app_distr. cbn [rev app trimStart].
  rewrite Hd. cbn [rev]. rewrite rev_app_distr, rev_involutive. reflexivity.
Qed.

Lemma includes_app_r (a b p : jsstring) :
  includes b p = true -> includes (a ++ b) p = true.
Proof.
  intros H. induction a as [|c a IH]; [exact H|].
  cbn [app includes]. rewrite IH. apply orb_true_r.
Qed.

Lemma indexOf_first (c : N) (a b : jsstring) :
  Forall (fun x => (x =? c)%N = false) a ->
  indexOf (a ++ c :: b) [c] = Some (length a).
Proof.
  induction 1 as [|x a Hx Ha IH].
  - cbn. rewrite N.eqb_refl. destruct b; reflexivity.
  - cbn [app indexOf startsWith length]. rewrite N.eqb_sym, Hx. cbn [andb].
    rewrite IH. reflexivity.
Qed.

Lemma severity_by_message (fieldPath message : jsstring) :
  includes (toLowerCase message) (js "amount must include") = true ->
  AIExtractor.determineValidationSeverity fieldPath message = high.
Proof.
  intros H. unfold AIExtractor.determineValidationSeverity. rewrite H.
  destruct (_ && _); reflexivity.
Qed.

Lemma forallb_plain (p : N -> bool) (l : jsstring) :
  forallb (fun c => negb (p c)) l = true ->
  Forall (fun c => p c = false) l.
Proof.
  intros H. apply List.Forall_forall. intros c Hc.
  rewrite forallb_forall in H. apply negb_true_iff. apply H. exact Hc.
Qed.

Lemma digits_plain (p : N -> bool) (l : jsstring) :
  (forall c, isDigit c = true -> p c = false) ->
  Forall (fun c => isDigit c = true) l ->
  Forall (fun c => p c = false) l.
Proof.
  intros Hp H. induction H; constructor; auto.
Qed.

Lemma amount_line_path (index : nat) :
  amount_line index = amount_path index ++ 58%N :: 32%N :: js amount_message.
Proof.
  unfold amount_line, amount_path. rewrite <- !app_assoc. reflexivity.
Qed.

Lemma amount_path_plain (p : N -> bool) (index : nat) :
  (forall c, isDigit c = true -> p c = false) ->
  forallb (fun c => negb (p c)) (js "supplementFacts.nutrients.") = true ->
  forallb (fun c => negb (p c)) (js ".amount") = true ->
  Forall (fun c => p c = false) (amount_path index).
Proof.
  intros Hd H1 H2. unfold amount_path.
  apply Forall_app. split; [apply forallb_plain; exact H1|].
  apply Forall_app. split; [|apply forallb_plain; exact H2].
  apply (digits_plain p _ Hd). apply nat_to_string_digits.
Qed.

Lemma amount_line_plain (index : nat) :
  Forall (fun c => is_separator c = false) (amount_line index).
Proof.
  rewrite amount_line_path. apply Forall_app. split.
  - apply amount_path_plain; [|reflexivity|reflexivity].
    intros c Hc. apply (digit_plain c Hc).
  - apply forallb_plain. vm_compute. reflexivity.
Qed.

Lemma amount_line_trimmed (index : nat) :
  trim (amount_line index) = amount_line index.
Proof.
  unfold amount_line.
  change (js amount_message)
    with (js "Amount must include number and unit (e.g., '100 mg', '<1 g'"
          ++ [41%N]).
  change (js "supplementFacts.nutrients.")
    with (115%N :: js "upplementFacts.nutrients.").
  cbn [app]. rewrite !app_assoc. apply trim_plain; reflexivity.
Qed.

Lemma amount_line_warning (index : nat) (lines : list jsstring) :
  In (amount_line index) lines ->
  exists w,
    In w (AIExtractor.parseValidationWarnings
            (js "Validation failed:" ++ [10%N] ++ join [10%N] lines))
    /\ AIExtractor.severity w = high.
Proof.
  intros Hin. unfold AIExtractor.parseValidationWarnings.
  fold is_separator.
  change (fun c : N => ((c =? 59) || (c =? 10))%N) with is_separator.
  set (warning_of_part := fun part : jsstring => _).
  assert (Hpart : In (amount_line index)
                     (List.filter AIExtractor.nonempty
                        (List.map trim
                           (Regex.split_on is_separator
                              (js "Validation failed:" ++ [10%N]
                               ++ join [10%N] lines) [])))).
  { apply filter_In. split.
    - apply in_map_iff. exists (amount_line index).
      split; [apply amount_line_trimmed|].
      apply error_text_parts; [exact Hin|apply amount_line_plain].
    - reflexivity. }
  assert (Hw : exists w, In w (warning_of_part (amount_line index))
                         /\ AIExtractor.severity w = high).
  { subst warning_of_part. cbv beta.
    assert (Hk : indexOf (amount_line index) (js ":")
                 = Some (length (amount_path index))).
    { rewrite amount_line_path. apply (indexOf_first 58).
      apply amount_path_plain; [|reflexivity|reflexivity].
      intros c Hc. apply (digit_plain c Hc). }
    rewrite Hk.
    assert (Hline : startsWith (toLowerCase (amount_line index))
                      (js "partial extraction") = false) by reflexivity.
    assert (Hline_high : forall fieldPath,
               AIExtractor.determineValidationSeverity fieldPath
                 (amount_line index) = high).
    { intros fieldPath. apply severity_by_message.
      rewrite amount_line_path. unfold toLowerCase. rewrite map_app.
      apply includes_app_r. vm_compute. reflexivity. }
    assert (Hrest : trim (skipn (length (amount_path index) + 1)
                                (amount_line index))
                    = js amount_message).
    { rewrite amount_line_path.
      replace (length (amount_path index) + 1)%nat
        with (length (amount_path index ++ [58%N]))
        by (rewrite length_app; reflexivity).
      change (amount_path index ++ 58%N :: 32%N :: js amount_message)
        with (amount_path index ++ [58%N] ++ 32%N :: js amount_message).
      rewrite app_assoc, skipn_app, Nat.sub_diag, skipn_all. cbn [app skipn].
      vm_compute. reflexivity. }
    rewrite Hrest.
    assert (Hmsg : startsWith (toLowerCase (js amount_message))
                     (js "partial extraction") = false)
      by (vm_compute; reflexivity).
    assert (Hmsg_high : forall fieldPath,
               AIExtractor.determineValidationSeverity fieldPath
                 (js amount_message) = high).
    { intros fieldPath. apply severity_by_message. vm_compute. reflexivity. }
    destruct ((0 <? length (amount_path index))%nat
              && (length (amount_path index) <? 100)%nat).
    - destruct (includes _ (js ".") || includes _ (js "[")).
      + rewrite Hmsg. eexists. split; [left; reflexivity|]. apply Hmsg_high.
      + rewrite Hline. eexists. split; [left; reflexivity|]. apply Hline_high.
    - rewrite Hline. eexists. split; [left; reflexivity|]. apply Hline_high. }
  destruct Hw as (w & Hw & Hhigh). exists w. split; [|exact Hhigh].
  apply in_flat_map. exists (amount_line index). split; assumption.
Qed.

Lemma nutrient_amount_issue (p : list jsstring) (n : list (jsstring * value))
    (a : jsstring) :
  prop (JObj n) "amount" = Some (JStr a) ->
  Regex.test_anchored JsonValidator.amount_regex a = false ->
  exists issues,
    JsonValidator.nutrientSchema p (Some (JObj n)) = JsonValidator.Invalid issues
    /\ In {| JsonValidator.path := p ++ [js "amount"];
             JsonValidator.message := js amount_message |} issues.
Proof.
  intros Hamount Hbad. unfold JsonValidator.nutrientSchema. cbv zeta.
  rewrite Hamount.
  assert (Hfield :
            JsonValidator.z_string_regex_opt JsonValidator.amount_regex
              amount_message (p ++ [js "amount"]) (Some (JStr a))
            = JsonValidator.Invalid
                [{| JsonValidator.path := p ++ [js "amount"];
                    JsonValidator.message := js amount_message |}]).
  { unfold JsonValidator.z_string_regex_opt. rewrite Hbad. reflexivity. }
  unfold amount_message in Hfield at 1. rewrite Hfield.
  destruct (JsonValidator.z_string_min1 _ _);
    eexists; (split; [reflexivity|]);
    cbn [JsonValidator.issues_of]; rewrite ?in_app_iff; cbn [In]; auto 6.
Qed.

Lemma z_items_issue {T} (elem : list jsstring -> option value -> JsonValidator.parsed T)
    (p : list jsstring) (issue : JsonValidator.issue) :
  forall items start index x found,
    nth_error items index = Some x ->
    elem (p ++ [nat_to_string (start + index)]) (Some x)
    = JsonValidator.Invalid found ->
    In issue found ->
    exists issues,
      JsonValidator.z_items elem p start items = JsonValidator.Invalid issues
      /\ In issue issues.
Proof.
  induction items as [|y items IH]; intros start index x found Hnth Helem Hin.
  - destruct index; discriminate.
  - cbn [JsonValidator.z_items]. destruct index as [|index].
    + injection Hnth as ->. rewrite Nat.add_0_r in Helem. rewrite Helem.
      destruct (JsonValidator.z_items elem p (S start) items);
        eexists; (split; [reflexivity|]);
        cbn [JsonValidator.issues_of]; rewrite in_app_iff; left; exact Hin.
    + destruct (IH (S start) index x found Hnth) as (issues & Hrest & Hissue);
        [replace (S start + index)%nat with (start + S index)%nat by lia;
         exact Helem|exact Hin|].
      rewrite Hrest.
      destruct (elem (p ++ [nat_to_string start]) (Some y));
        eexists; (split; [reflexivity|]);
        cbn [JsonValidator.issues_of]; rewrite in_app_iff; right; exact Hissue.
Qed.

Lemma facts_amount_issue (p : list jsstring) (sf : list (jsstring * value))
    (ns : list value) (index : nat) (n : list (jsstring * value)) (a : jsstring) :
  prop (JObj sf) "nutrients" = Some (JArr ns) ->
  nth_error ns index = Some (JObj n) ->
  prop (JObj n) "amount" = Some (JStr a) ->
  Regex.test_anchored JsonValidator.amount_regex a = false ->
  exists issues,
    JsonValidator.supplementFactsSchema p (Some (JObj sf))
    = JsonValidator.Invalid issues
    /\ In {| JsonValidator.path :=
               p ++ [js "nutrients"; nat_to_string index; js "amount"];
             JsonValidator.message := js amount_message |} issues.
Proof.
  intros Hns Hnth Hamount Hbad.
  destruct (nutrient_amount_issue
              ((p ++ [js "nutrients"]) ++ [nat_to_string (0 + index)]) n a
              Hamount Hbad) as (found & Hfound & Hin).
  destruct (z_items_issue JsonValidator.nutrientSchema (p ++ [js "nutrients"])
              _ ns 0%nat index (JObj n) found Hnth Hfound Hin)
    as (issues & Hitems & Hissue).
  replace (((p ++ [js "nutrients"]) ++ [nat_to_string (0 + index)])
           ++ [js "amount"])
    with (p ++ [js "nutrients"; nat_to_string index; js "amount"]) in Hissue
    by (rewrite <- !app_assoc; reflexivity).
  unfold JsonValidator.supplementFactsSchema. cbv zeta. rewrite Hns.
  unfold JsonValidator.z_array_default_empty. rewrite Hitems.
  destruct (JsonValidator.z_string_min1 (p ++ [js "servings"]) _),
    (JsonValidator.z_string_min1 (p ++ [js "servingsPerContainer"]) _),
    (JsonValidator.z_string_opt (p ++ [js "calories"]) _),
    (JsonValidator.z_string_opt (p ++ [js "protein"]) _);
    eexists; (split; [reflexivity|]);
    cbn [JsonValidator.issues_of]; rewrite !in_app_iff; tauto.
Qed.

Lemma product_amount_issue (fields sf : list (jsstring * value))
    (ns : list value) (index : nat) (n : list (jsstring * value)) (a : jsstring) :
  prop (JObj fields) "supplementFacts" = Some (JObj sf) ->
  prop (JObj sf) "nutrients" = Some (JArr ns) ->
  nth_error ns index = Some (JObj n) ->
  prop (JObj n) "amount" = Some (JStr a) ->
  Regex.test_anchored JsonValidator.amount_regex a = false ->
  exists issues,
    JsonValidator.productExtractionSchema [] (Some (JObj fields))
    = JsonValidator.Invalid issues
    /\ In (amount_issue index) issues.
Proof.
  intros Hsf Hns Hnth Hamount Hbad.
  destruct (facts_amount_issue ([] ++ [js "supplementFacts"]) sf ns index n a
              Hns Hnth Hamount Hbad) as (found & Hfound & Hin).
  change {| JsonValidator.path := _; JsonValidator.message := _ |}
    with (amount_issue index) in Hin.
  unfold JsonValidator.productExtractionSchema. cbv zeta. rewrite Hsf.
  unfold JsonValidator.supplementFactsSchema_optional. rewrite Hfound.
  destruct (JsonValidator.z_string_min1 ([] ++ [js "productName"]) _),
    (JsonValidator.z_string_opt ([] ++ [js "productSlogan"]) _),
    (JsonValidator.z_string_min1 ([] ++ [js "productDescription"]) _),
    (JsonValidator.z_string_opt ([] ++ [js "subbrand"]) _);
    eexists; (split; [reflexivity|]);
    cbn [JsonValidator.issues_of]; rewrite !in_app_iff; tauto.
Qed.

Lemma amount_issue_line (index : nat) :
  join (js ".") (JsonValidator.path (amount_issue index)) ++ js ": "
  ++ JsonValidator.message (amount_issue index)
  = amount_line index.
Proof.
  unfold amount_issue, amount_line.
  cbn [JsonValidator.path JsonValidator.message join].
  rewrite <- !app_assoc. reflexivity.
Qed.

Lemma high_warning_counts (w : AIExtractor.ValidationWarning)
    (l : list AIExtractor.ValidationWarning) :
  In w l -> AIExtractor.severity w = high ->
  existsb (fun x => severity_eqb (AIExtractor.severity x) high) l = true
  /\ (1 <= Repository.count_warnings high l)%nat.
Proof.
  intros Hin Hhigh. split.
  - apply existsb_exists. exists w. rewrite Hhigh. auto.
  - unfold Repository.count_warnings.
    assert (Hf : In w (List.filter
                         (fun x => severity_eqb (AIExtractor.severity x) high) l)).
    { apply filter_In. rewrite Hhigh. auto. }
    destruct (List.filter _ l); [destruct Hf|cbn; lia].
Qed.

(** X22 (productExtractionSchema, parseValidationWarnings,
    determineValidationSeverity, processSinglePDF step 7): a recovered
    object with a nutrient whose amount text the schema does not accept
    fails strict validation, is salvaged with a warning of high severity,
    is flagged for review whatever the comparison says, and is queued with
    a priority of at least 3. *)
Theorem unreadable_amount_puts_the_product_in_the_review_queue :
  forall (fields sf : list (jsstring * value)) (ns : list value) (index : nat)
         (n : list (jsstring * value)) (a : jsstring),
    prop (JObj fields) "supplementFacts" = Some (JObj sf) ->
    prop (JObj sf) "nutrients" = Some (JArr ns) ->
    nth_error ns index = Some (JObj n) ->
    prop (JObj n) "amount" = Some (JStr a) ->
    Regex.test_anchored JsonValidator.amount_regex a = false ->
    exists e warnings,
      JsonValidator.validateProductExtraction (JObj fields)
      = JsonValidator.ValidationError e
      /\ (forall response elapsed retries,
            let outcome :=
              AIExtractor.validateRecovered (JObj fields) response elapsed
                retries in
            AIExtractor.success outcome = true
            /\ AIExtractor.validationWarnings outcome = Some warnings)
      /\ (exists w, In w warnings /\ AIExtractor.severity w = high)
      /\ (forall productId productCode comparison now
                 (table : gmap Z Repository.HumanReviewQueue),
            BatchProcessor.needsReview comparison warnings = true
            /\ exists row,
                 BatchProcessor.flagForReview productId productCode comparison
                   (Some warnings) now table !! productId = Some row
                 /\ (3 <= Repository.review_priority row)%nat).
Proof.
  intros fields sf ns index n a Hsf Hns Hnth Hamount Hbad.
  destruct (product_amount_issue fields sf ns index n a Hsf Hns Hnth Hamount Hbad)
    as (issues & Hschema & Hissue).
  set (lines := List.map
                  (fun err => join (js ".") (JsonValidator.path err) ++ js ": "
                              ++ JsonValidator.message err) issues).
  set (e := js "Validation failed:" ++ [10%N] ++ join [10%N] lines).
  assert (Hline : In (amount_line index) lines).
  { subst lines. apply in_map_iff. exists (amount_issue index).
    split; [apply amount_issue_line|exact Hissue]. }
  destruct (amount_line_warning index lines Hline) as (w & Hw & Hhigh).
  fold e in Hw.
  assert (Hvalidate : JsonValidator.validateProductExtraction (JObj fields)
                      = JsonValidator.ValidationError e).
  { unfold JsonValidator.validateProductExtraction. rewrite Hschema. reflexivity. }
  destruct (high_warning_counts w _ Hw Hhigh) as [Hexists Hcount].
  exists e, (AIExtractor.parseValidationWarnings e).
  split; [exact Hvalidate|]. split; [|split].
  - intros response elapsed retries. cbv zeta.
    unfold AIExtractor.validateRecovered. rewrite Hvalidate.
    unfold JsonValidator.safeParseProductExtraction. rewrite Hschema.
    cbn [is_object]. split; reflexivity.
  - exists w. split; assumption.
  - intros productId productCode comparison now table.
    assert (Hneeds : BatchProcessor.needsReview comparison
                       (AIExtractor.parseValidationWarnings e) = true).
    { unfold BatchProcessor.needsReview. rewrite Hexists.
      rewrite orb_true_r. reflexivity. }
    split; [exact Hneeds|].
    unfold BatchProcessor.flagForReview. cbv zeta. cbn [Repository.or_empty].
    rewrite Hneeds.
    destruct (addToReviewQueue_row productId productCode
                (match comparison with
                 | Some c => ComparisonEngine.discrepancies c
                 | None => []
                 end)
                (Some (AIExtractor.parseValidationWarnings e)) now table)
      as (row & Hrow & _ & _ & _ & Hprio & _).
    exists row. split; [exact Hrow|].
    rewrite Hprio. cbn [Repository.or_empty]. lia.
Qed.

Lemma unreadable_amount_witness :
  exists e warnings,
    JsonValidator.validateProductExtraction unitless_amount_json
    = JsonValidator.ValidationError e
    /\ (exists w, In w warnings /\ AIExtractor.severity w = high)
    /\ BatchProcessor.needsReview None warnings = true.
Proof.
  destruct (unreadable_amount_puts_the_product_in_the_review_queue
              [ (js "productName", JStr (js "Zinc Plus"));
                (js "productDescription", JStr (js "A zinc supplement."));
                (js "directions", JStr (js "Take one capsule daily."));
                (js "supplementFacts",
                 JObj [ (js "servings", JStr (js "1 capsule"));
                        (js "servingsPerContainer", JStr (js "30"));
                        (js "nutrients",
                         JArr [ JObj [ (js "name", JStr (js "Zinc"));
                                       (js "amount", JStr (js "15 mg")) ];
                                JObj [ (js "name", JStr (js "Copper"));
                                       (js "amount", JStr (js "2")) ] ]) ]) ]
              [ (js "servings", JStr (js "1 capsule"));
                (js "servingsPerContainer", JStr (js "30"));
                (js "nutrients",
                 JArr [ JObj [ (js "name", JStr (js "Zinc"));
                               (js "amount", JStr (js "15 mg")) ];
                        JObj [ (js "name", JStr (js "Copper"));
                               (js "amount", JStr (js "2")) ] ]) ]
              [ JObj [ (js "name", JStr (js "Zinc"));
                       (js "amount", JStr (js "15 mg")) ];
                JObj [ (js "name", JStr (js "Copper"));
                       (js "amount", JStr (js "2")) ] ]
              1%nat
              [ (js "name", JStr (js "Copper")); (js "amount", JStr (js "2")) ]
              (js "2") eq_refl eq_refl eq_refl eq_refl eq_refl)
    as (e & warnings & Hvalidate & _ & Hhigh & Hflag).
  exists e, warnings. split; [exact Hvalidate|]. split; [exact Hhigh|].
  exact (proj1 (Hflag 1 (js "0358") None 0 empty)).
Defined.
